(** * fetch.py: the dbGaP file fetcher

    A shallow embedding of [src/fetch.py] (class [dbGaPFileFetcher]) and the
    properties of its retry-and-verification loop, its verification
    strategies, its archive extraction and its relocation step.

    What is modelled, and how:
    - Python [str] is [string]; Python [int] is [Z]; [None] is [None].
    - The working directory and the output directory are trees of files and
      directories ([node]); a directory is the list of its entries in the
      order [os.listdir]/[os.scandir] reports them.
    - The external programs (the [prefetch] downloader and [tar]) are black
      boxes: one function [shell] that, given the command line and the
      current directory, changes the machine and returns an exit status.
    - Exceptions are values of [exn]; a computation that may raise returns a
      [result].
    - The [while] loop of [download_files] has no bound in the source, so
      its model takes fuel and returns [None] when the fuel runs out.

    What is left out: console output ([print]), symbolic links and special
    files, permission errors, and the case where the output directory lies
    inside the temporary directory or the other way round.  External tools
    are taken to leave the temporary directory itself in place. *)

From Stdlib Require Import ZArith String Ascii List Lia.
From stdpp Require Import base option list strings gmap.

#[local] Set Warnings "-register-all".

Local Open Scope Z_scope.
Local Open Scope string_scope.
Local Open Scope list_scope.

(** ** Python strings *)

Module Str.

(** [bool(s)]: a string is true when it is not empty. *)
Definition truthy (s : string) : bool :=
  match s with
  | EmptyString => false
  | String _ _ => true
  end.

(** [s.startswith(p)]. *)
Definition startswith (s p : string) : bool := String.prefix p s.

(** [s.endswith(suf)]. *)
Definition endswith (s suf : string) : bool :=
  let n := String.length s in
  let m := String.length suf in
  (m <=? n)%nat && String.eqb (String.substring (n - m) m s) suf.

(** [s.split(sep)[0]] for a non-empty [sep]: the text before the first
    occurrence of [sep], the whole of [s] when there is none. *)
Fixpoint split_head (sep s : string) : string :=
  if String.prefix sep s then ""
  else match s with
       | EmptyString => ""
       | String c s' => String c (split_head sep s')
       end.

(** [s[:len(s) - k]] for [k <= len(s)]. *)
Definition drop_end (k : nat) (s : string) : string :=
  String.substring 0 (String.length s - k) s.

End Str.

(** ** [os.path] *)

Module Path.

(** [posixpath.join(a, b)]. *)
Definition join (a b : string) : string :=
  if Str.startswith b "/" then b
  else if negb (Str.truthy a) || Str.endswith a "/" then a +:+ b
  else a +:+ "/" +:+ b.

End Path.

(** ** Exceptions and results *)

Inductive exn :=
| OSError (path : string)                 (* [open] on a file that cannot be read *)
| KeyError (key : string)
| FileExistsError (path : string)
| FileNotFoundError (path : string)
| IsADirectoryError (path : string)
| RuntimeError (msg : string)
| ShutilError (failed : list (list string)). (* [shutil.Error]: the paths that failed *)

Inductive result (A : Type) :=
| Return (a : A)
| Raise (e : exn).
Arguments Return {A} a.
Arguments Raise {A} e.

Definition raises {A} (r : result A) : Prop :=
  match r with Return _ => False | Raise _ => True end.

(** ** Directory trees *)

Inductive node :=
| File (data : string)
| Dir (entries : list (string * node)).

Abbreviation dirents := (list (string * node)).

Module FS.

(** The entry called [name], the first one if the list repeats a name. *)
Fixpoint lookup (name : string) (d : dirents) : option node :=
  match d with
  | [] => None
  | (k, n) :: d' => if String.eqb k name then Some n else lookup name d'
  end.

(** Replace the entry called [name], or add it.  [os.listdir] promises no
    order: where a new entry goes in the list (here, the end) is a choice of
    the model.  The properties proved of the program do not rest on it:
    they speak of a directory after a write through [lookup] and paths. *)
Fixpoint put (name : string) (n : node) (d : dirents) : dirents :=
  match d with
  | [] => [(name, n)]
  | (k, x) :: d' =>
      if String.eqb k name then (k, n) :: d' else (k, x) :: put name n d'
  end.

(** Drop every entry called [name]. *)
Fixpoint del (name : string) (d : dirents) : dirents :=
  match d with
  | [] => []
  | (k, x) :: d' =>
      if String.eqb k name then del name d' else (k, x) :: del name d'
  end.

(** [os.listdir(directory)]. *)
Definition listdir (d : dirents) : list string := map fst d.

(** A path component that names the directory itself or its parent, or
    nothing at all: joined to a directory it resolves to a directory that
    exists already. *)
Definition not_a_child (name : string) : bool :=
  String.eqb name "" || String.eqb name "." || String.eqb name "..".

(** [os.mkdir(os.path.join(directory, name))] for a [name] without a
    slash; [path] is the joined path, reported in the exception.  The
    place of the new directory in the list is, as for [put], a choice of
    the model. *)
Definition mkdir (path name : string) (d : dirents) : result dirents :=
  if not_a_child name then Raise (FileExistsError path)
  else match lookup name d with
       | Some _ => Raise (FileExistsError path)
       | None => Return (d ++ [(name, Dir [])])
       end.

(** [os.remove(os.path.join(directory, name))] for an entry name. *)
Definition remove (path name : string) (d : dirents) : result dirents :=
  match lookup name d with
  | None => Raise (FileNotFoundError path)
  | Some (Dir _) => Raise (IsADirectoryError path)
  | Some (File _) => Return (del name d)
  end.

(** The node reached from a node along a relative path. *)
Fixpoint sub_at (p : list string) (n : node) : option node :=
  match p with
  | [] => Some n
  | name :: p' =>
      match n with
      | File _ => None
      | Dir d =>
          match lookup name d with
          | None => None
          | Some x => sub_at p' x
          end
      end
  end.

(** What is at a relative path below a directory path that may hold
    nothing. *)
Definition at_path (p : list string) (o : option node) : option node :=
  match o with
  | None => None
  | Some n => sub_at p n
  end.

(** The content of the regular file at a relative path, if there is one. *)
Definition file_at (p : list string) (o : option node) : option string :=
  match at_path p o with
  | Some (File c) => Some c
  | _ => None
  end.

(** Is there a directory at a relative path? *)
Definition dir_at (p : list string) (o : option node) : bool :=
  match at_path p o with
  | Some (Dir _) => true
  | _ => false
  end.

(** No entry name occurs twice in a directory, at any depth: what a
    directory tree on disk looks like. *)
Fixpoint well_formed (n : node) : bool :=
  match n with
  | File _ => true
  | Dir d =>
      bool_decide (NoDup (map fst d))
      && (fix all (l : dirents) : bool :=
            match l with
            | [] => true
            | (_, x) :: l' => well_formed x && all l'
            end) d
  end.

End FS.

(** ** [shutil.copytree] with [copy_function=shutil.move] and
    [dirs_exist_ok=True]

    After CPython's [shutil]: [copytree] lists the source directory, makes
    the destination directory ([os.makedirs(dst, exist_ok=True)], which
    fails when [dst] is a regular file), and then handles the entries in
    turn: a directory by a recursive [copytree], anything else by the copy
    function.  An [OSError] met on the way is recorded and the walk goes on;
    when the walk is over and something was recorded, [shutil.Error] is
    raised.  [shutil.move(src, dst)] renames [src] to [dst], replacing a
    regular file that is there; when [dst] is an existing directory the
    file is moved inside it under its own name, and that fails when the
    name is taken. *)

Module Shutil.

(** One entry [name] of the source directory reached by [path], moved
    onto the destination directory whose entries are [dd].  Returns what
    is left at the source ([None] when the entry is gone), the
    destination's entries and the source paths that failed. *)
Fixpoint copy_node (path : list string) (name : string) (n : node)
    (dd : dirents) {struct n}
  : option node * dirents * list (list string) :=
  match n with
  | File c =>
      match FS.lookup name dd with
      | Some (Dir inner) =>
          match FS.lookup name inner with
          | Some _ => (Some (File c), dd, [path ++ [name]])
          | None =>
              (None, FS.put name (Dir (FS.put name (File c) inner)) dd, [])
          end
      | _ => (None, FS.put name (File c) dd, [])
      end
  | Dir sub =>
      match FS.lookup name dd with
      | Some (File _) => (Some (Dir sub), dd, [path ++ [name]])
      | other =>
          let inner := match other with Some (Dir i) => i | _ => [] end in
          let '(sub', inner', errs) :=
            (fix go (l : dirents) (acc : dirents)
               : dirents * dirents * list (list string) :=
               match l with
               | [] => ([], acc, [])
               | (k, x) :: l' =>
                   let '(r, acc1, e1) := copy_node (path ++ [name]) k x acc in
                   let '(rest, acc2, e2) := go l' acc1 in
                   (match r with
                    | Some x' => (k, x') :: rest
                    | None => rest
                    end, acc2, e1 ++ e2)
               end) sub inner in
          (Some (Dir sub'), FS.put name (Dir inner') dd, errs)
      end
  end.

(** The loop over the listed entries of one directory. *)
Fixpoint copy_entries (path : list string) (l : dirents) (acc : dirents)
  : dirents * dirents * list (list string) :=
  match l with
  | [] => ([], acc, [])
  | (k, x) :: l' =>
      let '(r, acc1, e1) := copy_node path k x acc in
      let '(rest, acc2, e2) := copy_entries path l' acc1 in
      (match r with
       | Some x' => (k, x') :: rest
       | None => rest
       end, acc2, e1 ++ e2)
  end.

(** [shutil.copytree(src, dst, copy_function=shutil.move,
    dirs_exist_ok=True)] at the top: [dst_path] is the destination's
    path, [dst] what is there. *)
Definition copytree (src : dirents) (dst_path : string) (dst : option node)
  : result unit * dirents * option node :=
  match dst with
  | Some (File c) => (Raise (FileExistsError dst_path), src, Some (File c))
  | other =>
      let inner := match other with Some (Dir i) => i | _ => [] end in
      let '(src', inner', errs) := copy_entries [] src inner in
      (match errs with
       | [] => Return tt
       | _ => Raise (ShutilError errs)
       end, src', Some (Dir inner'))
  end.

(** What a move without failures guarantees for the destination entry
    [name], which held [o] before and holds [o'] after, when the source
    node [x] was moved onto it and [r] is what stayed behind. *)
Record moved (name : string) (x : node) (r o o' : option node) : Prop := {
  moved_cleared : forall q c, FS.at_path q r <> Some (File c);
  moved_arrival : forall q c,
    FS.sub_at q x = Some (File c) ->
    if FS.dir_at q o
    then FS.file_at (q ++ [List.last q name]) o' = Some c
    else FS.file_at q o' = Some c;
  moved_kept : forall q c,
    FS.file_at q o = Some c ->
    FS.file_at q o' = Some c \/ exists c', FS.sub_at q x = Some (File c')
}.

End Shutil.

(** ** [csv.DictReader] *)

Module Csv.

(** What [csv.reader] yields for a file: the fields of each line, an
    empty list for a blank line. *)
Abbreviation lines := (list (list string)).

(** The dictionary [DictReader] builds for one row: the field names
    zipped with the row (a later duplicate name wins), then [None] under
    every field name the row is too short for.  Fields beyond the header
    go under the key [None], which no string key reaches; they are left
    out. *)
Definition row_dict (fieldnames row : list string)
  : gmap string (option string) :=
  let d := fold_left (fun d kv => <[kv.1 := Some kv.2]> d)
                     (zip fieldnames row) ∅ in
  fold_left (fun d k => <[k := None]> d)
            (drop (length row) fieldnames) d.

(** The rows [DictReader] iterates over: the first line is the header,
    blank lines after it are skipped. *)
Definition DictReader (f : lines) : list (gmap string (option string)) :=
  match f with
  | [] => []
  | fieldnames :: body =>
      map (row_dict fieldnames) (filter (fun r => r ≠ []) body)
  end.

End Csv.

(** ** The process and its surroundings *)

(** Which external program a [subprocess.call] of the source starts. *)
Inductive tool := Downloader | Extractor.

Inductive event := Exec (t : tool) (cmd : string).

Definition exec_by (t : tool) (e : event) : bool :=
  match t, e with
  | Downloader, Exec Downloader _ => true
  | Extractor, Exec Extractor _ => true
  | _, _ => false
  end.

(** How many times a tool was started in a trace. *)
Definition invocations (t : tool) (tr : list event) : nat :=
  length (List.filter (exec_by t) tr).

(** The command lines a tool was started with, oldest first. *)
Definition commands (t : tool) (tr : list event) : list string :=
  map (fun e => match e with Exec _ c => c end) (List.filter (exec_by t) tr).

Section Fetcher.

(** Everything outside the two directory trees: the network, the remote
    repository, other files, the clock. *)
Variable Env : Type.

(** What external programs can see and change: the surroundings, the
    temporary working directory and whatever is at the output
    directory's path ([None]: nothing). *)
Record machine := Machine {
  env : Env;
  tmp : dirents;
  out : option node
}.

(** The Python process: the machine, the current directory and the
    external programs started so far. *)
Record proc := Proc {
  mach : machine;
  cwd : string;
  trace : list event
}.

(** [subprocess.call(cmd, shell=True)] run in a current directory. *)
Variable shell : string -> string -> machine -> machine * Z.

(** [open(path)] read through [csv.reader]: [None] when the file cannot
    be opened.  A relative path is resolved against the current
    directory. *)
Variable open_csv : machine -> string -> string -> option Csv.lines.

(** [os.path.abspath(path)] in a current directory. *)
Variable abspath : string -> string -> string.

(** The name [tempfile.TemporaryDirectory()] picks. *)
Variable mkdtemp : Env -> Env * string.

Definition set_tmp (d : dirents) (st : proc) : proc :=
  {| mach := {| env := env (mach st); tmp := d; out := out (mach st) |};
     cwd := cwd st; trace := trace st |}.

Definition set_out (o : option node) (st : proc) : proc :=
  {| mach := {| env := env (mach st); tmp := tmp (mach st); out := o |};
     cwd := cwd st; trace := trace st |}.

Definition chdir (d : string) (st : proc) : proc :=
  {| mach := mach st; cwd := d; trace := trace st |}.

Definition subprocess_call (t : tool) (cmd : string) (st : proc)
  : Z * proc :=
  let '(m, rc) := shell cmd (cwd st) (mach st) in
  (rc, {| mach := m; cwd := cwd st; trace := trace st ++ [Exec t cmd] |}).

(** *** class dbGaPFileFetcher *)

Record dbGaPFileFetcher := {
  ngc_file : string;
  prefetch : string;
  output_dir : string
}.

(** [__init__(self, ngc_file, prefetch, output_dir)]. *)
Definition init (wd ngc pf outdir : string) : dbGaPFileFetcher :=
  {| ngc_file := abspath wd ngc;
     prefetch := abspath wd pf;
     output_dir := abspath wd outdir |}.

Section Methods.

Variable self : dbGaPFileFetcher.

(** The loop of [_read_manifest]: [files.append(row["File Name"])] for
    each row; a row without the key raises [KeyError]. *)
Fixpoint file_names (rows : list (gmap string (option string)))
  : result (list (option string)) :=
  match rows with
  | [] => Return []
  | row :: rows' =>
      match row !! "File Name" with
      | None => Raise (KeyError "File Name")
      | Some v =>
          match file_names rows' with
          | Return files => Return (v :: files)
          | Raise e => Raise e
          end
      end
  end.

(** [_read_manifest(self, manifest)]: the values are strings, or [None]
    for a row that ends before the column. *)
Definition _read_manifest (manifest : string) (st : proc)
  : result (list (option string)) :=
  match open_csv (mach st) (cwd st) manifest with
  | None => Raise (OSError manifest)
  | Some f => file_names (Csv.DictReader f)
  end.

(** The command line [_run_prefetch] builds. *)
Definition prefetch_cmd (cart_file : string) : string :=
  let cmd :=
    prefetch self +:+ " " +:+
    "--ngc " +:+ ngc_file self +:+ " " +:+
    "--order kart " +:+
    "--cart " +:+ cart_file +:+ " " +:+
    "--max-size 500000000" in
  if Str.truthy (output_dir self)
  then cmd +:+ " --output-directory " +:+ output_dir self
  else cmd.

(** [_run_prefetch(self, cart_file)]. *)
Definition _run_prefetch (cart_file : string) (st : proc) : Z * proc :=
  subprocess_call Downloader (prefetch_cmd cart_file) st.

(** [_check_prefetch_against_manifest(self, directory, manifest)];
    [directory] is the temporary directory. *)
Definition _check_prefetch_against_manifest (manifest : string)
    (st : proc) : result bool :=
  match _read_manifest manifest st with
  | Raise e => Raise e
  | Return expected_files =>
      let downloaded_files := FS.listdir (tmp (mach st)) in
      Return (bool_decide
                ((list_to_set (Some <$> downloaded_files)
                   : gset (option string))
                 = list_to_set expected_files))
  end.

(** [_check_prefetch_against_n_files(self, directory, n_files)]. *)
Definition _check_prefetch_against_n_files (n_files : Z) (st : proc)
  : result bool :=
  let downloaded_files := FS.listdir (tmp (mach st)) in
  Return (Z.of_nat (length downloaded_files) =? n_files)%Z.

(** [f.endswith(".tar") or f.endswith(".tar.gz")]. *)
Definition is_archive (f : string) : bool :=
  Str.endswith f ".tar" || Str.endswith f ".tar.gz".

(** The body of the [for f in tar_files] loop of [_untar]. *)
Fixpoint untar_each (directory : string) (tar_files : list string)
    (st : proc) : result unit * proc :=
  match tar_files with
  | [] => (Return tt, st)
  | f :: rest =>
      let stem := Str.split_head ".tar" f in
      let extract_directory := Path.join directory stem in
      match FS.mkdir extract_directory stem (tmp (mach st)) with
      | Raise e => (Raise e, st)
      | Return d =>
          let cmd := "tar -xvf " +:+ f +:+ " -C " +:+ extract_directory in
          let '(returned_value, st1) :=
            subprocess_call Extractor cmd (set_tmp d st) in
          if negb (returned_value =? 0)%Z
          then (Raise (RuntimeError ("Failed to untar " +:+ f)), st1)
          else
            match FS.remove (Path.join directory f) f (tmp (mach st1)) with
            | Raise e => (Raise e, st1)
            | Return d' => untar_each directory rest (set_tmp d' st1)
            end
      end
  end.

(** The command line [_untar] builds for the archive [f]. *)
Definition tar_cmd (directory f : string) : string :=
  "tar -xvf " +:+ f +:+ " -C " +:+
  Path.join directory (Str.split_head ".tar" f).

(** [_untar(self, directory)]. *)
Definition _untar (directory : string) (st : proc) : result unit * proc :=
  let tar_files := List.filter is_archive (FS.listdir (tmp (mach st))) in
  untar_each directory tar_files st.

(** The name of an archive without its [.tar] or [.tar.gz]. *)
Definition archive_stem (f : string) : string :=
  if Str.endswith f ".tar.gz" then Str.drop_end 7 f else Str.drop_end 4 f.

(** An extractor that keeps to the directory it is told to unpack into:
    run for the archive [f], it changes no other entry of the working
    directory and leaves that directory a directory. *)
Definition extracts_within (wd directory f : string) : Prop :=
  forall m : machine,
    let m' := (shell (tar_cmd directory f) wd m).1 in
    (forall name, name <> Str.split_head ".tar" f ->
       FS.lookup name (tmp m') = FS.lookup name (tmp m))
    /\ ((exists i, FS.lookup (Str.split_head ".tar" f) (tmp m) = Some (Dir i)) ->
        exists i', FS.lookup (Str.split_head ".tar" f) (tmp m') = Some (Dir i')).

(** The same of one run of the extractor, the one started for [f] on the
    machine [m]. *)
Definition keeps_within (wd directory f : string) (m : machine) : Prop :=
  let m' := (shell (tar_cmd directory f) wd m).1 in
  (forall name, name <> Str.split_head ".tar" f ->
     FS.lookup name (tmp m') = FS.lookup name (tmp m))
  /\ ((exists i, FS.lookup (Str.split_head ".tar" f) (tmp m) = Some (Dir i)) ->
      exists i', FS.lookup (Str.split_head ".tar" f) (tmp m') = Some (Dir i')).

(** The machine on which the loop of [_untar], entered in [st], starts the
    extractor for [f]: the archives [pre] that come before [f] have been
    handled, and the directory for [f] has just been made. *)
Definition extractor_turn (directory : string) (st : proc)
    (pre : list string) (f : string) (m : machine) : Prop :=
  exists st1 d,
    untar_each directory pre st = (Return tt, st1)
    /\ FS.mkdir (Path.join directory (Str.split_head ".tar" f))
                (Str.split_head ".tar" f) (tmp (mach st1)) = Return d
    /\ m = mach (set_tmp d st1).

(** *** [download_files] *)

(** Truth values of the optional arguments. *)
Definition manifest_given (manifest : option string) : bool :=
  match manifest with Some m => Str.truthy m | None => false end.

Definition n_files_given (n_files : option Z) : bool :=
  match n_files with Some n => negb (n =? 0)%Z | None => false end.

(** Lines 55-61: the [if manifest / elif n_files / else] that decides
    [all_files_downloaded]. *)
Definition all_files_downloaded (manifest : option string)
    (n_files : option Z) (st : proc) : result bool :=
  if manifest_given manifest then
    match manifest with
    | Some m => _check_prefetch_against_manifest m st
    | None => Return true
    end
  else if n_files_given n_files then
    match n_files with
    | Some n => _check_prefetch_against_n_files n st
    | None => Return true
    end
  else
    Return true.

(** How the [while] loop is left. *)
Inductive loop_exit :=
| Exhausted   (* [return False] at [i == n_retries] *)
| Verified.   (* [all_files_downloaded] became true *)

(** Lines 49-62, entered with attempt index [i]. *)
Fixpoint attempts (fuel : nat) (cart_file : string)
    (manifest : option string) (n_files : option Z) (n_retries : Z)
    (i : Z) (st : proc) : option (result loop_exit * proc) :=
  match fuel with
  | O => None
  | S fuel' =>
      let '(_, st1) := _run_prefetch cart_file st in
      if (i =? n_retries)%Z then Some (Return Exhausted, st1)
      else
        match all_files_downloaded manifest n_files st1 with
        | Raise e => Some (Raise e, st1)
        | Return true => Some (Return Verified, st1)
        | Return false =>
            attempts fuel' cart_file manifest n_files n_retries (i + 1) st1
        end
  end.

(** The process after [k] runs of the downloader (the verification in
    between reads the machine and changes nothing). *)
Definition after_downloads (cart_file : string) (k : nat) (st : proc)
  : proc :=
  Nat.iter k (fun s => snd (_run_prefetch cart_file s)) st.

(** Lines 63-68: extraction, then relocation. *)
Definition extraction (temp_dir : string) (untar : bool) (st : proc)
  : result unit * proc :=
  if untar then _untar temp_dir st else (Return tt, st).

Definition finish (temp_dir original_working_directory : string)
    (untar : bool) (st : proc) : result bool * proc :=
  let '(r, st1) := extraction temp_dir untar st in
  match r with
  | Raise e => (Raise e, st1)
  | Return _ =>
      let st2 := chdir original_working_directory st1 in
      let '(r', src', dst') :=
        Shutil.copytree (tmp (mach st2)) (output_dir self)
                        (out (mach st2)) in
      let st3 := set_out dst' (set_tmp src' st2) in
      match r' with
      | Raise e => (Raise e, st3)
      | Return _ => (Return true, st3)
      end
  end.

(** Lines 44-45: a fresh, empty temporary directory is made and
    entered.  Returns its name and the process inside it. *)
Definition enter_temp_dir (st : proc) : string * proc :=
  let '(e, temp_dir) := mkdtemp (env (mach st)) in
  (temp_dir,
   chdir temp_dir
     {| mach := {| env := e; tmp := []; out := out (mach st) |};
        cwd := cwd st; trace := trace st |}).

(** The [with tempfile.TemporaryDirectory() as temp_dir] block, up to
    the point where the directory is cleaned up. *)
Definition with_temp_dir (fuel : nat) (cart : string)
    (manifest : option string) (n_files : option Z) (n_retries : Z)
    (untar : bool) (st : proc) : option (result bool * proc) :=
  let cart_file := abspath (cwd st) cart in
  let original_working_directory := cwd st in
  let '(temp_dir, st0) := enter_temp_dir st in
  match attempts fuel cart_file manifest n_files n_retries 1 st0 with
  | None => None
  | Some (Raise e, st1) => Some (Raise e, st1)
  | Some (Return Exhausted, st1) => Some (Return false, st1)
  | Some (Return Verified, st1) =>
      Some (finish temp_dir original_working_directory untar st1)
  end.

(** [download_files(self, cart, manifest, n_files, n_retries, untar)]:
    the block above, after which the temporary directory is removed
    with all it holds, on every way out. *)
Definition download_files (fuel : nat) (cart : string)
    (manifest : option string) (n_files : option Z) (n_retries : Z)
    (untar : bool) (st : proc) : option (result bool * proc) :=
  match with_temp_dir fuel cart manifest n_files n_retries untar st with
  | None => None
  | Some (r, st') => Some (r, set_tmp [] st')
  end.

End Methods.

End Fetcher.

Arguments Machine {Env} _ _ _.
Arguments Proc {Env} _ _ _.
Arguments env {Env} _.
Arguments tmp {Env} _.
Arguments out {Env} _.
Arguments mach {Env} _.
Arguments cwd {Env} _.
Arguments trace {Env} _.

(** ** A concrete machine for the examples

    The surroundings are a counter of downloader runs.  The downloader of
    the examples delivers one more file of the cart on each run, into the
    current directory; the extractor answers 0 for every archive but
    [broken.tar] and unpacks nothing. *)

Module Scenario.

Definition cart_names : list string := ["a.txt"; "b.txt"; "c.txt"].

Definition is_tar_cmd (cmd : string) : bool := Str.startswith cmd "tar ".

Definition shell (cmd wd : string) (m : machine nat) : machine nat * Z :=
  if is_tar_cmd cmd then
    (m, if String.eqb cmd "tar -xvf broken.tar -C /tmp/tmpk3v9/broken"
        then 2 else 0)
  else
    match nth_error cart_names (env m) with
    | Some name =>
        ({| env := S (env m);
            tmp := FS.put name (File "data") (tmp m);
            out := out m |}, 0)
    | None =>
        ({| env := S (env m); tmp := tmp m; out := out m |}, 0)
    end.

(** A downloader that delivers two archives and a text file at once, and
    an extractor that unpacks one file into the directory of
    [reads.tar.gz]; [strict] makes it report failure on [broken.tar]. *)
Definition shell_archives (strict : bool) (cmd wd : string)
    (m : machine nat) : machine nat * Z :=
  if is_tar_cmd cmd then
    if String.eqb cmd "tar -xvf reads.tar.gz -C /tmp/tmpk3v9/reads" then
      match FS.lookup "reads" (tmp m) with
      | Some (Dir i) =>
          ({| env := env m;
              tmp := FS.put "reads"
                       (Dir (FS.put "reads.fastq" (File "ACGT") i)) (tmp m);
              out := out m |}, 0)
      | _ => (m, 0)
      end
    else if strict
            && String.eqb cmd "tar -xvf broken.tar -C /tmp/tmpk3v9/broken"
    then (m, 2)
    else (m, 0)
  else
    ({| env := S (env m);
        tmp := FS.put "broken.tar" (File "?")
                 (FS.put "notes.txt" (File "n")
                    (FS.put "reads.tar.gz" (File "gz") (tmp m)));
        out := out m |}, 0).

(** A downloader that never delivers anything and reports failure. *)
Definition shell_down (cmd wd : string) (m : machine nat) : machine nat * Z :=
  (m, 1).

(** A downloader that delivers two archives whose names differ in the
    suffix only. *)
Definition shell_twins (cmd wd : string) (m : machine nat) : machine nat * Z :=
  if is_tar_cmd cmd then (m, 0)
  else
    ({| env := S (env m);
        tmp := FS.put "sample.tar.gz" (File "gz")
                 (FS.put "sample.tar" (File "tar") (tmp m));
        out := out m |}, 0).

Definition open_csv (m : machine nat) (wd path : string) : option Csv.lines :=
  if String.eqb path "/data/manifest.csv" then
    Some [["File Name"; "Size"]; ["a.txt"; "10"]; []; ["b.txt"; "20"]]
  else if String.eqb path "/data/no_column.csv" then
    Some [["Name"; "Size"]; ["a.txt"; "10"]]
  else if String.eqb path "/data/header_only.csv" then
    Some [["Name"; "Size"]]
  else None.

Definition abspath (wd path : string) : string :=
  if Str.startswith path "/" then path else Path.join wd path.

Definition mkdtemp (e : nat) : nat * string := (e, "/tmp/tmpk3v9").

Definition fetcher : dbGaPFileFetcher :=
  init abspath "/home/u" "prj.ngc" "/usr/bin/prefetch" "out".

(** The process before the call: nothing at the output path yet. *)
Definition start : proc nat :=
  {| mach := {| env := 0%nat; tmp := []; out := None |};
     cwd := "/home/u"; trace := [] |}.

(** The process before a call that finds, at the output path, a directory
    holding a directory called [a.txt]. *)
Definition start_onto_directory : proc nat :=
  {| mach := {| env := 0%nat; tmp := [];
                out := Some (Dir [("a.txt", Dir []); ("old.txt", File "old")]) |};
     cwd := "/home/u"; trace := [] |}.

End Scenario.

(** ** What relocation leaves behind and what it keeps *)

Module Tree.

(** A tree without its regular files: the empty directories that
    [copytree] with [shutil.move] leaves at the source. *)
Fixpoint skeleton (n : node) : option node :=
  match n with
  | File _ => None
  | Dir d =>
      Some (Dir ((fix go (l : dirents) : dirents :=
                    match l with
                    | [] => []
                    | (k, x) :: l' =>
                        match skeleton x with
                        | Some x' => (k, x') :: go l'
                        | None => go l'
                        end
                    end) d))
  end.

Fixpoint skeleton_entries (l : dirents) : dirents :=
  match l with
  | [] => []
  | (k, x) :: l' =>
      match skeleton x with
      | Some x' => (k, x') :: skeleton_entries l'
      | None => skeleton_entries l'
      end
  end.

(** The entries of the directory at the output path; none when nothing is
    there. *)
Definition entries_of (o : option node) : dirents :=
  match o with
  | Some (Dir i) => i
  | _ => []
  end.

(** Every regular file of the source node [x], moved onto the destination
    entry [name], is either still at the source ([r] is what stayed behind)
    or in the destination, which held [o] before and holds [o'] after. *)
Definition conserved (name : string) (x : node) (r o o' : option node)
  : Prop :=
  forall q c,
    FS.sub_at q x = Some (File c) ->
    FS.at_path q r = Some (File c)
    \/ (if FS.dir_at q o
        then FS.file_at (q ++ [List.last q name]) o' = Some c
        else FS.file_at q o' = Some c).

End Tree.

(** ** The command line program

    The body of [if __name__ == "__main__"] after [parser.parse_args()]:
    [args] is the namespace the parser returns.  The parser itself is not
    modelled. *)

Module Cli.

Record Namespace := {
  ngc : string;
  cart : string;
  outdir : string;
  manifest : option string;
  n_files : option Z;
  prefetch : string;
  verbose : bool;
  untar : bool
}.

(** The value of [--prefetch] when the option is not given. *)
Definition default_prefetch : string := "prefetch".

(** The default of [download_files]'s [n_retries], which the program does
    not override. *)
Definition default_n_retries : Z := 3.

(** How the program ends: the exit status is 1 after [sys.exit(1)] and
    after an exception nobody catches, 0 at the end of the script. *)
Definition exit_status (r : result bool) : Z :=
  match r with
  | Return true => 0
  | Return false => 1
  | Raise _ => 1
  end.

End Cli.

Section Main.

Variable Env : Type.
Variable shell : string -> string -> machine Env -> machine Env * Z.
Variable open_csv : machine Env -> string -> string -> option Csv.lines.
Variable abspath : string -> string -> string.
Variable mkdtemp : Env -> Env * string.

(** Lines 153-160: the fetcher is set up, [download_files] is called with
    the default number of retries, and the program exits.  Returns the exit
    status and the process. *)
Definition main (fuel : nat) (args : Cli.Namespace) (st : proc Env)
  : option (Z * proc Env) :=
  let fetcher :=
    init abspath (cwd st) (Cli.ngc args) (Cli.prefetch args)
         (Cli.outdir args) in
  match
    download_files Env shell open_csv abspath mkdtemp fetcher fuel
      (Cli.cart args) (Cli.manifest args) (Cli.n_files args)
      Cli.default_n_retries (Cli.untar args) st
  with
  | None => None
  | Some (files_downloaded, st') =>
      Some (Cli.exit_status files_downloaded, st')
  end.

End Main.

(** ** [posixpath.abspath]

    After CPython's [posixpath]: [abspath] joins a path that does not start
    with a slash to the current directory and normalises the result;
    [normpath] drops empty and [.] components, lets [..] cancel the
    component before it, keeps one leading slash (two when the path starts
    with exactly two) and answers [.] for an empty result. *)

Module Posix.

(** [s.split('/')]. *)
Fixpoint split_slash (s : string) : list string :=
  match s with
  | EmptyString => [""]
  | String c s' =>
      if Ascii.eqb c "/" then "" :: split_slash s'
      else match split_slash s' with
           | h :: t => String c h :: t
           | [] => [String c ""]
           end
  end.

(** ['/'.join(comps)]. *)
Fixpoint join_slash (comps : list string) : string :=
  match comps with
  | [] => ""
  | [c] => c
  | c :: rest => c +:+ "/" +:+ join_slash rest
  end.

(** The number of leading slashes [normpath] keeps: 0, 1 or 2. *)
Definition initial_slashes (path : string) : nat :=
  if Str.startswith path "/" then
    if Str.startswith path "//" && negb (Str.startswith path "///")
    then 2 else 1
  else 0.

(** One turn of the loop over the components; [new_comps] is kept with
    its last element first. *)
Definition step (slashes : nat) (new_comps : list string) (comp : string)
  : list string :=
  if String.eqb comp "" || String.eqb comp "." then new_comps
  else if negb (String.eqb comp "..")
          || (Nat.eqb slashes 0 && match new_comps with [] => true | _ => false end)
          || match new_comps with
             | last :: _ => String.eqb last ".."
             | [] => false
             end
       then comp :: new_comps
       else match new_comps with
            | _ :: rest => rest
            | [] => []
            end.

Definition slashes (k : nat) : string :=
  match k with
  | O => ""
  | 1%nat => "/"
  | _ => "//"
  end.

(** [posixpath.normpath(path)]. *)
Definition normpath (path : string) : string :=
  if negb (Str.truthy path) then "."
  else
    let k := initial_slashes path in
    let comps := rev (fold_left (step k) (split_slash path) []) in
    let path' := slashes k +:+ join_slash comps in
    if Str.truthy path' then path' else ".".

(** [posixpath.abspath(path)] with [wd] for [os.getcwd()]. *)
Definition abspath (wd path : string) : string :=
  normpath (if Str.startswith path "/" then path else Path.join wd path).

End Posix.

(** ** More machines for the examples *)

Module Fixtures.

(** The downloader of [Scenario.shell], reporting failure every time. *)
Definition shell_noisy (cmd wd : string) (m : machine nat) : machine nat * Z :=
  ((Scenario.shell cmd wd m).1,
   if Str.startswith cmd "tar -xvf " then (Scenario.shell cmd wd m).2 else 7).

(** Manifests: one with the "File Name" column in second place and a last
    line that ends before it; nothing else can be opened, and nothing at
    all by a relative name. *)
Definition open_csv (m : machine nat) (wd path : string) : option Csv.lines :=
  if String.eqb path "/data/short_row.csv" then
    Some [["Size"; "File Name"]; ["10"; "a.txt"]; []; ["20"]]
  else None.

(** A downloader that delivers one archive and a text file, and an
    extractor whose report depends on what it finds: 0 when the archive is
    in the working directory and the directory to unpack into has been
    made, 2 otherwise. *)
Definition shell_checking (cmd wd : string) (m : machine nat)
  : machine nat * Z :=
  if Scenario.is_tar_cmd cmd then
    (m, match FS.lookup "reads.tar.gz" (tmp m), FS.lookup "reads" (tmp m) with
        | Some (File _), Some (Dir _) => 0
        | _, _ => 2
        end)
  else
    ({| env := S (env m);
        tmp := FS.put "notes.txt" (File "n")
                 (FS.put "reads.tar.gz" (File "gz") (tmp m));
        out := out m |}, 0).

(** The working tree and the output directory of a relocation that partly
    fails: the output directory holds a regular file called [logs], the
    working tree a directory of that name. *)
Definition work_tree : dirents :=
  [("a.txt", File "data"); ("logs", Dir [("run.log", File "log")])].

Definition blocked_output : option node :=
  Some (Dir [("logs", File "old")]).

(** A process about to relocate [work_tree] to where [old.txt] is. *)
Definition before_relocation : proc nat :=
  {| mach := {| env := 1%nat; tmp := work_tree;
                out := Some (Dir [("old.txt", File "old")]) |};
     cwd := "/tmp/tmpk3v9"; trace := [] |}.

(** The process before a call that finds a regular file at the output
    path. *)
Definition start_onto_file : proc nat :=
  {| mach := {| env := 0%nat; tmp := []; out := Some (File "notes") |};
     cwd := "/home/u"; trace := [] |}.

(** What the parser returns for
    [--ngc prj.ngc --cart cart.krt --outdir out --n-files 2]. *)
Definition args : Cli.Namespace :=
  {| Cli.ngc := "prj.ngc"; Cli.cart := "cart.krt"; Cli.outdir := "out";
     Cli.manifest := None; Cli.n_files := Some 2;
     Cli.prefetch := Cli.default_prefetch;
     Cli.verbose := false; Cli.untar := false |}.

End Fixtures.

(** * Properties *)

(** ** Strings and paths *)

Section Strings.

Implicit Types s p suf : string.

Lemma length_append p s :
  String.length (p +:+ s) = (String.length p + String.length s)%nat.
Proof. induction p as [|c p IH]; [done|]. simpl. by rewrite IH. Qed.

Lemma append_assoc (a b c : string) : (a +:+ b) +:+ c = a +:+ (b +:+ c).
Proof.
  induction a as [|x a IH]; [done|].
  change (String x ((a +:+ b) +:+ c) = String x (a +:+ (b +:+ c))).
  by rewrite IH.
Qed.

Lemma substring_all s : String.substring 0 (String.length s) s = s.
Proof. induction s as [|c s IH]; [done|]. simpl. by rewrite IH. Qed.

Lemma substring_app_r p s :
  String.substring (String.length p) (String.length s) (p +:+ s) = s.
Proof. induction p as [|c p IH]; [apply substring_all|]. exact IH. Qed.

Lemma substring_split (k : nat) s :
  (k <= String.length s)%nat ->
  s = String.substring 0 k s
      +:+ String.substring k (String.length s - k) s.
Proof.
  revert k. induction s as [|c s IH]; intros [|k] Hk; simpl in *;
    try done; try lia.
  - by rewrite substring_all.
  - change (String c s
            = String c (String.substring 0 k s
                        +:+ String.substring k (String.length s - k) s)).
    f_equal. apply IH. lia.
Qed.

(** [endswith] is what it says: the string is something followed by the
    suffix. *)
Lemma endswith_spec s suf :
  Str.endswith s suf = true <-> exists p, s = p +:+ suf.
Proof.
  unfold Str.endswith. rewrite andb_true_iff, Nat.leb_le, String.eqb_eq.
  split.
  - intros [Hlen Hsub].
    exists (String.substring 0 (String.length s - String.length suf) s).
    pose proof (substring_split (String.length s - String.length suf) s
                  ltac:(lia)) as H.
    replace (String.length s - (String.length s - String.length suf))%nat
      with (String.length suf) in H by lia.
    by rewrite Hsub in H.
  - intros [p ->]. rewrite length_append. split; [lia|].
    replace (String.length p + String.length suf - String.length suf)%nat
      with (String.length p) by lia.
    apply substring_app_r.
Qed.

(** [split_head] stops at the first occurrence of the separator. *)
Lemma split_head_unfold sep c s :
  Str.split_head sep (String c s)
  = if String.prefix sep (String c s) then ""
    else String c (Str.split_head sep s).
Proof. reflexivity. Qed.

Lemma split_head_here sep s :
  String.prefix sep s = true -> Str.split_head sep s = "".
Proof.
  intros H. destruct s as [|c s]; [by destruct sep|].
  by rewrite split_head_unfold, H.
Qed.

Lemma split_head_later sep c s :
  String.prefix sep (String c s) = false ->
  Str.split_head sep (String c s) = String c (Str.split_head sep s).
Proof. intros H. by rewrite split_head_unfold, H. Qed.

Example split_head_samples :
  Str.split_head ".tar" "sample.tar" = "sample"
  /\ Str.split_head ".tar" "sample.tar.gz" = "sample"
  /\ Str.split_head ".tar" "my.tarball.tar" = "my"
  /\ Str.split_head ".tar" ".tar" = ""
  /\ Str.split_head ".tar" "notes.txt" = "notes.txt".
Proof. repeat split. Qed.

Example endswith_samples :
  Str.endswith "sample.tar" ".tar" = true
  /\ Str.endswith "sample.tar.gz" ".tar" = false
  /\ Str.endswith "sample.tar.gz" ".tar.gz" = true
  /\ Str.endswith "tar" ".tar" = false.
Proof. repeat split. Qed.

Example join_samples :
  Path.join "/tmp/tmpk3v9" "sample" = "/tmp/tmpk3v9/sample"
  /\ Path.join "/tmp/tmpk3v9" "" = "/tmp/tmpk3v9/"
  /\ Path.join "/tmp/tmpk3v9/" "sample" = "/tmp/tmpk3v9/sample"
  /\ Path.join "/tmp/tmpk3v9" "/etc" = "/etc"
  /\ Path.join "" "sample" = "sample".
Proof. repeat split. Qed.

(** The directory [_untar] makes for an archive and the name of the
    archive without its suffix agree when the first [.tar] of the name
    starts the suffix, and only then. *)
Example stem_samples :
  Str.split_head ".tar" "reads.tar.gz" = archive_stem "reads.tar.gz"
  /\ Str.split_head ".tar" "reads.v2.tar" = archive_stem "reads.v2.tar"
  /\ archive_stem "my.tarball.tar" = "my.tarball"
  /\ Str.split_head ".tar" "my.tarball.tar" <> archive_stem "my.tarball.tar".
Proof. repeat split. vm_compute. discriminate. Qed.

End Strings.

(** ** Traces *)

Lemma invocations_app t tr1 tr2 :
  invocations t (tr1 ++ tr2) = (invocations t tr1 + invocations t tr2)%nat.
Proof. unfold invocations. by rewrite List.filter_app, length_app. Qed.

Lemma commands_app t tr1 tr2 :
  commands t (tr1 ++ tr2) = commands t tr1 ++ commands t tr2.
Proof. unfold commands. by rewrite List.filter_app, map_app. Qed.

Lemma invocations_commands t tr : invocations t tr = length (commands t tr).
Proof. unfold invocations, commands. by rewrite length_map. Qed.

(** ** The retry loop *)

(** Settle a comparison of attempt indices that arithmetic decides. *)
Ltac decide_index :=
  match goal with
  | |- context [(?a =? ?b)%Z] =>
      first
        [ replace (a =? b)%Z with true by (symmetry; apply Z.eqb_eq; lia)
        | replace (a =? b)%Z with false by (symmetry; apply Z.eqb_neq; lia) ]
  end.

Section RetryLoop.

Context {Env : Type}.
Variable shell : string -> string -> machine Env -> machine Env * Z.
Variable open_csv : machine Env -> string -> string -> option Csv.lines.
Variable abspath : string -> string -> string.
Variable mkdtemp : Env -> Env * string.
Variable self : dbGaPFileFetcher.
Variable cart_file : string.
Variable manifest : option string.
Variable n_files : option Z.

Local Abbreviation run := (fun s => snd (_run_prefetch Env shell self cart_file s)).
Local Abbreviation after := (after_downloads Env shell self cart_file).
Local Abbreviation verify := (all_files_downloaded Env open_csv manifest n_files).
Local Abbreviation loop := (attempts Env shell open_csv self).

Lemma after_S k st : after (S k) st = after k (run st).
Proof. unfold after_downloads. by rewrite Nat.iter_succ_r. Qed.

Lemma after_1 st : after 1 st = run st.
Proof. reflexivity. Qed.

Lemma run_trace st :
  trace (run st) = trace st ++ [Exec Downloader (prefetch_cmd self cart_file)].
Proof.
  unfold _run_prefetch, subprocess_call. by destruct (shell _ _ _).
Qed.

Lemma run_cwd st : cwd (run st) = cwd st.
Proof.
  unfold _run_prefetch, subprocess_call. by destruct (shell _ _ _).
Qed.

Lemma after_trace k st :
  trace (after k st)
  = trace st ++ repeat (Exec Downloader (prefetch_cmd self cart_file)) k.
Proof.
  revert st. induction k as [|k IH]; intros st.
  - simpl. by rewrite app_nil_r.
  - by rewrite after_S, IH, run_trace, <- app_assoc.
Qed.

Lemma after_cwd k st : cwd (after k st) = cwd st.
Proof.
  revert st. induction k as [|k IH]; intros st; [done|].
  by rewrite after_S, IH, run_cwd.
Qed.

Lemma invocations_repeat_same t c k :
  invocations t (repeat (Exec t c) k) = k.
Proof.
  unfold invocations. induction k as [|k IH]; [done|].
  simpl. destruct t; simpl; by rewrite IH.
Qed.

Lemma invocations_repeat_other c k :
  invocations Extractor (repeat (Exec Downloader c) k) = 0%nat.
Proof. unfold invocations. induction k as [|k IH]; [done|]. by simpl. Qed.

Lemma after_commands k st :
  commands Downloader (trace (after k st))
  = commands Downloader (trace st) ++ repeat (prefetch_cmd self cart_file) k.
Proof.
  rewrite after_trace, commands_app. f_equal.
  unfold commands. induction k as [|k IH]; [done|]. simpl. by rewrite IH.
Qed.

Lemma after_invocations k st :
  invocations Downloader (trace (after k st))
  = (invocations Downloader (trace st) + k)%nat.
Proof. by rewrite after_trace, invocations_app, invocations_repeat_same. Qed.

Lemma attempts_unfold fuel n i st :
  loop (S fuel) cart_file manifest n_files n i st
  = if (i =? n)%Z then Some (Return Exhausted, run st)
    else match verify (run st) with
         | Raise e => Some (Raise e, run st)
         | Return true => Some (Return Verified, run st)
         | Return false =>
             loop fuel cart_file manifest n_files n (i + 1) (run st)
         end.
Proof.
  simpl. unfold _run_prefetch, subprocess_call.
  by destruct (shell _ _ _).
Qed.

(** The loop, entered at index [i], when the checks after the first [k]
    downloads fail and attempt [i + k] is the last one allowed. *)
Lemma attempts_exhausted n k : forall fuel i st,
  (k < fuel)%nat ->
  i + Z.of_nat k = n ->
  (forall j, (j < k)%nat -> verify (after (S j) st) = Return false) ->
  loop fuel cart_file manifest n_files n i st
  = Some (Return Exhausted, after (S k) st).
Proof.
  induction k as [|k IH]; intros fuel i st Hfuel Hn Hfail;
    (destruct fuel as [|fuel]; [lia|]); rewrite attempts_unfold.
  - decide_index.
    done.
  - decide_index.
    pose proof (Hfail 0%nat ltac:(lia)) as H0; rewrite after_1 in H0; rewrite H0.
    rewrite (IH fuel (i + 1) (run st)).
    + by rewrite <- after_S.
    + lia.
    + lia.
    + intros j Hj. rewrite <- after_S. apply Hfail. lia.
Qed.

(** The loop, entered at index [i], when the checks after the first [k]
    downloads fail, the next one passes, and none of these attempts is
    the last one allowed. *)
Lemma attempts_verified n k : forall fuel i st,
  (k < fuel)%nat ->
  (i + Z.of_nat k < n \/ n < i) ->
  (forall j, (j < k)%nat -> verify (after (S j) st) = Return false) ->
  verify (after (S k) st) = Return true ->
  loop fuel cart_file manifest n_files n i st
  = Some (Return Verified, after (S k) st).
Proof.
  induction k as [|k IH]; intros fuel i st Hfuel Hn Hfail Hok;
    (destruct fuel as [|fuel]; [lia|]); rewrite attempts_unfold;
    decide_index.
  - rewrite after_1 in Hok. by rewrite Hok.
  - pose proof (Hfail 0%nat ltac:(lia)) as H0; rewrite after_1 in H0; rewrite H0.
    rewrite (IH fuel (i + 1) (run st)).
    + by rewrite <- after_S.
    + lia.
    + lia.
    + intros j Hj. rewrite <- after_S. apply Hfail. lia.
    + by rewrite <- after_S.
Qed.

(** With at least one attempt allowed from index [i] on, the loop ends
    within the attempts that are left, whatever the tools do. *)
Lemma attempts_bounded n m : forall fuel i st,
  (m < fuel)%nat ->
  i + Z.of_nat m = n ->
  exists r k,
    (k <= m)%nat /\
    loop fuel cart_file manifest n_files n i st = Some (r, after (S k) st).
Proof.
  induction m as [|m IH]; intros fuel i st Hfuel Hn;
    (destruct fuel as [|fuel]; [lia|]); rewrite attempts_unfold.
  - decide_index.
    by exists (Return Exhausted), 0%nat.
  - decide_index.
    destruct (verify (run st)) as [[|]|e] eqn:Hv.
    + exists (Return Verified), 0%nat. split; [lia|done].
    + destruct (IH fuel (i + 1) (run st)) as (r & k & Hk & Hrun); [lia|lia|].
      exists r, (S k). split; [lia|]. by rewrite Hrun, <- after_S.
    + exists (Raise e), 0%nat. split; [lia|done].
Qed.

(** However the loop is left, it is left right after a download. *)
Lemma attempts_reaches n : forall fuel i st r st1,
  loop fuel cart_file manifest n_files n i st = Some (r, st1) ->
  exists k, st1 = after (S k) st.
Proof.
  induction fuel as [|fuel IH]; intros i st r st1 Hrun; [done|].
  rewrite attempts_unfold in Hrun.
  destruct (i =? n)%Z.
  { inversion Hrun. by exists 0%nat. }
  destruct (verify (run st)) as [[|]|e].
  - inversion Hrun. by exists 0%nat.
  - destruct (IH _ _ _ _ Hrun) as [k ->]. exists (S k). by rewrite <- after_S.
  - inversion Hrun. by exists 0%nat.
Qed.

(** Below its first index the bound is never met: the loop goes on for as
    long as the check fails. *)
Lemma attempts_unbounded n : forall fuel i st,
  n < i ->
  (forall j, verify (after (S j) st) = Return false) ->
  loop fuel cart_file manifest n_files n i st = None.
Proof.
  induction fuel as [|fuel IH]; intros i st Hn Hfail; [done|].
  rewrite attempts_unfold.
  decide_index.
  pose proof (Hfail 0%nat) as H0; rewrite after_1 in H0; rewrite H0. apply IH; [lia|].
  intros j. rewrite <- after_S. apply Hfail.
Qed.

End RetryLoop.

(** ** After the loop: extraction and relocation *)

Section Finish.

Context {Env : Type}.
Variable shell : string -> string -> machine Env -> machine Env * Z.
Variable self : dbGaPFileFetcher.

Lemma subprocess_call_trace t cmd (st : proc Env) :
  trace (subprocess_call Env shell t cmd st).2 = trace st ++ [Exec t cmd].
Proof. unfold subprocess_call. by destruct (shell _ _ _). Qed.

Lemma subprocess_call_cwd t cmd (st : proc Env) :
  cwd (subprocess_call Env shell t cmd st).2 = cwd st.
Proof. unfold subprocess_call. by destruct (shell _ _ _). Qed.

(** Extraction starts the extractor only. *)
Lemma untar_each_commands directory tar_files : forall st : proc Env,
  commands Downloader (trace (untar_each Env shell directory tar_files st).2)
  = commands Downloader (trace st).
Proof.
  induction tar_files as [|f rest IH]; intros st; [done|].
  simpl. destruct (FS.mkdir _ _ _) as [d|e]; [|done].
  pose proof (subprocess_call_trace Extractor
    ("tar -xvf " +:+ f +:+ " -C " +:+
       Path.join directory (Str.split_head ".tar" f)) (set_tmp Env d st)) as Htr.
  destruct (subprocess_call _ _ _ _ _) as [rc st1]. simpl in Htr.
  assert (commands Downloader (trace st1) = commands Downloader (trace st))
    as Hst1.
  { rewrite Htr, commands_app. simpl. unfold commands. simpl.
    by rewrite app_nil_r. }
  destruct (negb _); [done|].
  destruct (FS.remove _ _ _) as [d'|e]; [|done].
  by rewrite IH.
Qed.

Lemma finish_commands temp_dir owd untar (st : proc Env) :
  commands Downloader (trace (finish Env shell self temp_dir owd untar st).2)
  = commands Downloader (trace st).
Proof.
  unfold finish.
  assert (commands Downloader
            (trace (extraction Env shell temp_dir untar st).2)
          = commands Downloader (trace st)) as Hu.
  { destruct untar; [apply untar_each_commands|done]. }
  destruct (extraction _ _ _ _ _) as [[[]|e] st1]; simpl in Hu; [|done].
  destruct (Shutil.copytree _ _ _) as [[[[]|e] src'] dst']; done.
Qed.

Lemma finish_downloader temp_dir owd untar (st : proc Env) :
  invocations Downloader (trace (finish Env shell self temp_dir owd untar st).2)
  = invocations Downloader (trace st).
Proof. by rewrite !invocations_commands, finish_commands. Qed.

(** The success path never answers [False]. *)
Lemma finish_true_or_raise temp_dir owd untar (st : proc Env) :
  ~ raises (finish Env shell self temp_dir owd untar st).1 ->
  (finish Env shell self temp_dir owd untar st).1 = Return true.
Proof.
  unfold finish.
  destruct (extraction _ _ _ _ _) as [[[]|e] st1]; simpl; [|tauto].
  destruct (Shutil.copytree _ _ _) as [[[[]|e] src'] dst']; simpl; tauto.
Qed.

End Finish.

(** ** [download_files]: how many downloads, and what answer *)

Section Download.

Context {Env : Type}.
Variable shell : string -> string -> machine Env -> machine Env * Z.
Variable open_csv : machine Env -> string -> string -> option Csv.lines.
Variable abspath : string -> string -> string.
Variable mkdtemp : Env -> Env * string.
Variable self : dbGaPFileFetcher.

Local Abbreviation after := (after_downloads Env shell self).
Local Abbreviation verify := (all_files_downloaded Env open_csv).
Local Abbreviation enter := (enter_temp_dir Env mkdtemp).
Local Abbreviation download :=
  (download_files Env shell open_csv abspath mkdtemp self).

Lemma set_tmp_trace d (st : proc Env) : trace (set_tmp Env d st) = trace st.
Proof. reflexivity. Qed.

Lemma enter_trace (st : proc Env) : trace (enter st).2 = trace st.
Proof. unfold enter_temp_dir. by destruct (mkdtemp _). Qed.

Lemma enter_tmp (st : proc Env) : tmp (mach (enter st).2) = [].
Proof. unfold enter_temp_dir. by destruct (mkdtemp _). Qed.

Lemma download_files_unfold fuel cart manifest n_files n untar (st : proc Env) :
  download fuel cart manifest n_files n untar st
  = match attempts Env shell open_csv self fuel (abspath (cwd st) cart)
            manifest n_files n 1 (enter st).2 with
    | None => None
    | Some (Raise e, st1) => Some (Raise e, set_tmp Env [] st1)
    | Some (Return Exhausted, st1) => Some (Return false, set_tmp Env [] st1)
    | Some (Return Verified, st1) =>
        let r := finish Env shell self (enter st).1 (cwd st) untar st1 in
        Some (r.1, set_tmp Env [] r.2)
    end.
Proof.
  unfold download_files, with_temp_dir.
  destruct (enter st) as [temp_dir st0]. simpl.
  destruct (attempts _ _ _ _ _ _ _ _ _ _ _) as [[[[|]|e] st1]|]; try done.
  by destruct (finish _ _ _ _ _ _ _).
Qed.

(** C1. With [n_retries = n >= 1], when the check after each of the
    downloads 1 .. n-1 answers false, the downloader runs exactly [n] times
    and [download_files] returns [False].  Nothing is asked of the check on
    the directory left by download [n]: it is never run, so the answer is
    [False] also when that directory would have passed. *)
Theorem download_files_exhausts_retries
    (n fuel : nat) cart manifest n_files untar (st : proc Env) :
  (1 <= n)%nat ->
  (n <= fuel)%nat ->
  (forall j, (1 <= j < n)%nat ->
     verify manifest n_files (after (abspath (cwd st) cart) j (enter st).2)
     = Return false) ->
  let st_n := after (abspath (cwd st) cart) n (enter st).2 in
  download fuel cart manifest n_files (Z.of_nat n) untar st
  = Some (Return false, set_tmp Env [] st_n)
  /\ invocations Downloader (trace (set_tmp Env [] st_n))
     = (invocations Downloader (trace st) + n)%nat.
Proof.
  intros Hn Hfuel Hfail st_n. subst st_n. split.
  - rewrite download_files_unfold.
    destruct n as [|k]; [lia|].
    rewrite (attempts_exhausted shell open_csv self _ manifest n_files
               (Z.of_nat (S k)) k); [done|lia|lia|].
    intros j Hj. apply Hfail. lia.
  - by rewrite set_tmp_trace, after_invocations, enter_trace.
Qed.

(** The run behind C3 and C10: the check fails after the downloads
    1 .. k-1, passes after download [k], and index [k] is not the last one
    allowed. *)
Lemma download_files_success_path
    (n : Z) (k fuel : nat) cart manifest n_files untar (st : proc Env) :
  (1 <= k)%nat ->
  Z.of_nat k < n ->
  (k <= fuel)%nat ->
  (forall j, (1 <= j < k)%nat ->
     verify manifest n_files (after (abspath (cwd st) cart) j (enter st).2)
     = Return false) ->
  verify manifest n_files (after (abspath (cwd st) cart) k (enter st).2)
  = Return true ->
  let r := finish Env shell self (enter st).1 (cwd st) untar
             (after (abspath (cwd st) cart) k (enter st).2) in
  download fuel cart manifest n_files n untar st
  = Some (r.1, set_tmp Env [] r.2)
  /\ invocations Downloader (trace (set_tmp Env [] r.2))
     = (invocations Downloader (trace st) + k)%nat.
Proof.
  intros Hk Hkn Hfuel Hfail Hok r. subst r.
  rewrite download_files_unfold.
  destruct k as [|k]; [lia|].
  rewrite (attempts_verified shell open_csv self _ manifest n_files n k);
    [|lia|lia| |done].
  - split; [done|].
    by rewrite set_tmp_trace, finish_downloader, after_invocations, enter_trace.
  - intros j Hj. apply Hfail. lia.
Qed.

(** C3, as amended.  With [n_retries = n > 1], when the check answers
    false after the downloads 1 .. k-1 and true after download [k < n], the
    downloader runs exactly [k] times and [download_files] ends with what
    extraction and relocation end with: [True] when they raise nothing, and
    their exception otherwise. *)
Theorem download_files_verified_at
    (n : Z) (k fuel : nat) cart manifest n_files untar (st : proc Env) :
  1 < n ->
  (1 <= k)%nat ->
  Z.of_nat k < n ->
  (k <= fuel)%nat ->
  (forall j, (1 <= j < k)%nat ->
     verify manifest n_files (after (abspath (cwd st) cart) j (enter st).2)
     = Return false) ->
  verify manifest n_files (after (abspath (cwd st) cart) k (enter st).2)
  = Return true ->
  let r := finish Env shell self (enter st).1 (cwd st) untar
             (after (abspath (cwd st) cart) k (enter st).2) in
  exists st',
    download fuel cart manifest n_files n untar st = Some (r.1, st')
    /\ invocations Downloader (trace st')
       = (invocations Downloader (trace st) + k)%nat
    /\ (~ raises r.1 -> r.1 = Return true).
Proof.
  intros Hn Hk Hkn Hfuel Hfail Hok r.
  destruct (download_files_success_path n k fuel cart manifest n_files untar
              st Hk Hkn Hfuel Hfail Hok) as [Hrun Hinv].
  eexists. split; [exact Hrun|]. split; [exact Hinv|].
  apply finish_true_or_raise.
Qed.

(** The command line of [_run_prefetch] when the output directory has a
    name: its last argument is that directory. *)
Lemma prefetch_cmd_output_directory cart_file :
  Str.truthy (output_dir self) = true ->
  prefetch_cmd self cart_file
  = prefetch self +:+ " --ngc " +:+ ngc_file self +:+ " --order kart --cart "
    +:+ cart_file +:+ " --max-size 500000000"
    +:+ " --output-directory " +:+ output_dir self.
Proof.
  intros Hout. unfold prefetch_cmd. rewrite Hout.
  rewrite !append_assoc. reflexivity.
Qed.

(** X5. Every run of the downloader in a call gets the same command line,
    made of the fetcher's fields and of the cart's path as seen from the
    directory the call started in: neither the temporary directory nor the
    attempt has a part in it. *)
Lemma download_files_commands
    fuel cart manifest n_files n untar (st : proc Env) r st' :
  download fuel cart manifest n_files n untar st = Some (r, st') ->
  exists k,
    commands Downloader (trace st')
    = commands Downloader (trace st)
      ++ repeat (prefetch_cmd self (abspath (cwd st) cart)) k.
Proof.
  rewrite download_files_unfold. intros Hrun.
  destruct (attempts Env shell open_csv self fuel (abspath (cwd st) cart)
              manifest n_files n 1 (enter st).2) as [[r1 st1]|] eqn:Hloop;
    [|done].
  destruct (attempts_reaches shell open_csv self _ _ _ _ _ _ _ _ _ Hloop)
    as [k ->].
  exists (S k).
  assert (commands Downloader
            (trace (after (abspath (cwd st) cart) (S k) (enter st).2))
          = commands Downloader (trace st)
            ++ repeat (prefetch_cmd self (abspath (cwd st) cart)) (S k)) as Hc
    by (by rewrite after_commands, enter_trace).
  destruct r1 as [[|]|e]; inversion Hrun; subst;
    rewrite set_tmp_trace, ?finish_commands; done.
Qed.

(** C9, as amended.  With [n_retries >= 1] the loop ends, whatever the
    tools do, after at least one and at most [n_retries] runs of the
    downloader. *)
Theorem download_files_terminates
    (n : Z) (fuel : nat) cart manifest n_files untar (st : proc Env) :
  1 <= n ->
  n <= Z.of_nat fuel ->
  exists r st' k,
    download fuel cart manifest n_files n untar st = Some (r, st')
    /\ invocations Downloader (trace st')
       = (invocations Downloader (trace st) + k)%nat
    /\ (1 <= k)%nat /\ Z.of_nat k <= n.
Proof.
  intros Hn Hfuel.
  rewrite download_files_unfold.
  destruct (attempts_bounded shell open_csv self (abspath (cwd st) cart)
              manifest n_files n (Z.to_nat (n - 1)) fuel 1 (enter st).2)
    as (r & k & Hk & Hrun); [lia|lia|].
  rewrite Hrun.
  assert (invocations Downloader
            (trace (after (abspath (cwd st) cart) (S k) (enter st).2))
          = (invocations Downloader (trace st) + S k)%nat) as Hinv
    by (by rewrite after_invocations, enter_trace).
  destruct r as [[|]|e].
  - exists (Return false), (set_tmp Env [] (after (abspath (cwd st) cart) (S k) (enter st).2)), (S k).
    repeat split; [done|lia|lia].
  - eexists _, _, (S k). split; [reflexivity|].
    rewrite set_tmp_trace, finish_downloader. repeat split; [done|lia|lia].
  - eexists _, _, (S k). split; [reflexivity|].
    repeat split; [done|lia|lia].
Qed.

(** With [n_retries < 1] and a check that keeps answering false the loop
    never ends: the fuel runs out however much there is. *)
Lemma download_files_diverges
    (n : Z) (fuel : nat) cart manifest n_files untar (st : proc Env) :
  n < 1 ->
  (forall j, verify manifest n_files
               (after (abspath (cwd st) cart) (S j) (enter st).2)
             = Return false) ->
  download fuel cart manifest n_files n untar st = None.
Proof.
  intros Hn Hfail. rewrite download_files_unfold.
  by rewrite (attempts_unbounded shell open_csv self _ manifest n_files n).
Qed.

(** C10, as amended.  Without a manifest, an expected count of 0 switches
    the count check off: the attempt is accepted whatever the directory
    holds, as when no count is given, where the count check itself would
    accept an empty directory only.  So with [n_retries > 1] the downloader
    runs once, and [download_files] ends with what extraction and
    relocation end with: [True] when they raise nothing, and their exception
    otherwise. *)
Theorem zero_count_skips_verification
    (n : Z) (fuel : nat) cart manifest untar (st : proc Env) :
  manifest_given manifest = false ->
  1 < n ->
  (1 <= fuel)%nat ->
  (forall s : proc Env,
     verify manifest (Some 0) s = Return true
     /\ verify manifest (Some 0) s = verify manifest None s
     /\ _check_prefetch_against_n_files Env 0 s
        = Return (bool_decide (FS.listdir (tmp (mach s)) = [])))
  /\ let r := finish Env shell self (enter st).1 (cwd st) untar
                (after (abspath (cwd st) cart) 1 (enter st).2) in
     exists st',
       download fuel cart manifest (Some 0) n untar st = Some (r.1, st')
       /\ invocations Downloader (trace st')
          = (invocations Downloader (trace st) + 1)%nat
       /\ (~ raises r.1 -> r.1 = Return true).
Proof.
  intros Hm Hn Hfuel.
  assert (forall s : proc Env, verify manifest (Some 0) s = Return true) as Hv.
  { intros s. unfold all_files_downloaded. by rewrite Hm. }
  split.
  - intros s. split; [apply Hv|]. split.
    + unfold all_files_downloaded. by rewrite Hm.
    + unfold _check_prefetch_against_n_files. f_equal.
      destruct (FS.listdir _); [done|].
      simpl length. rewrite bool_decide_eq_false_2 by done.
      apply Z.eqb_neq. lia.
  - intros r.
    destruct (download_files_success_path n 1 fuel cart manifest (Some 0)
                untar st) as [Hrun Hinv]; [lia|lia|lia| |apply Hv|].
    + intros j Hj. lia.
    + eexists. split; [exact Hrun|]. split; [exact Hinv|].
      apply finish_true_or_raise.
Qed.

End Download.

(** ** Verification *)

Section Verification.

Context {Env : Type}.
Variable shell : string -> string -> machine Env -> machine Env * Z.
Variable open_csv : machine Env -> string -> string -> option Csv.lines.
Variable abspath : string -> string -> string.
Variable mkdtemp : Env -> Env * string.
Variable self : dbGaPFileFetcher.

Local Abbreviation after := (after_downloads Env shell self).
Local Abbreviation verify := (all_files_downloaded Env open_csv).
Local Abbreviation enter := (enter_temp_dir Env mkdtemp).
Local Abbreviation download :=
  (download_files Env shell open_csv abspath mkdtemp self).

(** *** The keys of a [DictReader] row are the field names *)

Lemma fold_insert_keys {A} (f : A -> string) (g : A -> option string)
    (l : list A) : forall (d : gmap string (option string)) k,
  is_Some (fold_left (fun d a => <[f a := g a]> d) l d !! k)
  <-> is_Some (d !! k) \/ k ∈ map f l.
Proof.
  induction l as [|a l IH]; intros d k; simpl.
  - rewrite elem_of_nil. tauto.
  - rewrite IH, elem_of_cons.
    destruct (decide (f a = k)) as [->|Hne].
    + rewrite lookup_insert_eq. split; [eauto|]. intros _. left. eauto.
    + rewrite lookup_insert_ne by done. split; [tauto|].
      intros [H|[H|H]]; [tauto|congruence|tauto].
Qed.

Lemma zip_keys (h r : list string) :
  map fst (zip h r) = take (length r) h.
Proof.
  revert r. induction h as [|k h IH]; intros [|v r]; simpl; try done.
  by rewrite IH.
Qed.

Lemma row_dict_keys (fieldnames row : list string) (k : string) :
  is_Some (Csv.row_dict fieldnames row !! k) <-> k ∈ fieldnames.
Proof.
  unfold Csv.row_dict.
  rewrite (fold_insert_keys (fun k => k) (fun _ => None)).
  rewrite (fold_insert_keys (fun kv => kv.1) (fun kv => Some kv.2)).
  rewrite lookup_empty, map_id, zip_keys.
  rewrite <- (take_drop (length row) fieldnames) at 3.
  rewrite elem_of_app. split; [|tauto].
  intros [[H|H]|H]; [by destruct H|tauto|tauto].
Qed.

(** *** What [_read_manifest] answers *)

Lemma file_names_missing_column (fieldnames : list string) rows :
  "File Name" ∉ fieldnames ->
  rows <> [] ->
  file_names (map (Csv.row_dict fieldnames) rows) = Raise (KeyError "File Name").
Proof.
  intros Hno Hrows. destruct rows as [|row rows]; [done|]. simpl.
  destruct (Csv.row_dict fieldnames row !! "File Name") as [v|] eqn:Hv; [|done].
  exfalso. apply Hno. apply (row_dict_keys fieldnames row). eauto.
Qed.

Lemma file_names_with_column (fieldnames : list string) rows :
  "File Name" ∈ fieldnames ->
  exists files,
    file_names (map (Csv.row_dict fieldnames) rows) = Return files
    /\ length files = length rows.
Proof.
  intros Hin. induction rows as [|row rows (files & IH & Hlen)].
  - by exists [].
  - simpl.
    destruct (proj2 (row_dict_keys fieldnames row "File Name") Hin) as [v ->].
    rewrite IH. exists (v :: files). simpl. by rewrite Hlen.
Qed.

(** A manifest without data rows is read without an exception, whatever
    its header says. *)
Lemma read_manifest_no_rows manifest (st : proc Env) fieldnames body :
  open_csv (mach st) (cwd st) manifest = Some (fieldnames :: body) ->
  filter (fun r => r ≠ []) body = [] ->
  _read_manifest Env open_csv manifest st = Return [].
Proof.
  intros Hopen Hbody. unfold _read_manifest. rewrite Hopen. simpl.
  by rewrite Hbody.
Qed.

Lemma read_manifest_missing_column manifest (st : proc Env) fieldnames body :
  open_csv (mach st) (cwd st) manifest = Some (fieldnames :: body) ->
  "File Name" ∉ fieldnames ->
  (exists row, row ∈ body /\ row <> []) ->
  _read_manifest Env open_csv manifest st = Raise (KeyError "File Name").
Proof.
  intros Hopen Hno (row & Hin & Hrow). unfold _read_manifest.
  rewrite Hopen. simpl. apply file_names_missing_column; [done|].
  intros Hnil.
  assert (row ∈ filter (fun r => r ≠ []) body) as Hf
    by (apply list_elem_of_filter; done).
  rewrite Hnil in Hf. by apply elem_of_nil in Hf.
Qed.

(** C4. When a manifest is supplied and read, the check of an attempt
    answers true exactly when the names in the working directory and the
    values of the manifest's "File Name" column are the same set: every
    listed name is a value of the column and every value of the column is a
    listed name.  Names are compared as they are; how often and in which
    order a name occurs on either side plays no part. *)
Theorem manifest_check_iff_same_names
    (m : string) n_files (st : proc Env) (expected : list (option string)) :
  Str.truthy m = true ->
  _read_manifest Env open_csv m st = Return expected ->
  exists b,
    verify (Some m) n_files st = Return b
    /\ _check_prefetch_against_manifest Env open_csv m st = Return b
    /\ (b = true <->
        forall v : option string,
          v ∈ expected <->
          exists name, v = Some name /\ name ∈ FS.listdir (tmp (mach st))).
Proof.
  intros Hm Hread.
  unfold all_files_downloaded, manifest_given. rewrite Hm.
  unfold _check_prefetch_against_manifest. rewrite Hread.
  eexists. split; [reflexivity|]. split; [reflexivity|].
  rewrite bool_decide_eq_true. split.
  - intros Heq v.
    rewrite <- (elem_of_list_to_set (C := gset (option string)) v expected).
    rewrite <- Heq, elem_of_list_to_set, list_elem_of_fmap.
    split; intros (name & -> & Hin); eauto.
  - intros Hsame. apply set_eq. intros v.
    rewrite !elem_of_list_to_set, list_elem_of_fmap, Hsame.
    split; intros (name & -> & Hin); eauto.
Qed.

(** C5. Without a manifest and with a positive expected count, the check
    of an attempt answers true exactly when the working directory has that
    many entries. *)
Theorem count_check_iff_same_number
    manifest (n_files : Z) (st : proc Env) :
  manifest_given manifest = false ->
  0 < n_files ->
  exists b,
    verify manifest (Some n_files) st = Return b
    /\ (b = true <->
        Z.of_nat (length (FS.listdir (tmp (mach st)))) = n_files).
Proof.
  intros Hm Hpos.
  unfold all_files_downloaded, n_files_given. rewrite Hm.
  decide_index.
  simpl. unfold _check_prefetch_against_n_files.
  eexists. split; [reflexivity|]. apply Z.eqb_eq.
Qed.

(** C6, as amended.  A manifest that lacks the "File Name" column and has
    at least one row that is not blank makes the manifest check raise
    [KeyError]; with [n_retries] other than 1 the check runs after the first
    download, and the exception leaves [download_files] there: one run of
    the downloader, no second attempt, no other check, no extraction. *)
Theorem missing_column_raises
    (n : Z) (fuel : nat) cart (m : string) n_files untar (st : proc Env)
    (fieldnames : list string) (body : Csv.lines) :
  let st1 := after (abspath (cwd st) cart) 1 (enter st).2 in
  Str.truthy m = true ->
  open_csv (mach st1) (cwd st1) m = Some (fieldnames :: body) ->
  "File Name" ∉ fieldnames ->
  (exists row, row ∈ body /\ row <> []) ->
  n <> 1 ->
  (1 <= fuel)%nat ->
  _check_prefetch_against_manifest Env open_csv m st1
  = Raise (KeyError "File Name")
  /\ download fuel cart (Some m) n_files n untar st
     = Some (Raise (KeyError "File Name"), set_tmp Env [] st1)
  /\ invocations Downloader (trace st1)
     = (invocations Downloader (trace st) + 1)%nat
  /\ invocations Extractor (trace st1) = invocations Extractor (trace st).
Proof.
  intros st1 Hm Hopen Hno Hrows Hn Hfuel.
  assert (_check_prefetch_against_manifest Env open_csv m st1
          = Raise (KeyError "File Name")) as Hcheck.
  { unfold _check_prefetch_against_manifest.
    by rewrite (read_manifest_missing_column m st1 fieldnames body). }
  split; [done|]. split; [|split].
  - rewrite download_files_unfold.
    destruct fuel as [|fuel]; [lia|].
    rewrite attempts_unfold.
    decide_index.
    rewrite <- (after_1 shell self).
    unfold all_files_downloaded, manifest_given. rewrite Hm.
    fold st1. by rewrite Hcheck.
  - subst st1. by rewrite after_invocations, enter_trace.
  - subst st1. rewrite after_trace, enter_trace, invocations_app.
    rewrite invocations_repeat_other. lia.
Qed.

End Verification.


(** ** Directory entries *)

Section Entries.

Implicit Types (d : dirents) (n x : node) (k name : string).

Lemma lookup_put_eq k n d : FS.lookup k (FS.put k n d) = Some n.
Proof.
  induction d as [|[k' x] d IH]; simpl.
  - by rewrite String.eqb_refl.
  - destruct (String.eqb_spec k' k) as [->|Hne]; simpl.
    + by rewrite String.eqb_refl.
    + by destruct (String.eqb_spec k' k).
Qed.

Lemma lookup_put_ne k k' n d :
  k <> k' -> FS.lookup k' (FS.put k n d) = FS.lookup k' d.
Proof.
  intros Hne. induction d as [|[j x] d IH]; simpl.
  - by destruct (String.eqb_spec k k').
  - destruct (String.eqb_spec j k) as [->|Hjk]; simpl.
    + by destruct (String.eqb_spec k k').
    + by rewrite IH.
Qed.

Lemma lookup_del_eq k d : FS.lookup k (FS.del k d) = None.
Proof.
  induction d as [|[j x] d IH]; simpl; [done|].
  destruct (String.eqb_spec j k) as [->|Hjk]; simpl; [done|].
  by destruct (String.eqb_spec j k).
Qed.

Lemma lookup_del_ne k k' d :
  k <> k' -> FS.lookup k' (FS.del k d) = FS.lookup k' d.
Proof.
  intros Hne. induction d as [|[j x] d IH]; simpl; [done|].
  destruct (String.eqb_spec j k) as [->|Hjk]; simpl.
  - by destruct (String.eqb_spec k k').
  - by rewrite IH.
Qed.

Lemma lookup_app_one k k' n d :
  FS.lookup k' (d ++ [(k, n)])
  = match FS.lookup k' d with
    | Some x => Some x
    | None => if String.eqb k k' then Some n else None
    end.
Proof.
  induction d as [|[j x] d IH]; simpl; [done|].
  by destruct (String.eqb_spec j k').
Qed.

Lemma lookup_listed k d : is_Some (FS.lookup k d) <-> k ∈ FS.listdir d.
Proof.
  unfold FS.listdir. induction d as [|[j x] d IH]; simpl.
  - rewrite elem_of_nil. split; [by intros [? ?]|done].
  - rewrite elem_of_cons, <- IH.
    destruct (String.eqb_spec j k) as [->|Hjk].
    + split; eauto.
    + split; [tauto|]. intros [?|?]; [congruence|done].
Qed.

Lemma last_cons_default {A} (a b : A) (q : list A) :
  List.last (a :: q) b = List.last q a.
Proof.
  revert a b. induction q as [|c q IH]; intros a b; [done|].
  change (List.last (a :: c :: q) b) with (List.last (c :: q) b).
  by rewrite !IH.
Qed.

(** Induction over a tree: a directory's property may rest on that of all
    its entries. *)
Lemma node_tree_ind (P : node -> Prop) :
  (forall c, P (File c)) ->
  (forall d, Forall (fun kx => P kx.2) d -> P (Dir d)) ->
  forall n, P n.
Proof.
  intros Hfile Hdir.
  fix IH 1. intros n. destruct n as [c|d].
  - apply Hfile.
  - apply Hdir. induction d as [|[k x] d IHd]; constructor.
    + apply IH.
    + apply IHd.
Qed.

Lemma well_formed_cons k x d :
  FS.well_formed (Dir ((k, x) :: d)) = true ->
  (k ∉ FS.listdir d)
  /\ FS.well_formed x = true /\ FS.well_formed (Dir d) = true.
Proof.
  simpl. rewrite !andb_true_iff, !bool_decide_eq_true, NoDup_cons.
  unfold FS.listdir. tauto.
Qed.

End Entries.

(** ** Relocation *)

Section Relocation.

Implicit Types (d l acc : dirents) (n x : node) (k name : string).

Lemma copy_node_dir path name sub dd :
  Shutil.copy_node path name (Dir sub) dd
  = match FS.lookup name dd with
    | Some (File _) => (Some (Dir sub), dd, [path ++ [name]])
    | other =>
        let inner := match other with Some (Dir i) => i | _ => [] end in
        let '(sub', inner', errs) :=
          Shutil.copy_entries (path ++ [name]) sub inner in
        (Some (Dir sub'), FS.put name (Dir inner') dd, errs)
    end.
Proof.
  assert (forall l acc,
    (fix go (l : dirents) (acc : dirents)
       : dirents * dirents * list (list string) :=
       match l with
       | [] => ([], acc, [])
       | (k, x) :: l' =>
           let '(r, acc1, e1) := Shutil.copy_node (path ++ [name]) k x acc in
           let '(rest, acc2, e2) := go l' acc1 in
           (match r with
            | Some x' => (k, x') :: rest
            | None => rest
            end, acc2, e1 ++ e2)
       end) l acc = Shutil.copy_entries (path ++ [name]) l acc) as Hgo.
  { induction l as [|[k x] l IH]; intros acc; [done|].
    simpl. destruct (Shutil.copy_node _ _ _ _) as [[r acc1] e1].
    by rewrite IH. }
  simpl. destruct (FS.lookup name dd) as [[c|i]|]; [done| |]; by rewrite Hgo.
Qed.

(** What moving one node does to the other entries of the destination:
    nothing. *)
Lemma copy_node_frame x : forall path name dd r dd' errs k,
  Shutil.copy_node path name x dd = (r, dd', errs) ->
  k <> name -> FS.lookup k dd' = FS.lookup k dd.
Proof.
  intros path name dd r dd' errs k Hrun Hne.
  destruct x as [c|sub].
  - simpl in Hrun.
    destruct (FS.lookup name dd) as [[c'|i]|];
      [| destruct (FS.lookup name i) |]; inversion Hrun; subst;
      try done; by rewrite lookup_put_ne.
  - rewrite copy_node_dir in Hrun.
    destruct (FS.lookup name dd) as [[c'|i]|].
    + by inversion Hrun.
    + simpl in Hrun.
      destruct (Shutil.copy_entries _ _ _) as [[sub' inner'] e].
      inversion Hrun; subst. by rewrite lookup_put_ne.
    + simpl in Hrun.
      destruct (Shutil.copy_entries _ _ _) as [[sub' inner'] e].
      inversion Hrun; subst. by rewrite lookup_put_ne.
Qed.

Lemma moved_file c path name dd r dd' :
  Shutil.copy_node path name (File c) dd = (r, dd', []) ->
  Shutil.moved name (File c) r (FS.lookup name dd) (FS.lookup name dd').
Proof.
  simpl. intros Hrun.
  destruct (FS.lookup name dd) as [[c0|i]|] eqn:Ho.
  - inversion Hrun; subst. rewrite lookup_put_eq. split.
    + by intros q c'.
    + intros [|k q] c' Hq; [|done]. by inversion Hq.
    + intros [|k q] c' Hq; [|done]. right. by exists c.
  - destruct (FS.lookup name i) eqn:Hi; inversion Hrun; subst.
    rewrite lookup_put_eq. split.
    + by intros q c'.
    + intros [|k q] c' Hq; [|done]. inversion Hq; subst.
      unfold FS.dir_at, FS.file_at; simpl. by rewrite lookup_put_eq.
    + intros [|k q] c' Hq; [done|]. left.
      unfold FS.file_at in *; simpl in *.
      destruct (decide (name = k)) as [->|Hne].
      * by rewrite Hi in Hq.
      * by rewrite lookup_put_ne.
  - inversion Hrun; subst. rewrite lookup_put_eq. split.
    + by intros q c'.
    + intros [|k q] c' Hq; [|done]. by inversion Hq.
    + by intros q c' Hq.
Qed.

(** The same for a whole listing moved onto the destination entries
    [acc]: entry by entry, and nothing else is touched. *)
Lemma moved_entries l :
  Forall (fun kx =>
            forall path name dd r dd',
              FS.well_formed kx.2 = true ->
              Shutil.copy_node path name kx.2 dd = (r, dd', []) ->
              Shutil.moved name kx.2 r (FS.lookup name dd) (FS.lookup name dd')) l ->
  forall path acc rest acc',
    FS.well_formed (Dir l) = true ->
    Shutil.copy_entries path l acc = (rest, acc', []) ->
    (forall k, k ∉ FS.listdir l -> FS.lookup k acc' = FS.lookup k acc)
    /\ (forall k x, FS.lookup k l = Some x ->
          Shutil.moved k x (FS.lookup k rest) (FS.lookup k acc) (FS.lookup k acc'))
    /\ (forall k, FS.lookup k l = None -> FS.lookup k rest = None).
Proof.
  induction 1 as [|[k0 x0] l Hx0 _ IH]; intros path acc rest acc' Hwf Hrun.
  - inversion Hrun; subst. by repeat split.
  - apply well_formed_cons in Hwf as (Hfresh & Hwf0 & Hwfl).
    simpl in Hrun.
    destruct (Shutil.copy_node path k0 x0 acc) as [[r acc1] e1] eqn:Hnode.
    destruct (Shutil.copy_entries path l acc1) as [[rest' acc2] e2] eqn:Hrest.
    inversion Hrun as [[Hr Hacc He]]. subst acc2.
    apply app_eq_nil in He as [-> ->].
    specialize (Hx0 path k0 acc r acc1 Hwf0 Hnode). simpl in Hx0.
    destruct (IH path acc1 rest' acc' Hwfl Hrest) as (Hframe & Hmoved & Hgone).
    assert (forall k, k <> k0 -> FS.lookup k acc1 = FS.lookup k acc) as Hframe0
      by (intros k Hk; by apply (copy_node_frame x0 path k0 acc r acc1 [])).
    assert (FS.lookup k0 rest' = None) as Hk0.
    { apply Hgone. destruct (FS.lookup k0 l) eqn:Hl; [|done].
      exfalso. apply Hfresh. apply lookup_listed. eauto. }
    assert (forall k, k <> k0 ->
              FS.lookup k match r with
                          | Some x' => (k0, x') :: rest'
                          | None => rest'
                          end = FS.lookup k rest') as Hrest_ne.
    { intros k Hk. destruct r; [|done]. simpl.
      by destruct (String.eqb_spec k0 k). }
    assert (FS.lookup k0 match r with
                         | Some x' => (k0, x') :: rest'
                         | None => rest'
                         end = r) as Hrest_eq.
    { destruct r; simpl; [by rewrite String.eqb_refl|done]. }
    split; [|split].
    + intros k Hk. unfold FS.listdir in Hk. simpl in Hk.
      apply not_elem_of_cons in Hk as [Hne Hk].
      rewrite Hframe by done. by apply Hframe0.
    + intros k x Hl. simpl in Hl.
      destruct (String.eqb_spec k0 k) as [->|Hne].
      * inversion Hl; subst x. rewrite Hrest_eq, (Hframe k) by done. done.
      * rewrite Hrest_ne, <- (Hframe0 k) by done. by apply Hmoved.
    + intros k Hl. simpl in Hl.
      destruct (String.eqb_spec k0 k) as [->|Hne]; [done|].
      rewrite Hrest_ne by done. by apply Hgone.
Qed.

Lemma at_path_cons k q i :
  FS.at_path (k :: q) (Some (Dir i)) = FS.at_path q (FS.lookup k i).
Proof. simpl. by destruct (FS.lookup k i). Qed.

Lemma file_at_cons k q i :
  FS.file_at (k :: q) (Some (Dir i)) = FS.file_at q (FS.lookup k i).
Proof. unfold FS.file_at. by rewrite at_path_cons. Qed.

Lemma dir_at_cons k q i :
  FS.dir_at (k :: q) (Some (Dir i)) = FS.dir_at q (FS.lookup k i).
Proof. unfold FS.dir_at. by rewrite at_path_cons. Qed.

(** A directory moved onto what holds no regular file of its name: the
    entries of the two are merged. *)
Lemma moved_dir sub name (o : option node) inner sub' inner' :
  inner = match o with Some (Dir i) => i | _ => [] end ->
  (forall c, o <> Some (File c)) ->
  (forall k, k ∉ FS.listdir sub -> FS.lookup k inner' = FS.lookup k inner) ->
  (forall k x, FS.lookup k sub = Some x ->
     Shutil.moved k x (FS.lookup k sub') (FS.lookup k inner)
                  (FS.lookup k inner')) ->
  (forall k, FS.lookup k sub = None -> FS.lookup k sub' = None) ->
  Shutil.moved name (Dir sub) (Some (Dir sub')) o (Some (Dir inner')).
Proof.
  intros Hinner Hnofile Hframe Hmoved Hgone. split.
  - intros [|k q] c; [done|]. rewrite at_path_cons.
    destruct (FS.lookup k sub) as [x|] eqn:Hk.
    + apply (Shutil.moved_cleared _ _ _ _ _ (Hmoved k x Hk)).
    + by rewrite (Hgone k Hk).
  - intros [|k q] c Hq; [done|]. simpl in Hq.
    destruct (FS.lookup k sub) as [x|] eqn:Hk; [|done].
    pose proof (Shutil.moved_arrival _ _ _ _ _ (Hmoved k x Hk) q c Hq) as Ha.
    rewrite <- app_comm_cons, !file_at_cons, last_cons_default.
    destruct o as [[c0|i]|]; subst inner.
    + by destruct (Hnofile c0).
    + by rewrite dir_at_cons.
    + done.
  - intros q c Hq. destruct o as [[c0|i]|]; subst inner.
    + by destruct (Hnofile c0).
    + destruct q as [|k q]; [done|].
      rewrite file_at_cons in *.
      destruct (FS.lookup k sub) as [x|] eqn:Hk.
      * destruct (Shutil.moved_kept _ _ _ _ _ (Hmoved k x Hk) q c Hq)
          as [Hkept|[c' Hover]]; [by left|].
        right. exists c'. simpl. by rewrite Hk.
      * left. rewrite Hframe; [done|].
        intros Hin. apply lookup_listed in Hin as [x Hx]. congruence.
    + done.
Qed.

(** Every node: a move that reports no failure leaves no file behind,
    delivers every file, and keeps what it does not replace. *)
Lemma moved_node x : forall path name dd r dd',
  FS.well_formed x = true ->
  Shutil.copy_node path name x dd = (r, dd', []) ->
  Shutil.moved name x r (FS.lookup name dd) (FS.lookup name dd').
Proof.
  induction x as [c|sub IH] using node_tree_ind;
    intros path name dd r dd' Hwf Hrun.
  - by apply (moved_file c path).
  - rewrite copy_node_dir in Hrun.
    destruct (FS.lookup name dd) as [[c0|i]|] eqn:Ho.
    + by inversion Hrun.
    + simpl in Hrun.
      destruct (Shutil.copy_entries _ _ _) as [[sub' inner'] e] eqn:Hent.
      inversion Hrun; subst. rewrite lookup_put_eq.
      destruct (moved_entries sub IH _ _ _ _ Hwf Hent) as (Hf & Hm & Hg).
      by apply (moved_dir sub name (Some (Dir i)) i).
    + simpl in Hrun.
      destruct (Shutil.copy_entries _ _ _) as [[sub' inner'] e] eqn:Hent.
      inversion Hrun; subst. rewrite lookup_put_eq.
      destruct (moved_entries sub IH _ _ _ _ Hwf Hent) as (Hf & Hm & Hg).
      by apply (moved_dir sub name None []).
Qed.

(** [shutil.copytree] at the top, when it raises nothing. *)
Lemma copytree_moved src dst_path dst src' dst' :
  FS.well_formed (Dir src) = true ->
  Shutil.copytree src dst_path dst = (Return tt, src', dst') ->
  Shutil.moved dst_path (Dir src) (Some (Dir src')) dst dst'.
Proof.
  intros Hwf Hrun. unfold Shutil.copytree in Hrun.
  assert (Forall (fun kx =>
            forall path name dd r dd',
              FS.well_formed kx.2 = true ->
              Shutil.copy_node path name kx.2 dd = (r, dd', []) ->
              Shutil.moved name kx.2 r (FS.lookup name dd)
                           (FS.lookup name dd')) src) as Hall.
  { apply Forall_forall. intros [k x] _. apply moved_node. }
  destruct dst as [[c0|i]|].
  - by inversion Hrun.
  - destruct (Shutil.copy_entries [] src i) as [[s' i'] e] eqn:Hent.
    destruct e; inversion Hrun; subst.
    destruct (moved_entries src Hall _ _ _ _ Hwf Hent) as (Hf & Hm & Hg).
    by apply (moved_dir src dst_path (Some (Dir i)) i).
  - destruct (Shutil.copy_entries [] src []) as [[s' i'] e] eqn:Hent.
    destruct e; inversion Hrun; subst.
    destruct (moved_entries src Hall _ _ _ _ Hwf Hent) as (Hf & Hm & Hg).
    by apply (moved_dir src dst_path None []).
Qed.

End Relocation.

(** ** Archive extraction *)

Section Extraction.

Context {Env : Type}.
Variable shell : string -> string -> machine Env -> machine Env * Z.
Variable directory : string.

Local Abbreviation stem := (Str.split_head ".tar").
Local Abbreviation untar_loop := (untar_each Env shell directory).
Local Abbreviation kept := (keeps_within Env shell).
Local Abbreviation turn := (extractor_turn Env shell directory).
Local Abbreviation exit_status f wd m := (shell (tar_cmd directory f) wd m).2.
Local Abbreviation made f st :=
  (mach (set_tmp Env (tmp (mach st) ++ [(stem f, Dir [])]) st)).

Lemma untar_each_cons f rest (st : proc Env) :
  untar_loop (f :: rest) st
  = match FS.mkdir (Path.join directory (stem f)) (stem f) (tmp (mach st)) with
    | Raise e => (Raise e, st)
    | Return d =>
        let '(rc, st1) :=
          subprocess_call Env shell Extractor (tar_cmd directory f)
                          (set_tmp Env d st) in
        if negb (rc =? 0)%Z
        then (Raise (RuntimeError ("Failed to untar " +:+ f)), st1)
        else match FS.remove (Path.join directory f) f (tmp (mach st1)) with
             | Raise e => (Raise e, st1)
             | Return d' => untar_loop rest (set_tmp Env d' st1)
             end
    end.
Proof. reflexivity. Qed.

(** The state in which the extractor has just run for [f]. *)
Lemma untar_extractor_run f c (st : proc Env) :
  FS.lookup f (tmp (mach st)) = Some (File c) ->
  FS.lookup (stem f) (tmp (mach st)) = None ->
  kept (cwd st) directory f (made f st) ->
  exists st1 rc,
    subprocess_call Env shell Extractor (tar_cmd directory f)
      (set_tmp Env (tmp (mach st) ++ [(stem f, Dir [])]) st) = (rc, st1)
    /\ rc = exit_status f (cwd st) (made f st)
    /\ cwd st1 = cwd st
    /\ trace st1 = trace st ++ [Exec Extractor (tar_cmd directory f)]
    /\ FS.lookup f (tmp (mach st1)) = Some (File c)
    /\ (exists i, FS.lookup (stem f) (tmp (mach st1)) = Some (Dir i))
    /\ (forall name, name <> stem f ->
          FS.lookup name (tmp (mach st1)) = FS.lookup name (tmp (mach st))).
Proof.
  intros Hf Hfresh Htool.
  set (st0 := set_tmp Env (tmp (mach st) ++ [(stem f, Dir [])]) st).
  change (kept (cwd st) directory f (mach st0)) in Htool.
  unfold keeps_within in Htool. cbv zeta in Htool.
  unfold subprocess_call. change (cwd st0) with (cwd st).
  destruct (shell (tar_cmd directory f) (cwd st) (mach st0)) as [m rc] eqn:Hsh.
  simpl in Htool. destruct Htool as [Hframe Hdir].
  assert (stem f <> f) as Hne by (intros Heq; rewrite Heq in Hfresh; congruence).
  assert (forall name, name <> stem f ->
            FS.lookup name (tmp m) = FS.lookup name (tmp (mach st))) as Hothers.
  { intros name Hname. rewrite Hframe by done.
    subst st0. simpl. rewrite lookup_app_one.
    destruct (FS.lookup name (tmp (mach st))); [done|].
    by destruct (String.eqb_spec (stem f) name). }
  exists {| mach := m; cwd := cwd st;
            trace := trace st0 ++ [Exec Extractor (tar_cmd directory f)] |}, rc.
  repeat split; try done.
  - simpl. rewrite Hothers by done. done.
  - apply Hdir. exists []. subst st0. simpl.
    by rewrite lookup_app_one, Hfresh, String.eqb_refl.
Qed.

(** One archive, extracted: its directory is there, the archive is gone,
    nothing else has changed. *)
Lemma untar_step_ok f c (st : proc Env) :
  FS.lookup f (tmp (mach st)) = Some (File c) ->
  FS.lookup (stem f) (tmp (mach st)) = None ->
  FS.not_a_child (stem f) = false ->
  kept (cwd st) directory f (made f st) ->
  exit_status f (cwd st) (made f st) = 0 ->
  exists st3,
    (forall rest, untar_loop (f :: rest) st = untar_loop rest st3)
    /\ cwd st3 = cwd st
    /\ trace st3 = trace st ++ [Exec Extractor (tar_cmd directory f)]
    /\ FS.lookup f (tmp (mach st3)) = None
    /\ (exists i, FS.lookup (stem f) (tmp (mach st3)) = Some (Dir i))
    /\ (forall name, name <> f -> name <> stem f ->
          FS.lookup name (tmp (mach st3)) = FS.lookup name (tmp (mach st))).
Proof.
  intros Hf Hfresh Hchild Htool Hzero.
  destruct (untar_extractor_run f c st Hf Hfresh Htool)
    as (st1 & rc & Hcall & Hrc & Hcwd & Htr & Hf1 & Hdir & Hothers).
  rewrite Hzero in Hrc. subst rc.
  assert (stem f <> f) as Hne by (intros Heq; rewrite Heq in Hfresh; congruence).
  exists (set_tmp Env (FS.del f (tmp (mach st1))) st1).
  split; [|repeat split].
  - intros rest.
    rewrite untar_each_cons. unfold FS.mkdir. rewrite Hchild, Hfresh, Hcall.
    simpl negb. cbv iota. unfold FS.remove. by rewrite Hf1.
  - done.
  - done.
  - simpl. apply lookup_del_eq.
  - simpl. destruct Hdir as [i Hi]. exists i.
    by rewrite lookup_del_ne.
  - intros name Hname Hstem. simpl.
    rewrite lookup_del_ne by done. by apply Hothers.
Qed.

(** One archive on which the extractor reports failure: [RuntimeError],
    the archive is still there beside the directory made for it, and
    nothing else has changed. *)
Lemma untar_step_fail f c rest (st : proc Env) :
  FS.lookup f (tmp (mach st)) = Some (File c) ->
  FS.lookup (stem f) (tmp (mach st)) = None ->
  FS.not_a_child (stem f) = false ->
  kept (cwd st) directory f (made f st) ->
  exit_status f (cwd st) (made f st) <> 0 ->
  exists st1,
    untar_loop (f :: rest) st
    = (Raise (RuntimeError ("Failed to untar " +:+ f)), st1)
    /\ trace st1 = trace st ++ [Exec Extractor (tar_cmd directory f)]
    /\ (exists i, FS.lookup (stem f) (tmp (mach st1)) = Some (Dir i))
    /\ (forall name, name <> stem f ->
          FS.lookup name (tmp (mach st1)) = FS.lookup name (tmp (mach st))).
Proof.
  intros Hf Hfresh Hchild Htool Hfail.
  destruct (untar_extractor_run f c st Hf Hfresh Htool)
    as (st1 & rc & Hcall & Hrc & Hcwd & Htr & Hf1 & Hdir & Hothers).
  exists st1. split; [|done].
  rewrite untar_each_cons. unfold FS.mkdir. rewrite Hchild, Hfresh, Hcall.
  replace (rc =? 0)%Z with false; [done|].
  symmetry. apply Z.eqb_neq. by rewrite Hrc.
Qed.

(** The extractor's turn for the first archive of a list comes on the
    machine that has the new directory and nothing else new. *)
Lemma turn_here f (st : proc Env) :
  FS.lookup (stem f) (tmp (mach st)) = None ->
  FS.not_a_child (stem f) = false ->
  turn st [] f (made f st).
Proof.
  intros Hfresh Hchild.
  exists st, (tmp (mach st) ++ [(stem f, Dir [])]).
  split; [done|]. split; [|done].
  unfold FS.mkdir. by rewrite Hchild, Hfresh.
Qed.

Lemma turn_later f (st st3 : proc Env) p g m :
  (forall rest, untar_loop (f :: rest) st = untar_loop rest st3) ->
  turn st3 p g m -> turn st (f :: p) g m.
Proof.
  intros Hstep (st1 & d & Hrun & Hmk & ->).
  exists st1, d. by rewrite Hstep.
Qed.

(** A run of archives, each extracted.  What is asked of the extractor is
    asked on the machines it is started on. *)
Lemma untar_prefix_ok pre : forall (st : proc Env),
  (forall f, f ∈ pre -> exists c, FS.lookup f (tmp (mach st)) = Some (File c)) ->
  (forall f, f ∈ pre ->
     FS.lookup (stem f) (tmp (mach st)) = None
     /\ FS.not_a_child (stem f) = false) ->
  NoDup (map stem pre) ->
  (forall p g q m, pre = p ++ g :: q -> turn st p g m ->
     kept (cwd st) directory g m) ->
  (forall p g q m, pre = p ++ g :: q -> turn st p g m ->
     exit_status g (cwd st) m = 0) ->
  exists st',
    (forall rest, untar_loop (pre ++ rest) st = untar_loop rest st')
    /\ cwd st' = cwd st
    /\ trace st'
       = trace st ++ map (fun f => Exec Extractor (tar_cmd directory f)) pre
    /\ (forall f, f ∈ pre ->
          FS.lookup f (tmp (mach st')) = None
          /\ exists i, FS.lookup (stem f) (tmp (mach st')) = Some (Dir i))
    /\ (forall name, name ∉ pre -> name ∉ map stem pre ->
          FS.lookup name (tmp (mach st')) = FS.lookup name (tmp (mach st))).
Proof.
  induction pre as [|f pre IH]; intros st Hfiles Hfresh Hnodup Htool Hzero.
  - exists st. split; [done|]. split; [done|]. split; [|split].
    + simpl. by rewrite app_nil_r.
    + intros g Hg. by apply elem_of_nil in Hg.
    + done.
  - destruct (Hfiles f) as [c Hf]; [left|].
    destruct (Hfresh f) as [Hnone Hchild]; [left|].
    simpl in Hnodup. apply NoDup_cons in Hnodup as [Hstem Hnodup].
    destruct (untar_step_ok f c st Hf Hnone Hchild)
      as (st3 & Hrun & Hcwd & Htr & Hgone & Hdir & Hothers).
    { apply (Htool [] f pre); [done|by apply turn_here]. }
    { apply (Hzero [] f pre); [done|by apply turn_here]. }
    assert (forall g, g ∈ pre -> g <> f /\ g <> stem f
                                 /\ stem g <> f /\ stem g <> stem f) as Hsep.
    { intros g Hg.
      destruct (Hfiles g) as [cg Hcg]; [by right|].
      destruct (Hfresh g) as [Hng _]; [by right|].
      repeat split; intros Heq.
      - subst g. apply Hstem. apply list_elem_of_fmap. eauto.
      - rewrite Heq in Hcg. congruence.
      - rewrite Heq in Hng. congruence.
      - apply Hstem. rewrite <- Heq. apply list_elem_of_fmap. eauto. }
    destruct (IH st3) as (st' & Hrun' & Hcwd' & Htr' & Hdone & Hframe).
    + intros g Hg. destruct (Hsep g Hg) as (? & ? & ? & ?).
      destruct (Hfiles g) as [cg Hcg]; [by right|].
      exists cg. by rewrite Hothers.
    + intros g Hg. destruct (Hsep g Hg) as (? & ? & ? & ?).
      destruct (Hfresh g) as [Hng Hcg]; [by right|].
      split; [|done]. by rewrite Hothers.
    + done.
    + intros p g q m -> Hturn. rewrite Hcwd.
      apply (Htool (f :: p) g q); [done|]. by apply (turn_later f st st3).
    + intros p g q m -> Hturn. rewrite Hcwd.
      apply (Hzero (f :: p) g q); [done|]. by apply (turn_later f st st3).
    + exists st'. split; [|split; [|split; [|split]]].
      * intros rest. by rewrite <- app_comm_cons, Hrun.
      * congruence.
      * rewrite Htr', Htr, <- app_assoc. done.
      * intros g Hg. apply elem_of_cons in Hg as [->|Hg]; [|by apply Hdone].
        assert (f ∉ pre) as Hfp by (intros Hin; by destruct (Hsep f Hin)).
        assert (f ∉ map stem pre) as Hfs.
        { intros Hin. apply list_elem_of_fmap in Hin as (g & Hg1 & Hg2).
          destruct (Hsep g Hg2) as (? & ? & ? & ?). congruence. }
        assert (stem f ∉ pre) as Hsp.
        { intros Hin. destruct (Hsep _ Hin) as (? & ? & ? & ?). congruence. }
        rewrite !Hframe by done. done.
      * intros name Hn Hs.
        apply not_elem_of_cons in Hn as [Hn1 Hn2].
        simpl in Hs. apply not_elem_of_cons in Hs as [Hs1 Hs2].
        rewrite Hframe by done. by apply Hothers.
Qed.

(** After such a run the extractor's turn for the next archive has come. *)
Lemma turn_after pre f (st st1 : proc Env) :
  (forall rest, untar_loop (pre ++ rest) st = untar_loop rest st1) ->
  FS.lookup (stem f) (tmp (mach st1)) = None ->
  FS.not_a_child (stem f) = false ->
  turn st pre f (made f st1).
Proof.
  intros Hrun Hfresh Hchild.
  exists st1, (tmp (mach st1) ++ [(stem f, Dir [])]).
  split; [|split; [|done]].
  - specialize (Hrun []). by rewrite app_nil_r in Hrun.
  - unfold FS.mkdir. by rewrite Hchild, Hfresh.
Qed.

End Extraction.

(** ** Extraction and relocation inside [download_files] *)

Section AfterVerification.

Context {Env : Type}.
Variable shell : string -> string -> machine Env -> machine Env * Z.
Variable open_csv : machine Env -> string -> string -> option Csv.lines.
Variable abspath : string -> string -> string.
Variable mkdtemp : Env -> Env * string.
Variable self : dbGaPFileFetcher.

Local Abbreviation enter := (enter_temp_dir Env mkdtemp).
Local Abbreviation download :=
  (download_files Env shell open_csv abspath mkdtemp self).
Local Abbreviation stem := (Str.split_head ".tar").

Lemma commands_of_execs t (g : string -> string) (l : list string) :
  commands t (map (fun f => Exec t (g f)) l) = map g l.
Proof.
  unfold commands. induction l as [|f l IH]; [done|].
  simpl. destruct t; simpl; by rewrite IH.
Qed.

Lemma no_downloader_in_execs (g : string -> string) (l : list string) :
  invocations Downloader (map (fun f => Exec Extractor (g f)) l) = 0%nat.
Proof. unfold invocations. induction l as [|f l IH]; [done|]. by simpl. Qed.

Lemma map_on_members {A B} (f g : A -> B) (l : list A) :
  (forall a, a ∈ l -> f a = g a) -> map f l = map g l.
Proof.
  intros H. apply map_ext_in. intros a Ha. apply H. by apply list_elem_of_In.
Qed.

(** C7, as amended.  Extraction handles the entries of the working
    directory whose names end in [.tar] or [.tar.gz], in listing order.
    Taken: each of them is a regular file whose name has its first [.tar]
    in the suffix, the names without the suffix differ from each other and
    from every entry there is, and the extractor, each time it is started,
    keeps to the directory it unpacks into.  What the extractor does and
    reports is asked about on the machines it is started on in this run
    ([turn pre f m]: [m] is the machine when the archives [pre] have been
    handled and the directory for [f] has been made), nowhere else.
    - When the extractor reports 0 each time, [_untar] ends normally: the
      extractor has been started once per archive, with the archive and the
      new directory, every archive is gone and the directory named after it
      is there, and every other entry is as it was.
    - When the extractor reports 0 for the archives [pre] and non-zero for
      the next one, [f], [_untar] raises [RuntimeError] naming [f] at once:
      [f] is still there beside the directory made for it, the archives
      [pre] are gone and their directories are there, every other entry,
      the later archives among them, is as it was, no later archive is
      handed to the extractor, and the exception leaves [download_files]
      without another run of the downloader. *)
Theorem extraction_per_archive
    (fuel : nat) cart manifest n_files (n : Z) (st0 st : proc Env) :
  let temp_dir := (enter st0).1 in
  let tar_files := List.filter is_archive (FS.listdir (tmp (mach st))) in
  let cmd := fun f =>
    "tar -xvf " +:+ f +:+ " -C " +:+ Path.join temp_dir (archive_stem f) in
  let turn := extractor_turn Env shell temp_dir st in
  attempts Env shell open_csv self fuel (abspath (cwd st0) cart)
           manifest n_files n 1 (enter st0).2 = Some (Return Verified, st) ->
  (forall f, f ∈ tar_files -> stem f = archive_stem f) ->
  (forall f, f ∈ tar_files ->
     exists c, FS.lookup f (tmp (mach st)) = Some (File c)) ->
  (forall f, f ∈ tar_files ->
     FS.lookup (archive_stem f) (tmp (mach st)) = None
     /\ FS.not_a_child (archive_stem f) = false) ->
  NoDup (map archive_stem tar_files) ->
  (forall pre f post m, tar_files = pre ++ f :: post -> turn pre f m ->
     keeps_within Env shell (cwd st) temp_dir f m) ->
  ((forall pre f post m, tar_files = pre ++ f :: post -> turn pre f m ->
      (shell (cmd f) (cwd st) m).2 = 0) ->
   exists st',
     _untar Env shell temp_dir st = (Return tt, st')
     /\ commands Extractor (trace st')
        = commands Extractor (trace st) ++ map cmd tar_files
     /\ (forall f, f ∈ tar_files ->
           FS.lookup f (tmp (mach st')) = None
           /\ exists i,
                FS.lookup (archive_stem f) (tmp (mach st')) = Some (Dir i))
     /\ (forall name, name ∉ tar_files -> name ∉ map archive_stem tar_files ->
           FS.lookup name (tmp (mach st')) = FS.lookup name (tmp (mach st))))
  /\ (forall pre f post,
        tar_files = pre ++ f :: post ->
        (forall p g q m, pre = p ++ g :: q -> turn p g m ->
           (shell (cmd g) (cwd st) m).2 = 0) ->
        (forall m, turn pre f m -> (shell (cmd f) (cwd st) m).2 <> 0) ->
        exists st',
          _untar Env shell temp_dir st
          = (Raise (RuntimeError ("Failed to untar " +:+ f)), st')
          /\ download fuel cart manifest n_files n true st0
             = Some (Raise (RuntimeError ("Failed to untar " +:+ f)),
                     set_tmp Env [] st')
          /\ (exists c, FS.lookup f (tmp (mach st')) = Some (File c))
          /\ (exists i,
                FS.lookup (archive_stem f) (tmp (mach st')) = Some (Dir i))
          /\ (forall g, g ∈ pre ->
                FS.lookup g (tmp (mach st')) = None
                /\ exists i,
                     FS.lookup (archive_stem g) (tmp (mach st')) = Some (Dir i))
          /\ (forall g, g ∈ post ->
                FS.lookup g (tmp (mach st')) = FS.lookup g (tmp (mach st)))
          /\ (forall name,
                name ∉ pre -> name ∉ map archive_stem (pre ++ [f]) ->
                FS.lookup name (tmp (mach st')) = FS.lookup name (tmp (mach st)))
          /\ commands Extractor (trace st')
             = commands Extractor (trace st) ++ map cmd (pre ++ [f])
          /\ invocations Downloader (trace st')
             = invocations Downloader (trace st)).
Proof.
  intros temp_dir tar_files cmd turn Hloop Hplain Hfiles Hfresh Hnodup Htool.
  assert (forall f, f ∈ tar_files -> cmd f = tar_cmd temp_dir f) as Hcmd.
  { intros f Hf. unfold cmd, tar_cmd. by rewrite (Hplain f Hf). }
  assert (map archive_stem tar_files = map stem tar_files) as Hstems.
  { symmetry. by apply map_on_members. }
  assert (forall f, f ∈ tar_files ->
            FS.lookup (stem f) (tmp (mach st)) = None
            /\ FS.not_a_child (stem f) = false) as Hfresh'.
  { intros f Hf. rewrite (Hplain f Hf). by apply Hfresh. }
  rewrite Hstems in Hnodup.
  split.
  - intros Hzero.
    destruct (untar_prefix_ok shell temp_dir tar_files st)
      as (st' & Hrun & Hcwd & Htr & Hdone & Hframe); try done.
    { intros p g q m Hsplit Hturn.
      rewrite <- (Hcmd g)
        by (rewrite Hsplit; apply elem_of_app; right; left).
      by apply (Hzero p g q). }
    specialize (Hrun []). rewrite app_nil_r in Hrun.
    exists st'. split; [done|]. split; [|split].
    + rewrite Htr, commands_app, (commands_of_execs Extractor (tar_cmd temp_dir)).
      f_equal. symmetry. by apply map_on_members.
    + intros f Hf. rewrite <- (Hplain f Hf). by apply Hdone.
    + intros name Hn Hs. apply Hframe; [done|]. by rewrite <- Hstems.
  - intros pre f post Hsplit Hzero Hfail.
    assert (forall g, g ∈ pre -> g ∈ tar_files) as Hpre
      by (intros g Hg; rewrite Hsplit; apply elem_of_app; by left).
    assert (f ∈ tar_files) as Hf
      by (rewrite Hsplit; apply elem_of_app; right; left).
    assert (forall g, g ∈ post -> g ∈ tar_files) as Hpost
      by (intros g Hg; rewrite Hsplit; apply elem_of_app; right; by right).
    rewrite Hsplit, map_app in Hnodup.
    apply NoDup_app in Hnodup as (Hnd_pre & Hdisj & Hnd_post).
    destruct (Hfiles f Hf) as [c Hc].
    destruct (Hfresh' f Hf) as [Hnone Hchild].
    assert (f ∉ pre) as Hf_pre.
    { intros Hin. apply (Hdisj (stem f)); [|left].
      apply list_elem_of_fmap. eauto. }
    assert (forall x, x ∈ tar_files -> x ∉ map stem tar_files) as Hfile_stem.
    { intros x Hx Hin. apply list_elem_of_fmap in Hin as (g & Hg1 & Hg2).
      destruct (Hfresh' g Hg2) as [Hng _].
      destruct (Hfiles x Hx) as [cx Hcx]. congruence. }
    assert (forall l, l ⊆ tar_files -> forall x, x ∈ tar_files ->
              x ∉ map stem l) as Hfile_stem'.
    { intros l Hl x Hx Hin. apply (Hfile_stem x Hx).
      apply list_elem_of_fmap in Hin as (g & Hg1 & Hg2).
      apply list_elem_of_fmap. exists g. split; [done|]. by apply Hl. }
    assert (f ∉ map stem pre) as Hf_stems
      by (apply Hfile_stem'; [intros g; apply Hpre|done]).
    assert (stem f ∉ pre) as Hs_pre.
    { intros Hin. destruct (Hfiles _ (Hpre _ Hin)) as [c' Hc']. congruence. }
    assert (stem f ∉ map stem pre) as Hs_stems.
    { intros Hin. apply (Hdisj (stem f)); [done|left]. }
    destruct (untar_prefix_ok shell temp_dir pre st)
      as (st1 & Hrun & Hcwd & Htr & Hdone & Hframe); try done.
    { intros g Hg. apply Hfiles. by apply Hpre. }
    { intros g Hg. apply Hfresh'. by apply Hpre. }
    { intros p g q m Hpq Hturn.
      apply (Htool p g (q ++ f :: post)); [|done].
      by rewrite Hsplit, Hpq, <- app_assoc. }
    { intros p g q m Hpq Hturn.
      rewrite <- (Hcmd g)
        by (apply Hpre; rewrite Hpq; apply elem_of_app; right; left).
      by apply (Hzero p g q). }
    assert (extractor_turn Env shell temp_dir st pre f
              (mach (set_tmp Env (tmp (mach st1) ++ [(stem f, Dir [])]) st1)))
      as Hturn.
    { apply turn_after; [done| |done]. by rewrite Hframe. }
    destruct (untar_step_fail shell temp_dir f c post st1)
      as (st2 & Hrun2 & Htr2 & Hdir2 & Hothers).
    { by rewrite Hframe. }
    { by rewrite Hframe. }
    { done. }
    { rewrite Hcwd. by apply (Htool pre f post). }
    { rewrite Hcwd, <- (Hcmd f Hf). by apply Hfail. }
    assert (_untar Env shell temp_dir st
            = (Raise (RuntimeError ("Failed to untar " +:+ f)), st2)) as Huntar.
    { unfold _untar. fold tar_files. by rewrite Hsplit, Hrun, Hrun2. }
    assert (trace st2
            = trace st ++ map (fun g => Exec Extractor (tar_cmd temp_dir g))
                              (pre ++ [f])) as Htrace.
    { by rewrite Htr2, Htr, map_app, <- app_assoc. }
    assert (forall name, name ∉ pre -> name ∉ map stem (pre ++ [f]) ->
              FS.lookup name (tmp (mach st2)) = FS.lookup name (tmp (mach st)))
      as Hrest.
    { intros name Hn Hs. rewrite map_app in Hs.
      apply not_elem_of_app in Hs as [Hs1 Hs2].
      simpl in Hs2. apply not_elem_of_cons in Hs2 as [Hs2 _].
      rewrite Hothers by done. by apply Hframe. }
    assert (map archive_stem (pre ++ [f]) = map stem (pre ++ [f])) as Hstems'.
    { symmetry. apply map_on_members. intros g Hg. apply Hplain.
      apply elem_of_app in Hg as [Hg|Hg]; [by apply Hpre|].
      apply list_elem_of_singleton in Hg. by subst g. }
    exists st2. split; [done|].
    split; [|split; [|split; [|split; [|split; [|split; [|split]]]]]].
    + rewrite download_files_unfold, Hloop. cbv zeta.
      unfold finish, extraction. fold temp_dir. by rewrite Huntar.
    + exists c. rewrite Hothers, Hframe; try done.
      intros Heq. rewrite <- Heq in Hnone. congruence.
    + by rewrite <- (Hplain f Hf).
    + intros g Hg. rewrite <- (Hplain g (Hpre g Hg)).
      destruct (Hdone g Hg) as [Hgone Hdir].
      assert (g <> stem f) as Hg1 by (intros ->; by apply Hs_pre).
      assert (stem g <> stem f) as Hg2.
      { intros Heq. apply Hs_stems. rewrite <- Heq.
        apply list_elem_of_fmap. eauto. }
      by rewrite !Hothers.
    + intros g Hg. apply Hrest.
      * intros Hin. apply (Hdisj (stem g)).
        -- apply list_elem_of_fmap. eauto.
        -- right. apply list_elem_of_fmap. eauto.
      * apply Hfile_stem'; [|by apply Hpost].
        intros x Hx. apply elem_of_app in Hx as [Hx|Hx]; [by apply Hpre|].
        apply list_elem_of_singleton in Hx. by subst x.
    + intros name Hn Hs. apply Hrest; [done|]. by rewrite <- Hstems'.
    + rewrite Htrace, commands_app,
        (commands_of_execs Extractor (tar_cmd temp_dir)).
      f_equal. symmetry. apply map_on_members.
      intros g Hg. apply Hcmd. apply elem_of_app in Hg as [Hg|Hg].
      * by apply Hpre.
      * apply list_elem_of_singleton in Hg. by subst g.
    + by rewrite Htrace, invocations_app, no_downloader_in_execs, Nat.add_0_r.
Qed.

End AfterVerification.

Section Relocate.

Context {Env : Type}.
Variable shell : string -> string -> machine Env -> machine Env * Z.
Variable self : dbGaPFileFetcher.

Lemma file_at_sub q n c :
  FS.file_at q (Some n) = Some c <-> FS.sub_at q n = Some (File c).
Proof.
  unfold FS.file_at, FS.at_path.
  destruct (FS.sub_at q n) as [[c'|i]|]; split; intros H; by inversion H.
Qed.

(** C8, as amended.  When relocation raises nothing, every regular file of
    the working tree has left it and is in the output directory: at its own
    relative path, in place of a regular file that was there, or, where the
    output directory had a directory at that path, inside that directory
    under its own name.  The output directory is merged into: each of its
    files is still there unless a file of the working tree took its path.
    No external program is run for this. *)
Theorem relocation_moves_files
    temp_dir owd untar (st st_u st' : proc Env) :
  extraction Env shell temp_dir untar st = (Return tt, st_u) ->
  FS.well_formed (Dir (tmp (mach st_u))) = true ->
  finish Env shell self temp_dir owd untar st = (Return true, st') ->
  (forall q, FS.file_at q (Some (Dir (tmp (mach st')))) = None)
  /\ (forall q name c,
        FS.file_at (q ++ [name]) (Some (Dir (tmp (mach st_u)))) = Some c ->
        if FS.dir_at (q ++ [name]) (out (mach st_u))
        then FS.file_at (q ++ [name; name]) (out (mach st')) = Some c
        else FS.file_at (q ++ [name]) (out (mach st')) = Some c)
  /\ (forall q c,
        FS.file_at q (out (mach st_u)) = Some c ->
        FS.file_at q (out (mach st')) = Some c
        \/ is_Some (FS.file_at q (Some (Dir (tmp (mach st_u))))))
  /\ trace st' = trace st_u.
Proof.
  intros Hext Hwf Hfin. unfold finish in Hfin. rewrite Hext in Hfin.
  simpl in Hfin.
  destruct (Shutil.copytree (tmp (mach st_u)) (output_dir self) (out (mach st_u)))
    as [[r src'] dst'] eqn:Hcopy.
  destruct r as [[]|e]; inversion Hfin; subst st'; simpl.
  pose proof (copytree_moved _ _ _ _ _ Hwf Hcopy) as [Hclear Harrive Hkept].
  split; [|split; [|split]].
  - intros q. unfold FS.file_at.
    destruct (FS.at_path q (Some (Dir src'))) as [[c|i]|] eqn:H; try done.
    by destruct (Hclear q c).
  - intros q name c Hq. apply file_at_sub in Hq.
    specialize (Harrive (q ++ [name]) c Hq).
    rewrite last_last, <- app_assoc in Harrive. done.
  - intros q c Hq. destruct (Hkept q c Hq) as [H|[c' H]]; [by left|].
    right. exists c'. by apply file_at_sub.
  - done.
Qed.

End Relocate.

(** * The examples *)

Module Examples.

Import Scenario.

Local Abbreviation run sh :=
  (download_files nat sh open_csv abspath mkdtemp fetcher).
Local Abbreviation entered := (enter_temp_dir nat mkdtemp start).2.
Local Abbreviation downloaded sh k :=
  (after_downloads nat sh fetcher "/home/u/cart.krt" k entered).

(** C1 at work: two attempts allowed, the manifest lists [a.txt] and
    [b.txt].  The first download brings [a.txt] only, the second completes
    the directory, which would pass the check, and the answer is [False]
    after two runs of the downloader. *)
Lemma download_files_exhausts_retries_witness :
  all_files_downloaded nat open_csv (Some "/data/manifest.csv") None
    (downloaded shell 2) = Return true
  /\ run shell 2 "cart.krt" (Some "/data/manifest.csv") None 2 false start
     = Some (Return false, set_tmp nat [] (downloaded shell 2))
  /\ invocations Downloader (trace (set_tmp nat [] (downloaded shell 2)))
     = (invocations Downloader (trace start) + 2)%nat.
Proof.
  split; [vm_compute; reflexivity|].
  apply (download_files_exhausts_retries shell open_csv abspath mkdtemp fetcher
           2 2 "cart.krt" (Some "/data/manifest.csv") None false start).
  - lia.
  - lia.
  - intros j Hj. assert (j = 1%nat) as -> by lia. vm_compute. reflexivity.
Defined.

(** C3 at work: three attempts allowed, the check passes after the second
    download. *)
Lemma download_files_verified_at_witness :
  exists st',
    run shell 2 "cart.krt" (Some "/data/manifest.csv") None 3 false start
    = Some (Return true, st')
    /\ invocations Downloader (trace st')
       = (invocations Downloader (trace start) + 2)%nat.
Proof.
  destruct (download_files_verified_at shell open_csv abspath mkdtemp fetcher
              3 2 2 "cart.krt" (Some "/data/manifest.csv") None false start)
    as (st' & Hrun & Hinv & Htrue).
  - lia.
  - lia.
  - lia.
  - lia.
  - intros j Hj. assert (j = 1%nat) as -> by lia. vm_compute. reflexivity.
  - vm_compute. reflexivity.
  - exists st'. split; [|exact Hinv].
    rewrite <- Htrue; [exact Hrun|]. vm_compute. tauto.
Defined.

(** C3 as it stands fails: three attempts allowed, one file expected and
    delivered by the first download, so that the check passes at once; a
    regular file is at the output path, and [download_files] does not
    return [True] but raises [FileExistsError]. *)
Lemma verified_attempt_ends_in_exception :
  all_files_downloaded nat open_csv None (Some 1)
    (after_downloads nat shell fetcher "/home/u/cart.krt" 1
       (enter_temp_dir nat mkdtemp Fixtures.start_onto_file).2) = Return true
  /\ exists st',
       run shell 5 "cart.krt" None (Some 1) 3 false Fixtures.start_onto_file
       = Some (Raise (FileExistsError "/home/u/out"), st')
       /\ invocations Downloader (trace st') = 1%nat.
Proof.
  split; [vm_compute; reflexivity|].
  eexists. split; [vm_compute; reflexivity|]. reflexivity.
Qed.

(** C9, as amended, at work: two attempts allowed and a downloader that
    never delivers. *)
Lemma download_files_terminates_witness :
  exists r st' k,
    run shell_down 2 "cart.krt" None (Some 3) 2 false start = Some (r, st')
    /\ invocations Downloader (trace st')
       = (invocations Downloader (trace start) + k)%nat
    /\ (1 <= k)%nat /\ Z.of_nat k <= 2.
Proof.
  apply (download_files_terminates shell_down open_csv abspath mkdtemp fetcher
           2 2 "cart.krt" None (Some 3) false start); lia.
Defined.

(** C9 as it stands fails: with [n_retries = 0] and nothing to check, the
    downloader runs once, which is more than [n_retries] times, and the
    answer is [True]. *)
Lemma zero_retries_still_downloads :
  exists st',
    run shell 5 "cart.krt" None None 0 false start = Some (Return true, st')
    /\ invocations Downloader (trace st') = 1%nat
    /\ ~ (Z.of_nat (invocations Downloader (trace st')) <= 0).
Proof.
  eexists. split; [vm_compute; reflexivity|]. split; [reflexivity|].
  vm_compute. intros H. by apply H.
Qed.

(** And with [n_retries = 0], a count to meet and a downloader that never
    delivers, the loop does not end: no amount of fuel is enough. *)
Lemma zero_retries_never_ends fuel :
  run shell_down fuel "cart.krt" None (Some 3) 0 false start = None.
Proof.
  apply download_files_diverges; [lia|].
  intros j.
  assert (forall k st, tmp (mach st) = [] ->
            tmp (mach (after_downloads nat shell_down fetcher
                         "/home/u/cart.krt" k st)) = []) as Hempty.
  { induction k as [|k IH]; intros st Hst; [done|].
    rewrite after_S. by apply IH. }
  unfold all_files_downloaded, _check_prefetch_against_n_files.
  cbn [manifest_given n_files_given Z.eqb negb].
  rewrite (Hempty (S j)); [done|apply enter_tmp].
Qed.

(** C10 at work: an expected count of 0, three attempts allowed; one
    download, one file in the directory, and the answer is [True]. *)
Lemma zero_count_skips_verification_witness :
  (forall s : proc nat,
     all_files_downloaded nat open_csv None (Some 0) s = Return true
     /\ all_files_downloaded nat open_csv None (Some 0) s
        = all_files_downloaded nat open_csv None None s
     /\ _check_prefetch_against_n_files nat 0 s
        = Return (bool_decide (FS.listdir (tmp (mach s)) = [])))
  /\ exists st',
       run shell 1 "cart.krt" None (Some 0) 3 false start
       = Some (Return true, st')
       /\ invocations Downloader (trace st')
          = (invocations Downloader (trace start) + 1)%nat.
Proof.
  destruct (zero_count_skips_verification shell open_csv abspath mkdtemp
              fetcher 3 1 "cart.krt" None false start)
    as (Hskip & st' & Hrun & Hinv & Htrue).
  - reflexivity.
  - lia.
  - lia.
  - split; [exact Hskip|]. exists st'. split; [|exact Hinv].
    rewrite <- Htrue; [exact Hrun|]. vm_compute. tauto.
Defined.

(** C10 as it stands fails: an expected count of 0, three attempts
    allowed, and a regular file at the output path: the check is skipped,
    the downloader runs once, and [download_files] does not return [True]
    but raises [FileExistsError]. *)
Lemma zero_count_ends_in_exception :
  exists st',
    run shell 5 "cart.krt" None (Some 0) 3 false Fixtures.start_onto_file
    = Some (Raise (FileExistsError "/home/u/out"), st')
    /\ invocations Downloader (trace st') = 1%nat.
Proof.
  eexists. split; [vm_compute; reflexivity|]. reflexivity.
Qed.

(** C2 at the code: the temporary directory of this run is
    [/tmp/tmpk3v9], and both runs of the downloader are told to write to the
    output directory [/home/u/out]; the temporary directory is not named
    in the command line at all. *)
Lemma prefetch_is_sent_to_output_dir :
  (enter_temp_dir nat mkdtemp start).1 = "/tmp/tmpk3v9"
  /\ output_dir fetcher = "/home/u/out"
  /\ String.index 0 "/tmp/tmpk3v9"
       (prefetch_cmd fetcher "/home/u/cart.krt") = None
  /\ exists st',
       run shell 2 "cart.krt" (Some "/data/manifest.csv") None 3 false start
       = Some (Return true, st')
       /\ commands Downloader (trace st')
          = ["/usr/bin/prefetch --ngc /home/u/prj.ngc --order kart --cart /home/u/cart.krt --max-size 500000000 --output-directory /home/u/out";
             "/usr/bin/prefetch --ngc /home/u/prj.ngc --order kart --cart /home/u/cart.krt --max-size 500000000 --output-directory /home/u/out"].
Proof.
  split; [reflexivity|]. split; [reflexivity|].
  split; [vm_compute; reflexivity|].
  eexists. split; vm_compute; reflexivity.
Qed.

(** C4 at work: after two downloads the directory holds [a.txt] and
    [b.txt], the two names of the manifest. *)
Lemma manifest_check_iff_same_names_witness :
  exists b,
    all_files_downloaded nat open_csv (Some "/data/manifest.csv") None
      (downloaded shell 2) = Return b
    /\ _check_prefetch_against_manifest nat open_csv "/data/manifest.csv"
         (downloaded shell 2) = Return b
    /\ (b = true <->
        forall v : option string,
          v ∈ [Some "a.txt"; Some "b.txt"] <->
          exists name,
            v = Some name
            /\ name ∈ FS.listdir (tmp (mach (downloaded shell 2)))).
Proof.
  apply (manifest_check_iff_same_names open_csv "/data/manifest.csv" None
           (downloaded shell 2) [Some "a.txt"; Some "b.txt"]).
  - reflexivity.
  - vm_compute. reflexivity.
Defined.

(** C5 at work: two files expected, two entries present. *)
Lemma count_check_iff_same_number_witness :
  exists b,
    all_files_downloaded nat open_csv None (Some 2) (downloaded shell 2)
    = Return b
    /\ (b = true <->
        Z.of_nat (length (FS.listdir (tmp (mach (downloaded shell 2))))) = 2).
Proof.
  apply (count_check_iff_same_number open_csv None 2 (downloaded shell 2)).
  - reflexivity.
  - lia.
Defined.

(** C6, as amended, at work: a manifest with the columns [Name] and [Size]
    and one row. *)
Lemma missing_column_raises_witness :
  _check_prefetch_against_manifest nat open_csv "/data/no_column.csv"
    (downloaded shell_down 1) = Raise (KeyError "File Name")
  /\ run shell_down 1 "cart.krt" (Some "/data/no_column.csv") None 3 false start
     = Some (Raise (KeyError "File Name"),
             set_tmp nat [] (downloaded shell_down 1))
  /\ invocations Downloader (trace (downloaded shell_down 1))
     = (invocations Downloader (trace start) + 1)%nat
  /\ invocations Extractor (trace (downloaded shell_down 1))
     = invocations Extractor (trace start).
Proof.
  apply (missing_column_raises shell_down open_csv abspath mkdtemp fetcher
           3 1 "cart.krt" "/data/no_column.csv" None false start
           ["Name"; "Size"] [["a.txt"; "10"]]).
  - reflexivity.
  - vm_compute. reflexivity.
  - apply (bool_decide_unpack _). vm_compute. reflexivity.
  - exists ["a.txt"; "10"]. split; [left|done].
  - lia.
  - lia.
Defined.

(** C6 as it stands fails: a manifest that has the columns [Name] and
    [Size] and no rows lacks the "File Name" column, and the check raises
    nothing: with an empty directory it passes, and [download_files]
    returns [True]. *)
Lemma header_only_manifest_raises_nothing :
  open_csv (mach (downloaded shell_down 1)) (cwd (downloaded shell_down 1))
    "/data/header_only.csv" = Some [["Name"; "Size"]]
  /\ ("File Name" ∉ ["Name"; "Size"])
  /\ _check_prefetch_against_manifest nat open_csv "/data/header_only.csv"
       (downloaded shell_down 1) = Return true
  /\ exists st',
       run shell_down 5 "cart.krt" (Some "/data/header_only.csv") None 3
         false start = Some (Return true, st').
Proof.
  split; [reflexivity|]. split.
  { apply (bool_decide_unpack _). vm_compute. reflexivity. }
  split; [vm_compute; reflexivity|].
  eexists. vm_compute. reflexivity.
Qed.

(** C7 as it stands fails: the downloader leaves [sample.tar] and
    [sample.tar.gz], the extractor reports 0 for everything, and yet the
    second archive gets no directory, is not unpacked and is not deleted:
    making its directory raises [FileExistsError]. *)
Lemma twin_archives_collide :
  List.filter is_archive (FS.listdir (tmp (mach (downloaded shell_twins 1))))
  = ["sample.tar"; "sample.tar.gz"]
  /\ exists st',
       _untar nat shell_twins "/tmp/tmpk3v9" (downloaded shell_twins 1)
       = (Raise (FileExistsError "/tmp/tmpk3v9/sample"), st')
       /\ FS.lookup "sample.tar.gz" (tmp (mach st')) = Some (File "gz")
       /\ commands Extractor (trace st')
          = ["tar -xvf sample.tar -C /tmp/tmpk3v9/sample"]
       /\ run shell_twins 5 "cart.krt" None None 3 true start
          = Some (Raise (FileExistsError "/tmp/tmpk3v9/sample"),
                  set_tmp nat [] st').
Proof.
  split; [vm_compute; reflexivity|].
  eexists. split; [vm_compute; reflexivity|].
  repeat split; vm_compute; reflexivity.
Qed.

(** C8 as it stands fails: the output directory holds a directory called
    [a.txt]; the downloaded file [a.txt] does not replace it but ends up
    inside it, and [download_files] returns [True]. *)
Lemma file_onto_directory_is_not_overwritten :
  FS.dir_at ["a.txt"] (out (mach start_onto_directory)) = true
  /\ exists st',
       run shell 5 "cart.krt" None None 3 false start_onto_directory
       = Some (Return true, st')
       /\ FS.file_at ["a.txt"] (out (mach st')) = None
       /\ FS.dir_at ["a.txt"] (out (mach st')) = true
       /\ FS.file_at ["a.txt"; "a.txt"] (out (mach st')) = Some "data".
Proof.
  split; [reflexivity|].
  eexists. split; [vm_compute; reflexivity|].
  repeat split; vm_compute; reflexivity.
Qed.

(** C8, as amended, at work: two downloaded files, nothing at the output
    path yet. *)
Lemma relocation_moves_files_witness :
  (forall q,
     FS.file_at q
       (Some (Dir (tmp (mach (finish nat shell fetcher "/tmp/tmpk3v9"
                                "/home/u" false (downloaded shell 2)).2))))
     = None)
  /\ FS.file_at ["b.txt"]
       (out (mach (finish nat shell fetcher "/tmp/tmpk3v9" "/home/u" false
                     (downloaded shell 2)).2)) = Some "data".
Proof.
  destruct (relocation_moves_files shell fetcher "/tmp/tmpk3v9" "/home/u" false
              (downloaded shell 2) (downloaded shell 2)
              (finish nat shell fetcher "/tmp/tmpk3v9" "/home/u" false
                 (downloaded shell 2)).2) as (Hgone & Harrive & _ & _).
  - reflexivity.
  - vm_compute. reflexivity.
  - vm_compute. reflexivity.
  - split; [apply Hgone|].
    apply (Harrive [] "b.txt" "data"). vm_compute. reflexivity.
Defined.

(** The extractor of the examples keeps to the directory it unpacks
    into. *)
Lemma shell_archives_extracts_within strict wd f :
  f ∈ ["reads.tar.gz"; "broken.tar"] ->
  extracts_within nat (shell_archives strict) wd "/tmp/tmpk3v9" f.
Proof.
  intros Hf m.
  apply elem_of_cons in Hf as [->|Hf];
    [|apply list_elem_of_singleton in Hf as ->].
  - change (tar_cmd "/tmp/tmpk3v9" "reads.tar.gz")
      with "tar -xvf reads.tar.gz -C /tmp/tmpk3v9/reads".
    change (Str.split_head ".tar" "reads.tar.gz") with "reads".
    unfold shell_archives.
    change (is_tar_cmd "tar -xvf reads.tar.gz -C /tmp/tmpk3v9/reads") with true.
    cbv iota. rewrite String.eqb_refl.
    destruct (FS.lookup "reads" (tmp m)) as [[c|i]|] eqn:Hreads; simpl.
    + split; [done|]. intros [i Hi]. congruence.
    + split.
      * intros name Hname. by rewrite lookup_put_ne.
      * intros _. rewrite lookup_put_eq. eauto.
    + split; [done|]. intros [i Hi]. congruence.
  - change (tar_cmd "/tmp/tmpk3v9" "broken.tar")
      with "tar -xvf broken.tar -C /tmp/tmpk3v9/broken".
    change (Str.split_head ".tar" "broken.tar") with "broken".
    unfold shell_archives.
    change (is_tar_cmd "tar -xvf broken.tar -C /tmp/tmpk3v9/broken") with true.
    cbv iota.
    change (String.eqb "tar -xvf broken.tar -C /tmp/tmpk3v9/broken"
              "tar -xvf reads.tar.gz -C /tmp/tmpk3v9/reads") with false.
    cbv iota. by destruct (strict && _).
Qed.

Lemma shell_archives_status strict cmd wd m :
  is_tar_cmd cmd = true ->
  strict = false \/ cmd <> "tar -xvf broken.tar -C /tmp/tmpk3v9/broken" ->
  (shell_archives strict cmd wd m).2 = 0.
Proof.
  intros Htar Hok. unfold shell_archives. rewrite Htar.
  destruct (String.eqb cmd _).
  - by destruct (FS.lookup "reads" (tmp m)) as [[c|i]|].
  - destruct Hok as [->|Hne]; [done|].
    destruct (String.eqb_spec cmd "tar -xvf broken.tar -C /tmp/tmpk3v9/broken");
      [done|].
    by rewrite andb_false_r.
Qed.

(** C7, as amended, at work.  An extractor that reports 0 only where it
    finds the archive and the directory made for it: the downloader has
    left [reads.tar.gz] and [notes.txt], the archive gives way to its
    directory and [notes.txt] stays.  An extractor that fails on
    [broken.tar], the second of two archives: [download_files] raises,
    [broken.tar] is still there and [reads.tar.gz] is gone. *)
Lemma extraction_per_archive_witness :
  (exists st',
     _untar nat Fixtures.shell_checking "/tmp/tmpk3v9"
       (downloaded Fixtures.shell_checking 1) = (Return tt, st')
     /\ commands Extractor (trace st')
        = ["tar -xvf reads.tar.gz -C /tmp/tmpk3v9/reads"]
     /\ FS.lookup "reads.tar.gz" (tmp (mach st')) = None
     /\ (exists i, FS.lookup "reads" (tmp (mach st')) = Some (Dir i))
     /\ FS.lookup "notes.txt" (tmp (mach st')) = Some (File "n"))
  /\ (exists st',
        run (shell_archives true) 1 "cart.krt" None None 3 true start
        = Some (Raise (RuntimeError "Failed to untar broken.tar"),
                set_tmp nat [] st')
        /\ (exists c, FS.lookup "broken.tar" (tmp (mach st')) = Some (File c))
        /\ FS.lookup "reads.tar.gz" (tmp (mach st')) = None
        /\ FS.lookup "notes.txt" (tmp (mach st')) = Some (File "n")).
Proof.
  split.
  - assert (List.filter is_archive
              (FS.listdir (tmp (mach (downloaded Fixtures.shell_checking 1))))
            = ["reads.tar.gz"]) as Hlist by reflexivity.
    assert (forall pre f post,
              List.filter is_archive
                (FS.listdir (tmp (mach (downloaded Fixtures.shell_checking 1))))
              = pre ++ f :: post ->
              pre = [] /\ f = "reads.tar.gz") as Hone.
    { intros pre f post Hsplit. rewrite Hlist in Hsplit.
      destruct pre as [|x [|y pre]]; [|discriminate|discriminate].
      by inversion Hsplit. }
    destruct (extraction_per_archive Fixtures.shell_checking open_csv abspath
                mkdtemp fetcher 1 "cart.krt" None None 3 start
                (downloaded Fixtures.shell_checking 1))
      as [(st' & Hrun & Hcmds & Hdone & Hframe) _].
    + vm_compute. reflexivity.
    + intros f Hf. rewrite Hlist in Hf.
      apply list_elem_of_singleton in Hf as ->. vm_compute. reflexivity.
    + intros f Hf. rewrite Hlist in Hf.
      apply list_elem_of_singleton in Hf as ->. eexists. vm_compute. reflexivity.
    + intros f Hf. rewrite Hlist in Hf.
      apply list_elem_of_singleton in Hf as ->. split; vm_compute; reflexivity.
    + rewrite Hlist. apply (bool_decide_unpack _). vm_compute. reflexivity.
    + intros pre f post m Hsplit _.
      destruct (Hone pre f post Hsplit) as [-> ->].
      split; [intros name _; reflexivity|intros Hdir; exact Hdir].
    + intros pre f post m Hsplit Hturn.
      destruct (Hone pre f post Hsplit) as [-> ->].
      destruct Hturn as (st1 & d & Hst1 & Hmk & ->).
      simpl in Hst1. inversion Hst1; subst st1. clear Hst1.
      vm_compute in Hmk. inversion Hmk; subst d. clear Hmk.
      vm_compute. reflexivity.
    + exists st'. split; [done|]. split; [|split; [|split]].
      * rewrite Hcmds, Hlist. vm_compute. reflexivity.
      * apply Hdone. rewrite Hlist. left.
      * apply (Hdone "reads.tar.gz"). rewrite Hlist. left.
      * rewrite Hframe; [vm_compute; reflexivity| |].
        -- rewrite Hlist. apply (bool_decide_unpack _). vm_compute. reflexivity.
        -- rewrite Hlist. apply (bool_decide_unpack _). vm_compute. reflexivity.
  - assert (List.filter is_archive
              (FS.listdir (tmp (mach (downloaded (shell_archives true) 1))))
            = ["reads.tar.gz"; "broken.tar"]) as Hlist by reflexivity.
    assert (forall (P : string -> Prop),
      P "reads.tar.gz" -> P "broken.tar" ->
      forall f,
        f ∈ List.filter is_archive
              (FS.listdir (tmp (mach (downloaded (shell_archives true) 1)))) ->
        P f) as Heach.
    { intros P H1 H2 f Hf. rewrite Hlist in Hf.
      apply elem_of_cons in Hf as [->|Hf]; [done|].
      apply list_elem_of_singleton in Hf as ->. done. }
    destruct (extraction_per_archive (shell_archives true) open_csv abspath
                mkdtemp fetcher 1 "cart.krt" None None 3 start
                (downloaded (shell_archives true) 1))
      as [_ Hfail].
    + vm_compute. reflexivity.
    + apply Heach; vm_compute; reflexivity.
    + apply Heach; eexists; vm_compute; reflexivity.
    + apply Heach; split; vm_compute; reflexivity.
    + rewrite Hlist. apply (bool_decide_unpack _). vm_compute. reflexivity.
    + intros pre f post m Hsplit _.
      apply (shell_archives_extracts_within true).
      rewrite <- Hlist, Hsplit. apply elem_of_app. right. left.
    + destruct (Hfail ["reads.tar.gz"] "broken.tar" [])
        as (st' & _ & Hrun & Hstill & _ & Hgone & _ & Hrest & _).
      * apply Hlist.
      * intros p g q m Hsplit _.
        destruct p as [|x [|y p]]; [|discriminate|discriminate].
        inversion Hsplit; subst g q.
        apply shell_archives_status; [vm_compute; reflexivity|].
        right. vm_compute. discriminate.
      * intros m _. vm_compute. discriminate.
      * exists st'. split; [apply Hrun|]. split; [apply Hstill|]. split.
        -- apply (Hgone "reads.tar.gz"). left.
        -- rewrite Hrest; [vm_compute; reflexivity| |].
           ++ apply (bool_decide_unpack _). vm_compute. reflexivity.
           ++ apply (bool_decide_unpack _). vm_compute. reflexivity.
Defined.

End Examples.

(** * Further properties of the retry loop *)

Section LoopFacts.

Context {Env : Type}.
Variable shell : string -> string -> machine Env -> machine Env * Z.
Variable open_csv : machine Env -> string -> string -> option Csv.lines.
Variable abspath : string -> string -> string.
Variable mkdtemp : Env -> Env * string.
Variable self : dbGaPFileFetcher.

Local Abbreviation enter := (enter_temp_dir Env mkdtemp).
Local Abbreviation download :=
  (download_files Env shell open_csv abspath mkdtemp self).
Local Abbreviation loop := (attempts Env shell open_csv self).

Lemma enter_cwd (st : proc Env) : cwd (enter st).2 = (enter st).1.
Proof. unfold enter_temp_dir. by destruct (mkdtemp _). Qed.

Lemma untar_each_cwd directory tar_files : forall st : proc Env,
  cwd (untar_each Env shell directory tar_files st).2 = cwd st.
Proof.
  induction tar_files as [|f rest IH]; intros st; [done|].
  rewrite untar_each_cons. destruct (FS.mkdir _ _ _) as [d|e]; [|done].
  pose proof (subprocess_call_cwd shell Extractor (tar_cmd directory f)
                (set_tmp Env d st)) as Hcwd.
  destruct (subprocess_call _ _ _ _ _) as [rc st1]. simpl in Hcwd.
  destruct (negb _); [done|].
  destruct (FS.remove _ _ _) as [d'|e]; [|done].
  by rewrite IH.
Qed.

(** Where [finish] leaves the process: in the original directory when it
    answers, there or in the directory it started in when it raises. *)
Lemma finish_cwd temp_dir owd untar (st : proc Env) :
  match (finish Env shell self temp_dir owd untar st).1 with
  | Return true => cwd (finish Env shell self temp_dir owd untar st).2 = owd
  | Return false => False
  | Raise _ =>
      cwd (finish Env shell self temp_dir owd untar st).2 = cwd st
      \/ cwd (finish Env shell self temp_dir owd untar st).2 = owd
  end.
Proof.
  unfold finish.
  assert (cwd (extraction Env shell temp_dir untar st).2 = cwd st) as Hu.
  { destruct untar; [apply untar_each_cwd|done]. }
  destruct (extraction _ _ _ _ _) as [[[]|e] st1]; simpl in *; [|by left].
  destruct (Shutil.copytree _ _ _) as [[[[]|e] src'] dst']; simpl; [done|].
  by right.
Qed.

(** X1. The current directory is put back only on the way to [return True]:
    [download_files] that answers [False] leaves the process inside the
    temporary directory, which no longer exists; so does an exception from
    the check or from extraction. *)
Theorem download_files_leaves_cwd
    fuel cart manifest n_files n untar (st : proc Env) r st' :
  download fuel cart manifest n_files n untar st = Some (r, st') ->
  match r with
  | Return true => cwd st' = cwd st
  | Return false => cwd st' = (enter st).1
  | Raise _ => cwd st' = (enter st).1 \/ cwd st' = cwd st
  end.
Proof.
  rewrite download_files_unfold. intros Hrun.
  destruct (loop fuel (abspath (cwd st) cart) manifest n_files n 1 (enter st).2)
    as [[r1 st1]|] eqn:Hloop; [|done].
  destruct (attempts_reaches shell open_csv self _ _ _ _ _ _ _ _ _ Hloop)
    as [k ->].
  assert (cwd (after_downloads Env shell self (abspath (cwd st) cart) (S k)
                 (enter st).2) = (enter st).1) as Hin
    by (by rewrite after_cwd, enter_cwd).
  destruct r1 as [[|]|e].
  - inversion Hrun; subst. done.
  - cbv zeta in Hrun.
    pose proof (finish_cwd (enter st).1 (cwd st) untar
                  (after_downloads Env shell self (abspath (cwd st) cart) (S k)
                     (enter st).2)) as Hfin.
    inversion Hrun; subst. clear Hrun.
    destruct (finish _ _ _ _ _ _ _).1 as [[|]|e]; simpl; [done|done|].
    rewrite Hin in Hfin. done.
  - inversion Hrun; subst. by left.
Qed.

(** The loop under a larger budget: as long as the smaller one was not
    used up, nothing changes. *)
Lemma attempts_budget cart_file manifest n_files n n' :
  n <= n' ->
  forall fuel i st r st1,
    i <= n ->
    loop fuel cart_file manifest n_files n i st = Some (r, st1) ->
    r <> Return Exhausted ->
    loop fuel cart_file manifest n_files n' i st = Some (r, st1).
Proof.
  intros Hnn. induction fuel as [|fuel IH]; intros i st r st1 Hi Hrun Hr;
    [done|].
  rewrite attempts_unfold in *.
  destruct (Z.eqb_spec i n) as [->|Hne]; [by inversion Hrun; subst|].
  destruct (Z.eqb_spec i n') as [->|Hne']; [lia|].
  destruct (all_files_downloaded _ _ _ _ _) as [[|]|e]; [done| |done].
  apply IH; [lia|done|done].
Qed.

(** X2. A call that did not exhaust its retries gives the same answer, or
    raises the same exception, and ends in the same state under any larger
    [n_retries]: the budget matters only when it is used up. *)
Theorem download_files_larger_budget
    fuel cart manifest n_files (n n' : Z) untar (st : proc Env) r st' :
  1 <= n ->
  n <= n' ->
  download fuel cart manifest n_files n untar st = Some (r, st') ->
  r <> Return false ->
  download fuel cart manifest n_files n' untar st = Some (r, st').
Proof.
  intros Hn Hnn. rewrite !download_files_unfold. intros Hrun Hr.
  destruct (loop fuel (abspath (cwd st) cart) manifest n_files n 1 (enter st).2)
    as [[r1 st1]|] eqn:Hloop; [|done].
  rewrite (attempts_budget _ _ _ n n' Hnn _ _ _ r1 st1); [done|lia|done|].
  intros ->. inversion Hrun; subst. done.
Qed.

End LoopFacts.

(** ** The downloader's exit status *)

Section ExitStatus.

Context {Env : Type}.
Variables shell shell' : string -> string -> machine Env -> machine Env * Z.
Variable open_csv : machine Env -> string -> string -> option Csv.lines.
Variable abspath : string -> string -> string.
Variable mkdtemp : Env -> Env * string.
Variable self : dbGaPFileFetcher.

(** Two worlds whose programs do the same to the machine, and report the
    same for every [tar -xvf] command; what the downloader reports may
    differ. *)
Hypothesis same_effect : forall cmd wd m,
  (shell cmd wd m).1 = (shell' cmd wd m).1.
Hypothesis same_tar_status : forall cmd wd m,
  Str.startswith cmd "tar -xvf " = true ->
  (shell cmd wd m).2 = (shell' cmd wd m).2.

Lemma tar_cmd_starts directory f :
  Str.startswith (tar_cmd directory f) "tar -xvf " = true.
Proof.
  unfold tar_cmd, Str.startswith.
  generalize (f +:+ " -C " +:+ Path.join directory (Str.split_head ".tar" f)).
  intros rest. cbn. by destruct rest.
Qed.

Lemma run_prefetch_same cart_file (st : proc Env) :
  (_run_prefetch Env shell self cart_file st).2
  = (_run_prefetch Env shell' self cart_file st).2.
Proof.
  unfold _run_prefetch, subprocess_call.
  pose proof (same_effect (prefetch_cmd self cart_file) (cwd st) (mach st)) as H.
  destruct (shell _ _ _), (shell' _ _ _). simpl in *. by subst.
Qed.

Lemma attempts_same cart_file manifest n_files n : forall fuel i st,
  attempts Env shell open_csv self fuel cart_file manifest n_files n i st
  = attempts Env shell' open_csv self fuel cart_file manifest n_files n i st.
Proof.
  induction fuel as [|fuel IH]; intros i st; [done|].
  rewrite !attempts_unfold, run_prefetch_same.
  destruct (i =? n)%Z; [done|].
  by destruct (all_files_downloaded _ _ _ _ _) as [[|]|e].
Qed.

Lemma untar_each_same directory tar_files : forall st : proc Env,
  untar_each Env shell directory tar_files st
  = untar_each Env shell' directory tar_files st.
Proof.
  induction tar_files as [|f rest IH]; intros st; [done|].
  rewrite !untar_each_cons. destruct (FS.mkdir _ _ _) as [d|e]; [|done].
  unfold subprocess_call.
  pose proof (same_effect (tar_cmd directory f) (cwd (set_tmp Env d st))
                (mach (set_tmp Env d st))) as Hm.
  pose proof (same_tar_status (tar_cmd directory f) (cwd (set_tmp Env d st))
                (mach (set_tmp Env d st)) (tar_cmd_starts directory f)) as Hrc.
  destruct (shell _ _ _), (shell' _ _ _). simpl in *. subst.
  destruct (negb _); [done|].
  by destruct (FS.remove _ _ _).
Qed.

(** X3. The exit status of the downloader plays no part: whatever it reports,
    zero or not, [download_files] makes the same attempts, gives the same
    answer and ends in the same state. *)
Theorem download_files_ignores_downloader_status
    fuel cart manifest n_files n untar (st : proc Env) :
  download_files Env shell open_csv abspath mkdtemp self fuel cart manifest
    n_files n untar st
  = download_files Env shell' open_csv abspath mkdtemp self fuel cart manifest
      n_files n untar st.
Proof.
  rewrite !download_files_unfold, attempts_same.
  destruct (attempts _ _ _ _ _ _ _ _ _ _ _) as [[[[|]|e] st1]|]; try done.
  cbv zeta. unfold finish, extraction, _untar.
  destruct untar; [by rewrite untar_each_same|done].
Qed.

End ExitStatus.

(** * Further properties of the manifest check *)

Section ManifestFacts.

Context {Env : Type}.
Variable shell : string -> string -> machine Env -> machine Env * Z.
Variable open_csv : machine Env -> string -> string -> option Csv.lines.
Variable abspath : string -> string -> string.
Variable mkdtemp : Env -> Env * string.
Variable self : dbGaPFileFetcher.

Local Abbreviation after := (after_downloads Env shell self).
Local Abbreviation enter := (enter_temp_dir Env mkdtemp).
Local Abbreviation download :=
  (download_files Env shell open_csv abspath mkdtemp self).

(** *** Which field of a row [DictReader] files under a header name *)

Lemma fold_insert_other {A} (f : A -> string) (g : A -> option string)
    (l : list A) : forall (d : gmap string (option string)) k,
  k ∉ map f l ->
  fold_left (fun d a => <[f a := g a]> d) l d !! k = d !! k.
Proof.
  induction l as [|a l IH]; intros d k Hk; [done|].
  simpl in *. apply not_elem_of_cons in Hk as [Hne Hk].
  rewrite IH by done. by rewrite lookup_insert_ne.
Qed.

Lemma fold_insert_last {A} (f : A -> string) (g : A -> option string)
    (l1 l2 : list A) (a : A) (d : gmap string (option string)) :
  f a ∉ map f l2 ->
  fold_left (fun d a => <[f a := g a]> d) (l1 ++ a :: l2) d !! f a
  = Some (g a).
Proof.
  intros Hk. rewrite fold_left_app. simpl.
  rewrite fold_insert_other by done. by rewrite lookup_insert_eq.
Qed.

Lemma not_after_last (header : list string) i k :
  (forall j, header !! j = Some k -> (j <= i)%nat) ->
  forall n, (i < n)%nat -> k ∉ drop n header.
Proof.
  intros Hlast n Hn Hin. apply list_elem_of_lookup in Hin as [j Hj].
  rewrite lookup_drop in Hj. apply Hlast in Hj. lia.
Qed.

(** Under the name at position [i] of the header, no later position having
    the same name, a row's dictionary holds the row's field [i], or [None]
    when the row ends before it. *)
Lemma row_dict_at (header row : list string) (i : nat) (k : string) :
  header !! i = Some k ->
  (forall j, header !! j = Some k -> (j <= i)%nat) ->
  Csv.row_dict header row !! k = Some (row !! i).
Proof.
  intros Hi Hlast. unfold Csv.row_dict.
  destruct (row !! i) as [v|] eqn:Hv.
  - assert (i < length row)%nat as Hlen by (by apply lookup_lt_Some in Hv).
    rewrite (fold_insert_other (fun k => k) (fun _ => None)).
    2:{ rewrite map_id. by apply (not_after_last header i). }
    rewrite <- (take_drop_middle header i k Hi) at 1.
    rewrite <- (take_drop_middle row i v Hv) at 1.
    rewrite (zip_with_app pair (take i header) (k :: drop (S i) header)
               (take i row) (v :: drop (S i) row)).
    2:{ rewrite !length_take. apply lookup_lt_Some in Hi. lia. }
    simpl.
    apply (fold_insert_last (fun kv : string * string => kv.1)
             (fun kv => Some kv.2) _ _ (k, v)).
    simpl. fold (zip (drop (S i) header) (drop (S i) row)).
    rewrite zip_keys. intros Hin.
    apply (not_after_last header i k Hlast (S i)); [lia|].
    rewrite <- (take_drop (length (drop (S i) row)) (drop (S i) header)).
    apply elem_of_app. by left.
  - assert (length row <= i)%nat as Hlen by (by apply lookup_ge_None in Hv).
    assert (drop (length row) header !! (i - length row)%nat = Some k) as Hd.
    { rewrite lookup_drop. rewrite <- Hi. f_equal. lia. }
    rewrite <- (take_drop_middle _ _ _ Hd).
    apply (fold_insert_last (fun k : string => k) (fun _ => None) _ _ k).
    rewrite map_id, drop_drop.
    apply (not_after_last header i k Hlast). lia.
Qed.

Lemma file_names_at (header : list string) (i : nat) rows :
  header !! i = Some "File Name" ->
  (forall j, header !! j = Some "File Name" -> (j <= i)%nat) ->
  file_names (map (Csv.row_dict header) rows)
  = Return (map (fun row => row !! i) rows).
Proof.
  intros Hi Hlast. induction rows as [|row rows IH]; [done|].
  simpl. by rewrite (row_dict_at header row i _ Hi Hlast), IH.
Qed.

(** X6. [_read_manifest] reads the manifest column by column position: with
    "File Name" at position [i] of the header (the last such position, if
    the header repeats the name), it returns, for each line after the header
    that is not blank and in their order, the field [i] of the line, or
    [None] where the line has no such field. *)
Theorem read_manifest_by_position
    manifest (st : proc Env) (header : list string) body (i : nat) :
  open_csv (mach st) (cwd st) manifest = Some (header :: body) ->
  header !! i = Some "File Name" ->
  (forall j, header !! j = Some "File Name" -> (j <= i)%nat) ->
  _read_manifest Env open_csv manifest st
  = Return (map (fun row => row !! i) (filter (fun r => r ≠ []) body)).
Proof.
  intros Hopen Hi Hlast. unfold _read_manifest. rewrite Hopen. simpl.
  by apply file_names_at.
Qed.

(** X7. One line of the manifest that is not blank and ends before the "File
    Name" column is enough for the manifest check to fail, whatever the
    working directory holds: its value is [None], which is no file's
    name. *)
Theorem short_row_fails_check
    manifest (st : proc Env) (header : list string) body (i : nat) row :
  open_csv (mach st) (cwd st) manifest = Some (header :: body) ->
  header !! i = Some "File Name" ->
  (forall j, header !! j = Some "File Name" -> (j <= i)%nat) ->
  row ∈ body -> row <> [] -> (length row <= i)%nat ->
  _check_prefetch_against_manifest Env open_csv manifest st = Return false.
Proof.
  intros Hopen Hi Hlast Hrow Hne Hshort.
  unfold _check_prefetch_against_manifest, _read_manifest.
  rewrite Hopen. simpl. rewrite (file_names_at header i) by done.
  f_equal. apply bool_decide_eq_false. intros Heq.
  assert (None ∈ (list_to_set (map (fun r : list string => r !! i)
                                  (filter (fun r => r ≠ []) body))
                  : gset (option string))) as Hin.
  { apply elem_of_list_to_set, list_elem_of_fmap. exists row. split.
    - symmetry. by apply lookup_ge_None.
    - by apply list_elem_of_filter. }
  rewrite <- Heq in Hin.
  apply elem_of_list_to_set, list_elem_of_fmap in Hin as (name & Hname & _).
  discriminate.
Qed.

(** X8. The manifest is opened where the process is when the check runs: in
    the temporary directory, and under the name the caller gave
    ([download_files] makes the cart's path absolute before it changes
    directory, the manifest's it does not).  A manifest that cannot be
    opened from there makes the first check raise [OSError], which leaves
    [download_files] after one run of the downloader. *)
Theorem unreadable_manifest_raises
    (n : Z) (fuel : nat) cart (m : string) n_files untar (st : proc Env) :
  let st1 := after (abspath (cwd st) cart) 1 (enter st).2 in
  Str.truthy m = true ->
  open_csv (mach st1) (enter st).1 m = None ->
  n <> 1 ->
  (1 <= fuel)%nat ->
  cwd st1 = (enter st).1
  /\ download fuel cart (Some m) n_files n untar st
     = Some (Raise (OSError m), set_tmp Env [] st1)
  /\ invocations Downloader (trace st1)
     = (invocations Downloader (trace st) + 1)%nat.
Proof.
  intros st1 Hm Hopen Hn Hfuel.
  assert (cwd st1 = (enter st).1) as Hcwd
    by (subst st1; by rewrite after_cwd, enter_cwd).
  split; [done|]. split.
  - rewrite download_files_unfold.
    destruct fuel as [|fuel]; [lia|].
    rewrite attempts_unfold. decide_index.
    rewrite <- (after_1 shell self).
    unfold all_files_downloaded, manifest_given. rewrite Hm.
    fold st1. unfold _check_prefetch_against_manifest, _read_manifest.
    by rewrite Hcwd, Hopen.
  - subst st1. by rewrite after_invocations, enter_trace.
Qed.

End ManifestFacts.

(** * Further properties of archive extraction *)

Section ExtractionFacts.

Context {Env : Type}.
Variable shell : string -> string -> machine Env -> machine Env * Z.

Local Abbreviation stem := (Str.split_head ".tar").

Lemma untar_each_trace directory tar_files : forall st : proc Env,
  exists k,
    (k <= length tar_files)%nat
    /\ trace (untar_each Env shell directory tar_files st).2
       = trace st
         ++ map (fun f => Exec Extractor (tar_cmd directory f))
                (take k tar_files)
    /\ ((untar_each Env shell directory tar_files st).1 = Return tt ->
        k = length tar_files).
Proof.
  induction tar_files as [|f rest IH]; intros st.
  - exists 0%nat. simpl. by rewrite app_nil_r.
  - rewrite untar_each_cons.
    destruct (FS.mkdir _ _ _) as [d|e].
    2:{ exists 0%nat. simpl. rewrite app_nil_r. repeat split; [lia|done]. }
    pose proof (subprocess_call_trace shell Extractor (tar_cmd directory f)
                  (set_tmp Env d st)) as Htr.
    destruct (subprocess_call _ _ _ _ _) as [rc st1]. simpl in Htr.
    destruct (negb _).
    { exists 1%nat. simpl. repeat split; [lia|done|done]. }
    destruct (FS.remove _ _ _) as [d'|e].
    2:{ exists 1%nat. simpl. repeat split; [lia|done|done]. }
    destruct (IH (set_tmp Env d' st1)) as (k & Hk & Hrun & Hall).
    exists (S k). split; [simpl; lia|]. split.
    + rewrite Hrun. simpl. by rewrite Htr, <- app_assoc.
    + intros Hok. simpl. f_equal. by apply Hall.
Qed.

(** X10. [_untar] starts the extractor for archives only, once each and in the
    order of the directory listing, and stops at the first one that goes
    wrong: the [tar] commands of a call are those of an initial part of the
    archives listed, of all of them when the call ends normally.  This holds
    whatever the extractor does. *)
Theorem untar_runs_tar_on_archives_only directory (st : proc Env) :
  let tar_files := List.filter is_archive (FS.listdir (tmp (mach st))) in
  (forall f, f ∈ tar_files ->
     is_archive f = true /\ f ∈ FS.listdir (tmp (mach st)))
  /\ exists k,
       (k <= length tar_files)%nat
       /\ commands Extractor (trace (_untar Env shell directory st).2)
          = commands Extractor (trace st)
            ++ map (tar_cmd directory) (take k tar_files)
       /\ commands Downloader (trace (_untar Env shell directory st).2)
          = commands Downloader (trace st)
       /\ ((_untar Env shell directory st).1 = Return tt ->
           k = length tar_files).
Proof.
  intros tar_files. split.
  - intros f Hf. apply list_elem_of_In, filter_In in Hf as [Hin Harch].
    split; [done|]. by apply list_elem_of_In.
  - unfold _untar. fold tar_files.
    destruct (untar_each_trace directory tar_files st) as (k & Hk & Htr & Hall).
    exists k. split; [done|]. split; [|split; [|done]].
    + by rewrite Htr, commands_app, (commands_of_execs Extractor).
    + apply untar_each_commands.
Qed.

(** X11. An archive whose directory name is that of an archive handled
    before it: making the directory raises [FileExistsError].  The archives
    before it have been extracted and deleted, the extractor is not started
    for it, and it is still there, not extracted.  Of the extractor it is
    asked only that, on the machines it is started on for the earlier
    archives, it keeps to the directory it unpacks into and reports 0. *)
Theorem untar_name_collision
    directory (st : proc Env) (pre : list string) (f : string)
    (post : list string) c :
  List.filter is_archive (FS.listdir (tmp (mach st))) = pre ++ f :: post ->
  (forall g, g ∈ pre ->
     exists cg, FS.lookup g (tmp (mach st)) = Some (File cg)) ->
  (forall g, g ∈ pre ->
     FS.lookup (stem g) (tmp (mach st)) = None
     /\ FS.not_a_child (stem g) = false) ->
  NoDup (map stem pre) ->
  (forall p g q m, pre = p ++ g :: q ->
     extractor_turn Env shell directory st p g m ->
     keeps_within Env shell (cwd st) directory g m) ->
  (forall p g q m, pre = p ++ g :: q ->
     extractor_turn Env shell directory st p g m ->
     (shell (tar_cmd directory g) (cwd st) m).2 = 0) ->
  FS.lookup f (tmp (mach st)) = Some (File c) ->
  f ∉ pre ->
  stem f ∈ map stem pre ->
  exists st',
    _untar Env shell directory st
    = (Raise (FileExistsError (Path.join directory (stem f))), st')
    /\ commands Extractor (trace st')
       = commands Extractor (trace st) ++ map (tar_cmd directory) pre
    /\ FS.lookup f (tmp (mach st')) = Some (File c)
    /\ (forall g, g ∈ pre -> FS.lookup g (tmp (mach st')) = None).
Proof.
  intros Hlist Hfiles Hfresh Hnodup Htool Hzero Hf Hf_pre Hclash.
  destruct (untar_prefix_ok shell directory pre st)
    as (st1 & Hrun & Hcwd & Htr & Hdone & Hframe); try done.
  apply list_elem_of_fmap in Hclash as (g & Hstem & Hg).
  destruct (Hdone g Hg) as [_ [i Hdir]].
  exists st1. split; [|split; [|split]].
  - unfold _untar. rewrite Hlist, Hrun, untar_each_cons.
    unfold FS.mkdir. rewrite Hstem, Hdir. by destruct (FS.not_a_child _).
  - by rewrite Htr, commands_app, (commands_of_execs Extractor).
  - rewrite Hframe; [done|done|].
    intros Hin. apply list_elem_of_fmap in Hin as (g' & Hg1 & Hg2).
    destruct (Hfresh g' Hg2) as [Hnone _]. congruence.
  - intros g' Hg'. by apply Hdone.
Qed.

End ExtractionFacts.

(** ** The directory name of an archive *)

Section Stems.

Implicit Types s p r sep : string.

Lemma prefix_app_self sep r : String.prefix sep (sep +:+ r) = true.
Proof.
  induction sep as [|a sep IH]; [by destruct r|].
  simpl. by destruct (ascii_dec a a).
Qed.

(** Whether a string starts with [sep] is settled by its first
    [length sep] characters. *)
Lemma prefix_app_long sep : forall s r,
  (String.length sep <= String.length s)%nat ->
  String.prefix sep (s +:+ r) = String.prefix sep s.
Proof.
  induction sep as [|a sep IH]; intros s r Hlen.
  - by destruct s, r.
  - destruct s as [|c s]; simpl in Hlen; [lia|].
    change (String c s +:+ r) with (String c (s +:+ r)). simpl.
    destruct (ascii_dec a c); [|done]. apply IH. lia.
Qed.

(** What follows the first occurrence of the separator has no say in
    [split_head]. *)
Lemma split_head_app p sep r :
  Str.split_head sep (p +:+ sep +:+ r) = Str.split_head sep (p +:+ sep).
Proof.
  induction p as [|c p IH].
  - change ("" +:+ sep +:+ r) with (sep +:+ r).
    change ("" +:+ sep) with sep.
    rewrite split_head_here by apply prefix_app_self.
    symmetry. apply split_head_here.
    rewrite <- (prefix_app_self sep ""). f_equal.
    clear. induction sep as [|a sep IH]; [done|].
    change (String a sep = String a (sep +:+ "")). by rewrite <- IH.
  - change (String c p +:+ sep +:+ r) with (String c (p +:+ sep +:+ r)).
    change (String c p +:+ sep) with (String c (p +:+ sep)).
    rewrite !split_head_unfold, IH.
    replace (String c (p +:+ sep +:+ r)) with (String c (p +:+ sep) +:+ r).
    2:{ change (String c (p +:+ sep) +:+ r) with (String c ((p +:+ sep) +:+ r)).
        by rewrite append_assoc. }
    rewrite prefix_app_long; [done|].
    simpl. rewrite length_append. lia.
Qed.

(** X12. [name.tar] and [name.tar.gz] are both archives for [_untar], and it
    unpacks both into the same directory, whatever [name] is. *)
Theorem twin_archives_share_directory (name : string) :
  is_archive (name +:+ ".tar") = true
  /\ is_archive (name +:+ ".tar.gz") = true
  /\ Str.split_head ".tar" (name +:+ ".tar.gz")
     = Str.split_head ".tar" (name +:+ ".tar").
Proof.
  unfold is_archive. split; [|split].
  - apply orb_true_iff. left. apply endswith_spec. by exists name.
  - apply orb_true_iff. right. apply endswith_spec. by exists name.
  - change (name +:+ ".tar.gz") with (name +:+ ".tar" +:+ ".gz").
    apply split_head_app.
Qed.

End Stems.

(** * Further properties of relocation *)

Section RelocationFacts.

Implicit Types (d l acc : dirents) (n x : node) (k name : string).

Lemma skeleton_dir sub :
  Tree.skeleton (Dir sub) = Some (Dir (Tree.skeleton_entries sub)).
Proof. reflexivity. Qed.

Lemma put_absent name n d :
  FS.lookup name d = None -> FS.put name n d = d ++ [(name, n)].
Proof.
  induction d as [|[k x] d IH]; intros Hd; [done|].
  simpl in *. destruct (String.eqb k name); [done|]. by rewrite IH.
Qed.

(** Entries moved onto a directory that has none of their names: each is
    added at the end as it is. *)
Lemma copy_entries_fresh l :
  Forall (fun kx =>
            forall path name dd,
              FS.lookup name dd = None ->
              FS.well_formed kx.2 = true ->
              Shutil.copy_node path name kx.2 dd
              = (Tree.skeleton kx.2, dd ++ [(name, kx.2)], [])) l ->
  forall path acc,
    (forall k, k ∈ FS.listdir l -> FS.lookup k acc = None) ->
    FS.well_formed (Dir l) = true ->
    Shutil.copy_entries path l acc = (Tree.skeleton_entries l, acc ++ l, []).
Proof.
  induction 1 as [|[k0 x0] l Hx0 _ IH]; intros path acc Hfresh Hwf.
  - simpl. by rewrite app_nil_r.
  - apply well_formed_cons in Hwf as (Hk0 & Hwf0 & Hwfl).
    simpl in Hx0. simpl.
    rewrite (Hx0 path k0 acc); [|apply Hfresh; left|done].
    rewrite (IH path (acc ++ [(k0, x0)])); [| |done].
    + rewrite <- app_assoc. simpl. by destruct (Tree.skeleton x0).
    + intros k Hk. rewrite lookup_app_one, Hfresh by (by right).
      destruct (String.eqb_spec k0 k) as [->|Hne]; [|done].
      by destruct Hk0.
Qed.

Lemma copy_node_fresh x : forall path name dd,
  FS.lookup name dd = None ->
  FS.well_formed x = true ->
  Shutil.copy_node path name x dd
  = (Tree.skeleton x, dd ++ [(name, x)], []).
Proof.
  induction x as [c|sub IH] using node_tree_ind; intros path name dd Hdd Hwf.
  - simpl. rewrite Hdd. by rewrite put_absent.
  - rewrite copy_node_dir, Hdd. cbv beta iota zeta.
    rewrite (copy_entries_fresh sub IH); [| |done].
    + cbv beta iota zeta. by rewrite skeleton_dir, put_absent.
    + done.
Qed.

Lemma copytree_onto_fresh_names src dst_path (dst : option node) :
  FS.well_formed (Dir src) = true ->
  (forall c, dst <> Some (File c)) ->
  (forall k, k ∈ FS.listdir src -> FS.lookup k (Tree.entries_of dst) = None) ->
  Shutil.copytree src dst_path dst
  = (Return tt, Tree.skeleton_entries src,
     Some (Dir (Tree.entries_of dst ++ src))).
Proof.
  intros Hwf Hdst Hfresh. unfold Shutil.copytree.
  assert (Shutil.copy_entries [] src (Tree.entries_of dst)
          = (Tree.skeleton_entries src, Tree.entries_of dst ++ src, [])) as Hrun.
  { apply copy_entries_fresh; [|done|done].
    apply Forall_forall. intros [k x] _. apply copy_node_fresh. }
  destruct dst as [[c|i]|]; [by destruct (Hdst c)| |]; simpl in *;
    by rewrite Hrun.
Qed.

Lemma lookup_app k (a b : dirents) :
  FS.lookup k (a ++ b)
  = match FS.lookup k a with
    | Some x => Some x
    | None => FS.lookup k b
    end.
Proof.
  induction a as [|[j x] a IH]; simpl; [done|].
  by destruct (String.eqb_spec j k).
Qed.

(** What is at a path of a directory that got the entries [src] added
    under names it did not have. *)
Lemma at_path_merged (old src : dirents) k q :
  (forall j, j ∈ FS.listdir src -> FS.lookup j old = None) ->
  FS.at_path (k :: q) (Some (Dir (old ++ src)))
  = match FS.at_path (k :: q) (Some (Dir src)) with
    | Some x => Some x
    | None => FS.at_path (k :: q) (Some (Dir old))
    end.
Proof.
  intros Hfresh. simpl. rewrite lookup_app.
  destruct (FS.lookup k src) as [x|] eqn:Hk.
  - rewrite Hfresh by (apply lookup_listed; eauto).
    by destruct (FS.sub_at q x).
  - by destruct (FS.lookup k old).
Qed.

(** X14. Onto an output directory that is not there yet, or has none of the
    top-level names of the working tree, relocation cannot fail:
    [download_files] is on its way to [return True], back in the directory
    it was called in.  Afterwards the output directory holds, path by path,
    what the working tree held and, elsewhere, what it held itself: a
    regular file is at a path exactly when the working tree had it there,
    with that content, or the output directory had; a directory likewise.
    No regular file is left in the working tree. *)
Theorem relocation_onto_fresh_names
    {Env : Type} (shell : string -> string -> machine Env -> machine Env * Z)
    (self : dbGaPFileFetcher) temp_dir owd untar (st st_u : proc Env) :
  extraction Env shell temp_dir untar st = (Return tt, st_u) ->
  FS.well_formed (Dir (tmp (mach st_u))) = true ->
  (forall c, out (mach st_u) <> Some (File c)) ->
  (forall k, k ∈ FS.listdir (tmp (mach st_u)) ->
     FS.lookup k (Tree.entries_of (out (mach st_u))) = None) ->
  exists st',
    finish Env shell self temp_dir owd untar st = (Return true, st')
    /\ cwd st' = owd
    /\ (forall q,
          FS.file_at q (out (mach st'))
          = match FS.file_at q (Some (Dir (tmp (mach st_u)))) with
            | Some c => Some c
            | None => FS.file_at q (out (mach st_u))
            end)
    /\ (forall q,
          FS.dir_at q (out (mach st'))
          = FS.dir_at q (Some (Dir (tmp (mach st_u))))
            || FS.dir_at q (out (mach st_u)))
    /\ (forall q, FS.file_at q (Some (Dir (tmp (mach st')))) = None).
Proof.
  intros Hext Hwf Hout Hfresh.
  pose proof (copytree_onto_fresh_names (tmp (mach st_u)) (output_dir self)
                (out (mach st_u)) Hwf Hout Hfresh) as Hcopy.
  pose proof (copytree_moved _ _ _ _ _ Hwf Hcopy) as [Hclear _ _].
  assert (forall k q,
            match FS.at_path (k :: q) (Some (Dir (tmp (mach st_u)))) with
            | Some x =>
                FS.at_path (k :: q)
                  (Some (Dir (Tree.entries_of (out (mach st_u))
                                ++ tmp (mach st_u)))) = Some x
                /\ FS.at_path (k :: q) (out (mach st_u)) = None
            | None =>
                FS.at_path (k :: q)
                  (Some (Dir (Tree.entries_of (out (mach st_u))
                                ++ tmp (mach st_u))))
                = FS.at_path (k :: q) (out (mach st_u))
            end) as Hat.
  { intros k q. rewrite at_path_merged by done.
    destruct (FS.at_path (k :: q) (Some (Dir (tmp (mach st_u))))) as [x|] eqn:Hq.
    - split; [done|]. simpl in Hq.
      destruct (FS.lookup k (tmp (mach st_u))) as [y|] eqn:Hk; [|done].
      assert (FS.lookup k (Tree.entries_of (out (mach st_u))) = None) as Hno
        by (apply Hfresh, lookup_listed; eauto).
      destruct (out (mach st_u)) as [[c|i]|]; [by destruct (Hout c)| |done].
      simpl in *. by rewrite Hno.
    - destruct (out (mach st_u)) as [[c|i]|]; [by destruct (Hout c)|done|done]. }
  eexists. split; [|split; [|split; [|split]]].
  - unfold finish. rewrite Hext. cbv beta iota zeta.
    change (tmp (mach (chdir Env owd st_u))) with (tmp (mach st_u)).
    change (out (mach (chdir Env owd st_u))) with (out (mach st_u)).
    rewrite Hcopy. reflexivity.
  - reflexivity.
  - intros q. simpl. unfold FS.file_at. destruct q as [|k q].
    + simpl.
      destruct (out (mach st_u)) as [[c|i]|]; [by destruct (Hout c)|done|done].
    + specialize (Hat k q).
      destruct (FS.at_path (k :: q) (Some (Dir (tmp (mach st_u)))))
        as [x|]; [|by rewrite Hat].
      destruct Hat as [-> ->]. by destruct x.
  - intros q. simpl. unfold FS.dir_at. destruct q as [|k q]; [done|].
    specialize (Hat k q).
    destruct (FS.at_path (k :: q) (Some (Dir (tmp (mach st_u)))))
      as [x|]; [|by rewrite Hat].
    destruct Hat as [-> ->]. by destruct x.
  - intros q. simpl. unfold FS.file_at.
    destruct (FS.at_path q (Some (Dir (Tree.skeleton_entries (tmp (mach st_u))))))
      as [[c|i]|] eqn:H; try done.
    by destruct (Hclear q c).
Qed.

(** *** Nothing is lost, also when relocation fails *)

Lemma copy_entries_rest path l : forall acc k,
  FS.lookup k l = None ->
  FS.lookup k (Shutil.copy_entries path l acc).1.1 = None.
Proof.
  induction l as [|[k0 x0] l IH]; intros acc k Hk; [done|].
  simpl in *.
  destruct (Shutil.copy_node path k0 x0 acc) as [[r acc1] e1].
  specialize (IH acc1 k).
  destruct (Shutil.copy_entries path l acc1) as [[rest acc2] e2]. simpl in *.
  destruct (String.eqb_spec k0 k) as [->|Hne]; [done|].
  destruct r; simpl; [|by apply IH].
  destruct (String.eqb_spec k0 k); [done|]. by apply IH.
Qed.

Lemma conserved_file c path name dd r dd' errs :
  Shutil.copy_node path name (File c) dd = (r, dd', errs) ->
  Tree.conserved name (File c) r (FS.lookup name dd) (FS.lookup name dd').
Proof.
  simpl. intros Hrun q c' Hq.
  destruct q as [|k q]; [|done]. inversion Hq; subst c'. clear Hq.
  destruct (FS.lookup name dd) as [[c0|i]|] eqn:Ho.
  - inversion Hrun; subst. right. by rewrite lookup_put_eq.
  - destruct (FS.lookup name i) eqn:Hi; inversion Hrun; subst; [by left|].
    right. rewrite lookup_put_eq.
    unfold FS.dir_at, FS.file_at. simpl. by rewrite lookup_put_eq.
  - inversion Hrun; subst. right. by rewrite lookup_put_eq.
Qed.

Lemma conserved_entries l :
  Forall (fun kx =>
            forall path name dd r dd' errs,
              FS.well_formed kx.2 = true ->
              Shutil.copy_node path name kx.2 dd = (r, dd', errs) ->
              Tree.conserved name kx.2 r (FS.lookup name dd)
                             (FS.lookup name dd')) l ->
  forall path acc rest acc' errs,
    FS.well_formed (Dir l) = true ->
    Shutil.copy_entries path l acc = (rest, acc', errs) ->
    (forall k, k ∉ FS.listdir l -> FS.lookup k acc' = FS.lookup k acc)
    /\ (forall k x, FS.lookup k l = Some x ->
          Tree.conserved k x (FS.lookup k rest) (FS.lookup k acc)
                         (FS.lookup k acc')).
Proof.
  induction 1 as [|[k0 x0] l Hx0 _ IH]; intros path acc rest acc' errs Hwf Hrun.
  - inversion Hrun; subst. by split.
  - apply well_formed_cons in Hwf as (Hfresh & Hwf0 & Hwfl).
    simpl in Hrun.
    destruct (Shutil.copy_node path k0 x0 acc) as [[r acc1] e1] eqn:Hnode.
    pose proof (copy_entries_rest path l acc1 k0) as Hk0.
    destruct (Shutil.copy_entries path l acc1) as [[rest' acc2] e2] eqn:Hrest.
    inversion Hrun as [[Hr Hacc He]]. subst acc2. clear Hrun.
    specialize (Hx0 path k0 acc r acc1 e1 Hwf0 Hnode). simpl in Hx0.
    destruct (IH path acc1 rest' acc' e2 Hwfl Hrest) as (Hframe & Hcons).
    assert (forall k, k <> k0 -> FS.lookup k acc1 = FS.lookup k acc) as Hframe0
      by (intros k Hk; by apply (copy_node_frame x0 path k0 acc r acc1 e1)).
    simpl in Hk0.
    assert (FS.lookup k0 rest' = None) as Hgone.
    { apply Hk0. destruct (FS.lookup k0 l) eqn:Hl; [|done].
      exfalso. apply Hfresh. apply lookup_listed. eauto. }
    split.
    + intros k Hk. unfold FS.listdir in Hk. simpl in Hk.
      apply not_elem_of_cons in Hk as [Hne Hk].
      rewrite Hframe by done. by apply Hframe0.
    + intros k x Hl. simpl in Hl.
      destruct (String.eqb_spec k0 k) as [->|Hne].
      * inversion Hl; subst x. rewrite (Hframe k) by done.
        replace (FS.lookup k match r with
                             | Some x' => (k, x') :: rest'
                             | None => rest'
                             end) with r; [done|].
        destruct r; simpl; [by rewrite String.eqb_refl|done].
      * rewrite <- (Hframe0 k) by done.
        replace (FS.lookup k match r with
                             | Some x' => (k0, x') :: rest'
                             | None => rest'
                             end) with (FS.lookup k rest'); [by apply Hcons|].
        destruct r; [|done]. simpl. by destruct (String.eqb_spec k0 k).
Qed.

Lemma conserved_node x : forall path name dd r dd' errs,
  FS.well_formed x = true ->
  Shutil.copy_node path name x dd = (r, dd', errs) ->
  Tree.conserved name x r (FS.lookup name dd) (FS.lookup name dd').
Proof.
  induction x as [c|sub IH] using node_tree_ind;
    intros path name dd r dd' errs Hwf Hrun.
  - by apply (conserved_file c path name dd r dd' errs).
  - rewrite copy_node_dir in Hrun.
    assert (forall inner sub' inner' e (o : option node),
              inner = Tree.entries_of o ->
              (forall c, o <> Some (File c)) ->
              Shutil.copy_entries (path ++ [name]) sub inner = (sub', inner', e) ->
              Tree.conserved name (Dir sub) (Some (Dir sub')) o
                             (Some (Dir inner'))) as Hdir.
    { intros inner sub' inner' e o Hinner Hnofile Hent q c Hq.
      destruct (conserved_entries sub IH _ _ _ _ _ Hwf Hent) as [Hframe Hcons].
      destruct q as [|k q]; [done|]. simpl in Hq.
      destruct (FS.lookup k sub) as [x|] eqn:Hk; [|done].
      rewrite at_path_cons, <- app_comm_cons, !file_at_cons, last_cons_default.
      destruct (Hcons k x Hk q c Hq) as [Hstay|Hgo]; [by left|right].
      destruct o as [[c0|i]|]; simpl in Hinner; subst inner.
      - by destruct (Hnofile c0).
      - by rewrite dir_at_cons.
      - done. }
    destruct (FS.lookup name dd) as [[c0|i]|] eqn:Ho.
    + inversion Hrun; subst. intros q c Hq. by left.
    + simpl in Hrun.
      destruct (Shutil.copy_entries _ _ _) as [[sub' inner'] e] eqn:Hent.
      inversion Hrun; subst. rewrite lookup_put_eq.
      by apply (Hdir i sub' inner' errs (Some (Dir i))).
    + simpl in Hrun.
      destruct (Shutil.copy_entries _ _ _) as [[sub' inner'] e] eqn:Hent.
      inversion Hrun; subst. rewrite lookup_put_eq.
      by apply (Hdir [] sub' inner' errs None).
Qed.

(** X15. Relocation loses no file, whether it raises or not: each regular file
    of the working tree is afterwards still in the working tree where it
    was, or in the output directory, at its own relative path or, where the
    output directory had a directory at that path, inside that directory
    under its own name. *)
Theorem relocation_loses_no_file
    src dst_path (dst : option node) r src' dst' :
  FS.well_formed (Dir src) = true ->
  Shutil.copytree src dst_path dst = (r, src', dst') ->
  forall q name c,
    FS.file_at (q ++ [name]) (Some (Dir src)) = Some c ->
    FS.file_at (q ++ [name]) (Some (Dir src')) = Some c
    \/ (if FS.dir_at (q ++ [name]) dst
        then FS.file_at (q ++ [name; name]) dst' = Some c
        else FS.file_at (q ++ [name]) dst' = Some c).
Proof.
  intros Hwf Hrun q name c Hq. unfold Shutil.copytree in Hrun.
  assert (Forall (fun kx =>
            forall path name dd r dd' errs,
              FS.well_formed kx.2 = true ->
              Shutil.copy_node path name kx.2 dd = (r, dd', errs) ->
              Tree.conserved name kx.2 r (FS.lookup name dd)
                             (FS.lookup name dd')) src) as Hall.
  { apply Forall_forall. intros [k x] _. apply conserved_node. }
  assert (forall i s' i' e,
            i = Tree.entries_of dst ->
            (forall c, dst <> Some (File c)) ->
            Shutil.copy_entries [] src i = (s', i', e) ->
            FS.file_at (q ++ [name]) (Some (Dir s')) = Some c
            \/ (if FS.dir_at (q ++ [name]) dst
                then FS.file_at (q ++ [name; name]) (Some (Dir i')) = Some c
                else FS.file_at (q ++ [name]) (Some (Dir i')) = Some c)) as Hgen.
  { intros i s' i' e Hi Hnofile Hent.
    destruct (conserved_entries src Hall _ _ _ _ _ Hwf Hent) as [Hframe Hcons].
    apply file_at_sub in Hq.
    destruct (q ++ [name]) as [|k p] eqn:Hp; [by destruct q|].
    simpl in Hq. destruct (FS.lookup k src) as [x|] eqn:Hk; [|done].
    assert (List.last p k = name) as Hlast.
    { rewrite <- (last_cons_default k name), <- Hp. apply last_last. }
    replace (q ++ [name; name]) with ((k :: p) ++ [name])
      by (by rewrite <- Hp, <- app_assoc).
    rewrite <- app_comm_cons, !file_at_cons.
    destruct (Hcons k x Hk p c Hq) as [Hstay|Hgo].
    - left. unfold FS.file_at. by rewrite Hstay.
    - right. rewrite Hlast in Hgo.
      destruct dst as [[c0|j]|]; simpl in Hi; subst i.
      + by destruct (Hnofile c0).
      + by rewrite dir_at_cons.
      + done. }
  destruct dst as [[c0|i]|].
  - inversion Hrun; subst. by left.
  - destruct (Shutil.copy_entries [] src i) as [[s' i'] e] eqn:Hent.
    inversion Hrun; subst. by eapply Hgen; [| |exact Hent].
  - destruct (Shutil.copy_entries [] src []) as [[s' i'] e] eqn:Hent.
    inversion Hrun; subst. by eapply Hgen; [| |exact Hent].
Qed.

End RelocationFacts.

(** * The command line program *)

Section MainFacts.

Context {Env : Type}.
Variable shell : string -> string -> machine Env -> machine Env * Z.
Variable open_csv : machine Env -> string -> string -> option Csv.lines.
Variable abspath : string -> string -> string.
Variable mkdtemp : Env -> Env * string.

Local Abbreviation enter := (enter_temp_dir Env mkdtemp).

(** The loop with [m + 1] attempts left: it ends after at most that many
    downloads, and it is only after the last of them that it ends for want
    of attempts. *)
Lemma attempts_bounded_exit self cart_file manifest n_files n m :
  forall fuel i (st : proc Env),
    (m < fuel)%nat ->
    i + Z.of_nat m = n ->
    exists r k,
      (k <= m)%nat
      /\ attempts Env shell open_csv self fuel cart_file manifest n_files n i st
         = Some (r, after_downloads Env shell self cart_file (S k) st)
      /\ (r = Return Exhausted <-> k = m).
Proof.
  induction m as [|m IH]; intros fuel i st Hfuel Hn;
    (destruct fuel as [|fuel]; [lia|]); rewrite attempts_unfold.
  - decide_index. by exists (Return Exhausted), 0%nat.
  - decide_index.
    destruct (all_files_downloaded _ _ _ _ _) as [[|]|e] eqn:Hv.
    + exists (Return Verified), 0%nat. repeat split; [lia|done|lia].
    + destruct (IH fuel (i + 1) (snd (_run_prefetch Env shell self cart_file st)))
        as (r & k & Hk & Hrun & Hex); [lia|lia|].
      exists r, (S k). split; [lia|]. split.
      * by rewrite Hrun, <- after_S.
      * rewrite Hex. lia.
    + exists (Raise e), 0%nat. repeat split; [lia|done|lia].
Qed.

(** X17. The program as run from the command line always ends (given that the
    tools do): the downloader is started once, twice or three times, the
    exit status is 0 or 1, and a third run of the downloader means exit
    status 1 whatever that run brought, its result never being checked. *)
Theorem main_ends_within_three_downloads
    (fuel : nat) (args : Cli.Namespace) (st : proc Env) :
  (3 <= fuel)%nat ->
  exists code st' k,
    main Env shell open_csv abspath mkdtemp fuel args st = Some (code, st')
    /\ (code = 0 \/ code = 1)
    /\ invocations Downloader (trace st')
       = (invocations Downloader (trace st) + k)%nat
    /\ (1 <= k <= 3)%nat
    /\ (k = 3%nat -> code = 1).
Proof.
  intros Hfuel. unfold main. rewrite download_files_unfold.
  set (self := init abspath (cwd st) (Cli.ngc args) (Cli.prefetch args)
                 (Cli.outdir args)).
  destruct (attempts_bounded_exit self (abspath (cwd st) (Cli.cart args))
              (Cli.manifest args) (Cli.n_files args) Cli.default_n_retries
              2 fuel 1 (enter st).2) as (r & k & Hk & Hrun & Hex);
    [lia|done|].
  rewrite Hrun.
  assert (invocations Downloader
            (trace (after_downloads Env shell self
                      (abspath (cwd st) (Cli.cart args)) (S k) (enter st).2))
          = (invocations Downloader (trace st) + S k)%nat) as Hinv
    by (by rewrite after_invocations, enter_trace).
  destruct r as [[|]|e].
  - eexists _, _, (S k). split; [reflexivity|].
    rewrite set_tmp_trace. repeat split; [by right|done|lia|lia].
  - eexists _, _, (S k). split; [reflexivity|].
    rewrite set_tmp_trace, finish_downloader.
    repeat split; [|done|lia|lia|].
    + destruct (finish _ _ _ _ _ _ _).1 as [[|]|e]; simpl; auto.
    + intros Hk3. assert (k = 2%nat) as Hk2 by lia.
      apply Hex in Hk2. discriminate.
  - eexists _, _, (S k). split; [reflexivity|].
    rewrite set_tmp_trace. repeat split; [by right|done|lia|lia].
Qed.

End MainFacts.

(** * More examples *)

Module Checks.

Import Scenario.

Local Abbreviation run sh :=
  (download_files nat sh open_csv abspath mkdtemp fetcher).
Local Abbreviation entered := (enter_temp_dir nat mkdtemp start).2.
Local Abbreviation downloaded sh k :=
  (after_downloads nat sh fetcher "/home/u/cart.krt" k entered).

(** Two attempts, the second one unchecked: the answer is [False] and the
    process is left in [/tmp/tmpk3v9]. *)
Lemma download_files_leaves_cwd_witness :
  cwd (set_tmp nat [] (downloaded shell 2)) = "/tmp/tmpk3v9".
Proof.
  apply (download_files_leaves_cwd shell open_csv abspath mkdtemp fetcher
           2 "cart.krt" (Some "/data/manifest.csv") None 2 false start
           (Return false) (set_tmp nat [] (downloaded shell 2))).
  vm_compute. reflexivity.
Defined.

(** Verified at the second of three attempts, and so at the second of
    five. *)
Lemma download_files_larger_budget_witness :
  run shell 5 "cart.krt" (Some "/data/manifest.csv") None 5 false start
  = Some (Return true,
          set_tmp nat []
            (finish nat shell fetcher "/tmp/tmpk3v9" "/home/u" false
               (downloaded shell 2)).2).
Proof.
  apply (download_files_larger_budget shell open_csv abspath mkdtemp fetcher
           5 "cart.krt" (Some "/data/manifest.csv") None 3 5 false start).
  - lia.
  - lia.
  - vm_compute. reflexivity.
  - discriminate.
Defined.

(** A downloader that reports 7 on every run changes nothing. *)
Lemma download_files_ignores_downloader_status_witness :
  run shell 5 "cart.krt" (Some "/data/manifest.csv") None 3 true start
  = run Fixtures.shell_noisy 5 "cart.krt" (Some "/data/manifest.csv") None 3
      true start.
Proof.
  apply (download_files_ignores_downloader_status shell Fixtures.shell_noisy).
  - intros cmd wd m. reflexivity.
  - intros cmd wd m Htar. unfold Fixtures.shell_noisy. simpl. by rewrite Htar.
Defined.

(** The manifest with the name column in second place: [a.txt] for the
    first line, nothing for the last, the blank line skipped. *)
Lemma read_manifest_by_position_witness :
  _read_manifest nat Fixtures.open_csv "/data/short_row.csv" (downloaded shell 1)
  = Return [Some "a.txt"; None].
Proof.
  apply (read_manifest_by_position Fixtures.open_csv "/data/short_row.csv"
           (downloaded shell 1) ["Size"; "File Name"]
           [["10"; "a.txt"]; []; ["20"]] 1).
  - reflexivity.
  - reflexivity.
  - intros [|[|j]] Hj; [lia|lia|discriminate].
Defined.

(** With that manifest the check fails although [a.txt], the one name it
    lists, is the one file there. *)
Lemma short_row_fails_check_witness :
  FS.listdir (tmp (mach (downloaded shell 1))) = ["a.txt"]
  /\ _check_prefetch_against_manifest nat Fixtures.open_csv
       "/data/short_row.csv" (downloaded shell 1) = Return false.
Proof.
  split; [reflexivity|].
  apply (short_row_fails_check Fixtures.open_csv "/data/short_row.csv"
           (downloaded shell 1) ["Size"; "File Name"]
           [["10"; "a.txt"]; []; ["20"]] 1 ["20"]).
  - reflexivity.
  - reflexivity.
  - intros [|[|j]] Hj; [lia|lia|discriminate].
  - right. right. left.
  - discriminate.
  - simpl. lia.
Defined.

(** A manifest named relative to the directory the program was started
    in is looked for in the temporary directory. *)
Lemma unreadable_manifest_raises_witness :
  cwd (downloaded shell 1) = "/tmp/tmpk3v9"
  /\ download_files nat shell Fixtures.open_csv abspath mkdtemp fetcher 1
       "cart.krt" (Some "manifest.csv") None 3 false start
     = Some (Raise (OSError "manifest.csv"), set_tmp nat [] (downloaded shell 1))
  /\ invocations Downloader (trace (downloaded shell 1))
     = (invocations Downloader (trace start) + 1)%nat.
Proof.
  apply (unreadable_manifest_raises shell Fixtures.open_csv abspath mkdtemp
           fetcher 3 1 "cart.krt" "manifest.csv" None false start).
  - reflexivity.
  - reflexivity.
  - lia.
  - lia.
Defined.

(** [sample.tar.gz] after [sample.tar]. *)
Lemma untar_name_collision_witness :
  exists st',
    _untar nat shell_twins "/tmp/tmpk3v9" (downloaded shell_twins 1)
    = (Raise (FileExistsError "/tmp/tmpk3v9/sample"), st')
    /\ commands Extractor (trace st')
       = commands Extractor (trace (downloaded shell_twins 1))
         ++ ["tar -xvf sample.tar -C /tmp/tmpk3v9/sample"]
    /\ FS.lookup "sample.tar.gz" (tmp (mach st')) = Some (File "gz")
    /\ (forall g, g ∈ ["sample.tar"] -> FS.lookup g (tmp (mach st')) = None).
Proof.
  apply (untar_name_collision shell_twins "/tmp/tmpk3v9"
           (downloaded shell_twins 1) ["sample.tar"] "sample.tar.gz" [] "gz").
  - vm_compute. reflexivity.
  - intros g Hg. apply list_elem_of_singleton in Hg as ->.
    eexists. vm_compute. reflexivity.
  - intros g Hg. apply list_elem_of_singleton in Hg as ->.
    split; vm_compute; reflexivity.
  - apply (bool_decide_unpack _). vm_compute. reflexivity.
  - intros p g q m Hsplit _.
    destruct p as [|x [|y p]]; [|discriminate|discriminate].
    inversion Hsplit; subst g q.
    split; [intros name _; reflexivity|intros Hdir; exact Hdir].
  - intros p g q m Hsplit _.
    destruct p as [|x [|y p]]; [|discriminate|discriminate].
    inversion Hsplit; subst g q. reflexivity.
  - vm_compute. reflexivity.
  - apply (bool_decide_unpack _). vm_compute. reflexivity.
  - apply (bool_decide_unpack _). vm_compute. reflexivity.
Defined.

(** A file and a directory with a file in it, none of them in the output
    directory yet, which holds [old.txt]. *)
Lemma relocation_onto_fresh_names_witness :
  exists st',
    finish nat shell fetcher "/tmp/tmpk3v9" "/home/u" false
      Fixtures.before_relocation = (Return true, st')
    /\ cwd st' = "/home/u"
    /\ FS.file_at ["a.txt"] (out (mach st')) = Some "data"
    /\ FS.file_at ["logs"; "run.log"] (out (mach st')) = Some "log"
    /\ FS.file_at ["old.txt"] (out (mach st')) = Some "old"
    /\ FS.dir_at ["logs"] (out (mach st')) = true
    /\ FS.file_at ["logs"; "run.log"] (Some (Dir (tmp (mach st')))) = None.
Proof.
  destruct (relocation_onto_fresh_names shell fetcher "/tmp/tmpk3v9" "/home/u"
              false Fixtures.before_relocation Fixtures.before_relocation)
    as (st' & Hfin & Hcwd & Hfile & Hdir & Hclear).
  - reflexivity.
  - vm_compute. reflexivity.
  - discriminate.
  - intros k Hk. apply elem_of_cons in Hk as [->|Hk];
      [|apply list_elem_of_singleton in Hk as ->]; reflexivity.
  - exists st'. split; [exact Hfin|]. split; [exact Hcwd|].
    rewrite !Hfile, Hdir. split; [reflexivity|]. split; [reflexivity|].
    split; [reflexivity|]. split; [reflexivity|]. apply Hclear.
Defined.

(** A relocation that fails on [logs]: [a.txt] has arrived, [logs/run.log]
    is still in the working tree. *)
Lemma relocation_loses_no_file_witness :
  (Shutil.copytree Fixtures.work_tree "/home/u/out" Fixtures.blocked_output).1.1
  = Raise (ShutilError [["logs"]])
  /\ FS.file_at ["a.txt"]
       (Shutil.copytree Fixtures.work_tree "/home/u/out"
          Fixtures.blocked_output).2 = Some "data"
  /\ FS.file_at ["logs"; "run.log"]
       (Some (Dir (Shutil.copytree Fixtures.work_tree "/home/u/out"
                     Fixtures.blocked_output).1.2)) = Some "log".
Proof.
  split; [reflexivity|].
  pose proof (relocation_loses_no_file Fixtures.work_tree "/home/u/out"
                Fixtures.blocked_output
                (Raise (ShutilError [["logs"]]))
                [("logs", Dir [("run.log", File "log")])]
                (Some (Dir [("logs", File "old"); ("a.txt", File "data")])))
    as Hkept.
  split.
  - destruct (Hkept eq_refl eq_refl [] "a.txt" "data" eq_refl) as [H|H];
      [discriminate|exact H].
  - destruct (Hkept eq_refl eq_refl ["logs"] "run.log" "log" eq_refl) as [H|H];
      [exact H|discriminate].
Defined.

(** [--n-files 2]: two runs of the downloader, exit status 0. *)
Lemma main_ends_within_three_downloads_witness :
  exists code st' k,
    main nat shell open_csv abspath mkdtemp 3 Fixtures.args start
    = Some (code, st')
    /\ (code = 0 \/ code = 1)
    /\ invocations Downloader (trace st')
       = (invocations Downloader (trace start) + k)%nat
    /\ (1 <= k <= 3)%nat
    /\ (k = 3%nat -> code = 1).
Proof.
  apply (main_ends_within_three_downloads shell open_csv abspath mkdtemp 3
           Fixtures.args start).
  lia.
Defined.

End Checks.

(** * The paths of the command line *)

Section Paths.

Lemma startswith_slash_cons c x :
  Str.startswith (String c x) "/" = if ascii_dec "/" c then true else false.
Proof. by destruct x. Qed.

Lemma startswith_slash_app a b :
  Str.startswith a "/" = true -> Str.startswith (a +:+ b) "/" = true.
Proof.
  destruct a as [|c a]; [done|].
  change (String c a +:+ b) with (String c (a +:+ b)).
  by rewrite !startswith_slash_cons.
Qed.

Lemma normpath_absolute path :
  Str.startswith path "/" = true ->
  Str.startswith (Posix.normpath path) "/" = true.
Proof.
  intros Habs. unfold Posix.normpath.
  destruct path as [|c path]; [done|]. cbn [Str.truthy negb].
  unfold Posix.initial_slashes. rewrite Habs.
  set (J := fun k => Posix.join_slash
                       (rev (fold_left (Posix.step k)
                               (Posix.split_slash (String c path)) []))).
  destruct (_ && _).
  - change (Str.startswith
              (if Str.truthy (String "/" (String "/" (J 2%nat)))
               then String "/" (String "/" (J 2%nat)) else ".") "/" = true).
    cbn [Str.truthy]. by rewrite startswith_slash_cons.
  - change (Str.startswith
              (if Str.truthy (String "/" (J 1%nat))
               then String "/" (J 1%nat) else ".") "/" = true).
    cbn [Str.truthy]. by rewrite startswith_slash_cons.
Qed.

(** With the current directory absolute, as [os.getcwd()] is, so is every
    path [abspath] returns. *)
Lemma abspath_absolute wd path :
  Str.startswith wd "/" = true ->
  Str.startswith (Posix.abspath wd path) "/" = true.
Proof.
  intros Hwd. unfold Posix.abspath. apply normpath_absolute.
  destruct (Str.startswith path "/") eqn:Hp; [done|].
  unfold Path.join. rewrite Hp.
  destruct (_ || _); by apply startswith_slash_app.
Qed.

(** X18. The program named in the downloader's command line is always an
    absolute path, made from the directory the fetcher was set up in: the
    shell is never left to find [prefetch] on the search path, not even for
    the default [--prefetch prefetch]. *)
Theorem prefetch_is_run_by_absolute_path wd ngc pf outdir cart_file :
  Str.startswith wd "/" = true ->
  prefetch (init Posix.abspath wd ngc pf outdir) = Posix.abspath wd pf
  /\ Str.startswith (Posix.abspath wd pf) "/" = true
  /\ exists rest,
       prefetch_cmd (init Posix.abspath wd ngc pf outdir) cart_file
       = Posix.abspath wd pf +:+ " --ngc " +:+ rest.
Proof.
  intros Hwd. split; [done|]. split; [by apply abspath_absolute|].
  unfold prefetch_cmd.
  destruct (Str.truthy _); eexists; rewrite ?append_assoc; reflexivity.
Qed.

(** [normpath] and [abspath] on the inputs CPython's documentation and
    tests use. *)
Example normpath_samples :
  Posix.normpath "/home/u/../x//y/." = "/home/x/y"
  /\ Posix.normpath "//a" = "//a"
  /\ Posix.normpath "///a" = "/a"
  /\ Posix.normpath "" = "."
  /\ Posix.normpath "a/.." = "."
  /\ Posix.normpath "../a" = "../a"
  /\ Posix.normpath "/.." = "/"
  /\ Posix.normpath "a/b/../../.." = ".."
  /\ Posix.normpath "a//b/" = "a/b"
  /\ Posix.abspath "/home/u" "../x" = "/home/x"
  /\ Posix.abspath "/home/u" "" = "/home/u"
  /\ Posix.abspath "/home/u" "/opt/sra/bin/prefetch" = "/opt/sra/bin/prefetch".
Proof. repeat split. Qed.

End Paths.

Module PathChecks.

(** The default [--prefetch prefetch], with the program started in
    [/home/u]: the command line starts with [/home/u/prefetch]. *)
Lemma prefetch_is_run_by_absolute_path_witness :
  Posix.abspath "/home/u" Cli.default_prefetch = "/home/u/prefetch"
  /\ prefetch (init Posix.abspath "/home/u" "prj.ngc" Cli.default_prefetch "out")
     = Posix.abspath "/home/u" Cli.default_prefetch
  /\ Str.startswith (Posix.abspath "/home/u" Cli.default_prefetch) "/" = true
  /\ exists rest,
       prefetch_cmd
         (init Posix.abspath "/home/u" "prj.ngc" Cli.default_prefetch "out")
         "/home/u/cart.krt"
       = Posix.abspath "/home/u" Cli.default_prefetch +:+ " --ngc " +:+ rest.
Proof.
  split; [reflexivity|].
  apply (prefetch_is_run_by_absolute_path "/home/u" "prj.ngc"
           Cli.default_prefetch "out" "/home/u/cart.krt").
  reflexivity.
Defined.

End PathChecks.

(** * Edge cases of a call *)

Section EdgeFacts.

Context {Env : Type}.
Variable shell : string -> string -> machine Env -> machine Env * Z.
Variable open_csv : machine Env -> string -> string -> option Csv.lines.
Variable abspath : string -> string -> string.
Variable mkdtemp : Env -> Env * string.
Variable self : dbGaPFileFetcher.

Local Abbreviation after := (after_downloads Env shell self).
Local Abbreviation verify := (all_files_downloaded Env open_csv).
Local Abbreviation enter := (enter_temp_dir Env mkdtemp).
Local Abbreviation download :=
  (download_files Env shell open_csv abspath mkdtemp self).
Local Abbreviation loop := (attempts Env shell open_csv self).

(** Entered above the bound, the loop is never left for want of
    attempts. *)
Lemma attempts_never_exhausted cart_file manifest n_files n :
  forall fuel i st r st1,
    n < i ->
    loop fuel cart_file manifest n_files n i st = Some (r, st1) ->
    r <> Return Exhausted.
Proof.
  induction fuel as [|fuel IH]; intros i st r st1 Hn Hrun; [done|].
  rewrite attempts_unfold in Hrun.
  destruct (Z.eqb_spec i n) as [->|Hne]; [lia|].
  destruct (all_files_downloaded _ _ _ _ _) as [[|]|e].
  - by inversion Hrun.
  - eapply IH; [|exact Hrun]. lia.
  - by inversion Hrun.
Qed.

Lemma finish_never_false temp_dir owd untar (st : proc Env) :
  (finish Env shell self temp_dir owd untar st).1 <> Return false.
Proof.
  unfold finish.
  destruct (extraction _ _ _ _ _) as [[[]|e] st1]; simpl; [|done].
  by destruct (Shutil.copytree _ _ _) as [[[[]|e] src'] dst'].
Qed.

(** X4. [n_retries] below 1 does not mean no attempt, it means no limit:
    the attempt index starts at 1 and never equals it.  Such a call never
    answers [False]; it ends only when a check passes or raises, and when
    the check keeps answering false it does not end at all. *)
Theorem download_files_without_budget
    (n : Z) cart manifest n_files untar (st : proc Env) :
  n < 1 ->
  (forall fuel r st',
     download fuel cart manifest n_files n untar st = Some (r, st') ->
     r <> Return false)
  /\ ((forall j, verify manifest n_files
                   (after (abspath (cwd st) cart) (S j) (enter st).2)
                 = Return false) ->
      forall fuel, download fuel cart manifest n_files n untar st = None).
Proof.
  intros Hn. split.
  - intros fuel r st'. rewrite download_files_unfold. intros Hrun.
    destruct (loop fuel (abspath (cwd st) cart) manifest n_files n 1
                (enter st).2) as [[r1 st1]|] eqn:Hloop; [|done].
    pose proof (attempts_never_exhausted _ _ _ n fuel 1 _ r1 st1
                  ltac:(lia) Hloop) as Hex.
    destruct r1 as [[|]|e]; [done| |by inversion Hrun].
    cbv zeta in Hrun. inversion Hrun; subst. apply finish_never_false.
  - intros Hfail fuel. rewrite download_files_unfold.
    by rewrite (attempts_unbounded shell open_csv self _ manifest n_files n).
Qed.

Lemma list_to_set_somes_empty (l : list string) :
  (list_to_set (Some <$> l) : gset (option string)) = list_to_set []
  <-> l = [].
Proof.
  split; [|by intros ->]. destruct l as [|x l]; [done|].
  intros Heq. exfalso.
  assert (Some x ∈ (list_to_set [] : gset (option string))) as Hin
    by (rewrite <- Heq; apply elem_of_list_to_set; left).
  by apply elem_of_list_to_set, elem_of_nil in Hin.
Qed.

(** X9. A manifest without data rows (an empty file, a header alone, a
    header followed by blank lines) is a manifest that expects no file,
    whatever its header says: the check passes exactly when the working
    directory is empty. *)
Theorem manifest_without_rows_expects_nothing
    manifest (st : proc Env) (lines : Csv.lines) :
  open_csv (mach st) (cwd st) manifest = Some lines ->
  filter (fun r => r ≠ []) (tail lines) = [] ->
  _check_prefetch_against_manifest Env open_csv manifest st
  = Return (bool_decide (FS.listdir (tmp (mach st)) = [])).
Proof.
  intros Hopen Hbody.
  unfold _check_prefetch_against_manifest, _read_manifest. rewrite Hopen.
  assert (file_names (Csv.DictReader lines) = Return []) as ->.
  { destruct lines as [|header body]; [done|]. simpl in Hbody. simpl.
    by rewrite Hbody. }
  f_equal. apply bool_decide_ext, list_to_set_somes_empty.
Qed.

Lemma after_commands_extractor cart_file k (st : proc Env) :
  commands Extractor (trace (after cart_file k st))
  = commands Extractor (trace st).
Proof.
  rewrite after_trace, commands_app.
  replace (commands Extractor
             (repeat (Exec Downloader (prefetch_cmd self cart_file)) k))
    with (@nil string); [by rewrite app_nil_r|].
  induction k as [|k IH]; [done|]. exact IH.
Qed.

(** X13. The extractor is started only when extraction was asked for and
    a check has passed: a call without [untar], and a call that answers
    [False], start no [tar] at all, whatever archives were downloaded. *)
Theorem extractor_only_after_verification
    fuel cart manifest n_files n untar (st : proc Env) r st' :
  download fuel cart manifest n_files n untar st = Some (r, st') ->
  untar = false \/ r = Return false ->
  commands Extractor (trace st') = commands Extractor (trace st).
Proof.
  rewrite download_files_unfold. intros Hrun Hcase.
  destruct (loop fuel (abspath (cwd st) cart) manifest n_files n 1 (enter st).2)
    as [[r1 st1]|] eqn:Hloop; [|done].
  destruct (attempts_reaches shell open_csv self _ _ _ _ _ _ _ _ _ Hloop)
    as [k ->].
  assert (commands Extractor
            (trace (after (abspath (cwd st) cart) (S k) (enter st).2))
          = commands Extractor (trace st)) as Hc
    by (by rewrite after_commands_extractor, enter_trace).
  destruct r1 as [[|]|e].
  - by inversion Hrun; subst.
  - cbv zeta in Hrun. inversion Hrun as [[Hr Hst]]. clear Hrun.
    destruct Hcase as [-> | ->].
    + rewrite set_tmp_trace. unfold finish, extraction.
      cbv beta iota zeta.
      by destruct (Shutil.copytree _ _ _) as [[[[]|e] src'] dst'].
    + by destruct (finish_never_false _ _ _ _ Hr).
  - by inversion Hrun; subst.
Qed.

(** X16. Whether the output path can take the files is found out last.
    When a regular file is in the way, the call raises [FileExistsError]
    after the downloads have been made and verified; the current directory
    has been put back, the file at the output path is as it was, and the
    temporary directory is gone with everything that was downloaded. *)
Theorem output_path_is_file_loses_downloads
    (n : Z) (k fuel : nat) cart manifest n_files untar
    (st st_u : proc Env) c :
  (1 <= k)%nat ->
  Z.of_nat k < n ->
  (k <= fuel)%nat ->
  (forall j, (1 <= j < k)%nat ->
     verify manifest n_files (after (abspath (cwd st) cart) j (enter st).2)
     = Return false) ->
  verify manifest n_files (after (abspath (cwd st) cart) k (enter st).2)
  = Return true ->
  extraction Env shell (enter st).1 untar
    (after (abspath (cwd st) cart) k (enter st).2) = (Return tt, st_u) ->
  out (mach st_u) = Some (File c) ->
  exists st',
    download fuel cart manifest n_files n untar st
    = Some (Raise (FileExistsError (output_dir self)), st')
    /\ tmp (mach st') = []
    /\ out (mach st') = Some (File c)
    /\ cwd st' = cwd st
    /\ invocations Downloader (trace st')
       = (invocations Downloader (trace st) + k)%nat.
Proof.
  intros Hk Hkn Hfuel Hfail Hok Hext Hout.
  destruct (download_files_success_path shell open_csv abspath mkdtemp self
              n k fuel cart manifest n_files untar st Hk Hkn Hfuel Hfail Hok)
    as [Hrun Hinv].
  eexists. split; [|split; [|split; [|split]]]; [| | | |exact Hinv].
  - rewrite Hrun. unfold finish. rewrite Hext. cbv beta iota zeta.
    change (out (mach (chdir Env (cwd st) st_u))) with (out (mach st_u)).
    rewrite Hout. reflexivity.
  - reflexivity.
  - unfold finish. rewrite Hext. cbv beta iota zeta.
    change (out (mach (chdir Env (cwd st) st_u))) with (out (mach st_u)).
    by rewrite Hout.
  - unfold finish. rewrite Hext. cbv beta iota zeta.
    change (out (mach (chdir Env (cwd st) st_u))) with (out (mach st_u)).
    by rewrite Hout.
Qed.

End EdgeFacts.

Module EdgeChecks.

Import Scenario.

Local Abbreviation run sh :=
  (download_files nat sh open_csv abspath mkdtemp fetcher).
Local Abbreviation entered := (enter_temp_dir nat mkdtemp start).2.
Local Abbreviation downloaded sh k :=
  (after_downloads nat sh fetcher "/home/u/cart.krt" k entered).

(** [n_retries = 0] and nothing to check: one download, and the answer is
    not [False]. *)
Lemma download_files_without_budget_witness :
  exists r st',
    run shell 5 "cart.krt" None None 0 false start = Some (r, st')
    /\ r <> Return false.
Proof.
  exists (Return true). eexists. split; [vm_compute; reflexivity|].
  apply (proj1 (download_files_without_budget shell open_csv abspath mkdtemp
                  fetcher 0 "cart.krt" None None false start eq_refl)
           5%nat (Return true)
           (set_tmp nat []
              (finish nat shell fetcher "/tmp/tmpk3v9" "/home/u" false
                 (downloaded shell 1)).2)).
  vm_compute. reflexivity.
Defined.

(** Two attempts: both runs of the downloader get the one command line,
    which names the cart by the path it has from [/home/u]. *)
Lemma download_files_commands_witness :
  exists k,
    commands Downloader (trace (set_tmp nat [] (downloaded shell 2)))
    = commands Downloader (trace start)
      ++ repeat (prefetch_cmd fetcher (abspath (cwd start) "cart.krt")) k.
Proof.
  apply (download_files_commands shell open_csv abspath mkdtemp fetcher
           2 "cart.krt" (Some "/data/manifest.csv") None 2 false start
           (Return false) (set_tmp nat [] (downloaded shell 2))).
  vm_compute. reflexivity.
Defined.

(** A manifest that is a header and nothing else, and [a.txt] in the
    working directory: the check fails. *)
Lemma manifest_without_rows_expects_nothing_witness :
  FS.listdir (tmp (mach (downloaded shell 1))) = ["a.txt"]
  /\ _check_prefetch_against_manifest nat open_csv "/data/header_only.csv"
       (downloaded shell 1)
     = Return (bool_decide (FS.listdir (tmp (mach (downloaded shell 1))) = [])).
Proof.
  split; [reflexivity|].
  apply (manifest_without_rows_expects_nothing open_csv
           "/data/header_only.csv" (downloaded shell 1) [["Name"; "Size"]]).
  - reflexivity.
  - reflexivity.
Defined.

(** One attempt allowed and extraction asked for: the archives are there,
    the answer is [False], and no [tar] was started. *)
Lemma extractor_only_after_verification_witness :
  FS.listdir (tmp (mach (downloaded (shell_archives false) 1)))
  = ["reads.tar.gz"; "notes.txt"; "broken.tar"]
  /\ commands Extractor
       (trace (set_tmp nat [] (downloaded (shell_archives false) 1)))
     = commands Extractor (trace start).
Proof.
  split; [reflexivity|].
  apply (extractor_only_after_verification (shell_archives false) open_csv
           abspath mkdtemp fetcher 1 "cart.krt" None (Some 3) 1 true start
           (Return false)
           (set_tmp nat [] (downloaded (shell_archives false) 1))).
  - vm_compute. reflexivity.
  - by right.
Defined.

(** One file expected and delivered, and a regular file at the output
    path. *)
Lemma output_path_is_file_loses_downloads_witness :
  exists st',
    download_files nat shell open_csv abspath mkdtemp fetcher 1 "cart.krt"
      None (Some 1) 3 false Fixtures.start_onto_file
    = Some (Raise (FileExistsError (output_dir fetcher)), st')
    /\ tmp (mach st') = []
    /\ out (mach st') = Some (File "notes")
    /\ cwd st' = cwd Fixtures.start_onto_file
    /\ invocations Downloader (trace st')
       = (invocations Downloader (trace Fixtures.start_onto_file) + 1)%nat.
Proof.
  apply (output_path_is_file_loses_downloads shell open_csv abspath mkdtemp
           fetcher 3 1 1 "cart.krt" None (Some 1) false
           Fixtures.start_onto_file
           (after_downloads nat shell fetcher "/home/u/cart.krt" 1
              (enter_temp_dir nat mkdtemp Fixtures.start_onto_file).2)
           "notes").
  - lia.
  - lia.
  - lia.
  - intros j Hj. lia.
  - reflexivity.
  - reflexivity.
  - reflexivity.
Defined.

End EdgeChecks.
